(** * servicenow.py: date/time values, ranges and the table client

    A shallow embedding of [servicenow.py] and of the parts of the Python
    runtime it relies on (the proleptic Gregorian calendar of [datetime],
    [strptime]/[strftime] for the two formats the module uses, dictionaries
    and attribute lookup), followed by the properties of the module. *)

From Stdlib Require Import ZArith List String Ascii Bool Lia.
Import ListNotations.
Local Open Scope Z_scope.

(** ** Python results: a value or a raised exception *)

(** The exception classes that occur.  [ReferenceError] stands for the use
    of a table or query that was never created, which the objects below
    rule out by their position in memory. *)
Inductive exn_class : Type :=
  | ValueError
  | TypeError
  | KeyError
  | AttributeError
  | AssertionError
  | OverflowError
  | ServiceNowError
  | ReferenceError.

Inductive result (A : Type) : Type :=
  | Ok (a : A)
  | Raise (c : exn_class) (msg : string).
Arguments Ok {A} a.
Arguments Raise {A} c msg.

Definition bind {A B : Type} (r : result A) (k : A -> result B) : result B :=
  match r with
  | Ok a => k a
  | Raise c msg => Raise c msg
  end.

Notation "x <- r ;; k" := (bind r (fun x => k))
  (at level 61, r at next level, right associativity).

Definition raised {A : Type} (r : result A) : option exn_class :=
  match r with
  | Ok _ => None
  | Raise c _ => Some c
  end.

(** ** The calendar of [datetime] *)

Module Calendar.

Definition MINYEAR : Z := 1.
Definition MAXYEAR : Z := 9999.
Definition MAXORDINAL : Z := 3652059.

Definition DI400Y : Z := 146097.
Definition DI100Y : Z := 36524.
Definition DI4Y : Z := 1461.

Definition is_leap (year : Z) : bool :=
  (year mod 4 =? 0) && (negb (year mod 100 =? 0) || (year mod 400 =? 0)).

Definition DAYS_IN_MONTH (month : Z) : Z :=
  match month with
  | 1 => 31 | 2 => 28 | 3 => 31 | 4 => 30 | 5 => 31 | 6 => 30
  | 7 => 31 | 8 => 31 | 9 => 30 | 10 => 31 | 11 => 30 | 12 => 31
  | _ => -1
  end.

Definition DAYS_BEFORE_MONTH (month : Z) : Z :=
  match month with
  | 1 => 0 | 2 => 31 | 3 => 59 | 4 => 90 | 5 => 120 | 6 => 151
  | 7 => 181 | 8 => 212 | 9 => 243 | 10 => 273 | 11 => 304 | 12 => 334
  | _ => -1
  end.

Definition b2z (b : bool) : Z := if b then 1 else 0.

Definition days_before_year (year : Z) : Z :=
  let y := year - 1 in
  y * 365 + y / 4 - y / 100 + y / 400.

Definition days_in_month (year month : Z) : Z :=
  if (month =? 2) && is_leap year then 29 else DAYS_IN_MONTH month.

Definition days_before_month (year month : Z) : Z :=
  DAYS_BEFORE_MONTH month + b2z ((2 <? month) && is_leap year).

Definition ymd2ord (year month day : Z) : Z :=
  days_before_year year + days_before_month year month + day.

(** The month and day of the [n]-th day (from 0) of a year. *)
Definition month_day (n : Z) (leapyear : bool) : Z * Z :=
  let month := Z.shiftr (n + 50) 5 in
  let preceding := DAYS_BEFORE_MONTH month + b2z ((2 <? month) && leapyear) in
  if n <? preceding then
    let month' := month - 1 in
    let preceding' :=
      preceding - (DAYS_IN_MONTH month' + b2z ((month' =? 2) && leapyear)) in
    (month', n - preceding' + 1)
  else (month, n - preceding + 1).

Definition ord2ymd (n0 : Z) : Z * Z * Z :=
  let n := n0 - 1 in
  let n400 := n / DI400Y in
  let n := n mod DI400Y in
  let year := n400 * 400 + 1 in
  let n100 := n / DI100Y in
  let n := n mod DI100Y in
  let n4 := n / DI4Y in
  let n := n mod DI4Y in
  let n1 := n / 365 in
  let n := n mod 365 in
  let year := year + (n100 * 100 + n4 * 4 + n1) in
  if (n1 =? 4) || (n100 =? 4) then (year - 1, 12, 31)
  else
    let leapyear := (n1 =? 3) && (negb (n4 =? 24) || (n100 =? 3)) in
    let '(month, day) := month_day n leapyear in
    (year, month, day).

Definition check_date_fields (year month day : Z) : bool :=
  (MINYEAR <=? year) && (year <=? MAXYEAR) &&
  (1 <=? month) && (month <=? 12) &&
  (1 <=? day) && (day <=? days_in_month year month).

Definition check_time_fields (hour minute second : Z) : bool :=
  (0 <=? hour) && (hour <=? 23) &&
  (0 <=? minute) && (minute <=? 59) &&
  (0 <=? second) && (second <=? 59).

End Calendar.

(** ** Strings as Python sees them *)

Module PyString.

Local Open Scope string_scope.
Local Open Scope Z_scope.

Definition is_digit (c : ascii) : bool :=
  let n := Z.of_nat (nat_of_ascii c) in (48 <=? n) && (n <=? 57).

Definition digit_val (c : ascii) : Z := Z.of_nat (nat_of_ascii c) - 48.

Definition digit_char (z : Z) : ascii := ascii_of_nat (Z.to_nat (z + 48)).

(** [\s] of the [re] module, on ASCII: space, \t, \n, \v, \f, \r. *)
Definition is_space (c : ascii) : bool :=
  let n := Z.of_nat (nat_of_ascii c) in (n =? 32) || ((9 <=? n) && (n <=? 13)).

Definition in_range (lo hi : ascii) (c : ascii) : bool :=
  let n := nat_of_ascii c in
  (Nat.leb (nat_of_ascii lo) n) && (Nat.leb n (nat_of_ascii hi)).

Definition is_char (a c : ascii) : bool := Ascii.eqb a c.

(** [int(text)] for a run of decimal digits with optional leading blanks. *)
Fixpoint digits_value (acc : Z) (l : list ascii) : Z :=
  match l with
  | [] => acc
  | c :: l' => digits_value (10 * acc + digit_val c) l'
  end.

Fixpoint lstrip (l : list ascii) : list ascii :=
  match l with
  | c :: l' => if is_space c then lstrip l' else l
  | [] => []
  end.

Definition int_of (l : list ascii) : Z := digits_value 0 (lstrip l).

(** [%02d] and [%04d]. *)
Definition pad2 (v : Z) : list ascii :=
  [digit_char (v / 10 mod 10); digit_char (v mod 10)].

Definition pad4 (v : Z) : list ascii :=
  [digit_char (v / 1000 mod 10); digit_char (v / 100 mod 10);
   digit_char (v / 10 mod 10); digit_char (v mod 10)].

(** [s.startswith(p)] *)
Fixpoint startswith (p s : string) : bool :=
  match p, s with
  | EmptyString, _ => true
  | String a p', String b s' => Ascii.eqb a b && startswith p' s'
  | String _ _, EmptyString => false
  end.

(** [s.find(sub)]: the least index where [sub] occurs, or -1. *)
Fixpoint find_from (i : Z) (sub s : string) : Z :=
  if startswith sub s then i
  else match s with
       | EmptyString => -1
       | String _ s' => find_from (i + 1) sub s'
       end.

Definition find (s sub : string) : Z := find_from 0 sub s.

(** [s.endswith("/")] and [s[0:-1]], on the characters of [s]. *)
Fixpoint endswith_char (c : ascii) (s : string) : bool :=
  match s with
  | EmptyString => false
  | String a EmptyString => Ascii.eqb a c
  | String _ s' => endswith_char c s'
  end.

Fixpoint slice_0_m1 (s : string) : string :=
  match s with
  | EmptyString => EmptyString
  | String _ EmptyString => EmptyString
  | String a s' => String a (slice_0_m1 s')
  end.

(** [s.upper()] on ASCII letters. *)
Definition upper_char (c : ascii) : ascii :=
  if in_range "a"%char "z"%char c then ascii_of_nat (nat_of_ascii c - 32) else c.

Fixpoint upper (s : string) : string :=
  match s with
  | EmptyString => EmptyString
  | String c s' => String (upper_char c) (upper s')
  end.

(** [sep.join(items)] *)
Fixpoint join (sep : string) (items : list string) : string :=
  match items with
  | [] => ""
  | [x] => x
  | x :: rest => (x ++ sep ++ join sep rest)%string
  end.

End PyString.

(** ** [datetime], [timedelta] and time zones *)

Module PyDatetime.

Import Calendar PyString.

(** The time-zone objects a [datetime] can carry: [pytz.utc], or a zone
    instance with a fixed offset in seconds, which is what [localize] of a
    [pytz] zone attaches. *)
Inductive tzobj : Type :=
  | TZ_UTC
  | TZ_fixed (utcoffset : Z).

(** [datetime] values to the second.  The [microsecond] of every
    [DateTime] is 0, since [DateTime.__new__] passes none on; that of other
    datetimes is not represented. *)
Record datetime : Type := mkdatetime {
  year : Z; month : Z; day : Z;
  hour : Z; minute : Z; second : Z;
  tzinfo : option tzobj
}.

(** [timedelta(days, seconds)], normalised so that [0 <= seconds < 86400]. *)
Record timedelta : Type := mktimedelta { days : Z; seconds : Z }.

Definition timedelta_new (d s : Z) : timedelta :=
  let total := d * 86400 + s in
  mktimedelta (total / 86400) (total mod 86400).

Definition timedelta_add (a b : timedelta) : timedelta :=
  timedelta_new (days a + days b) (seconds a + seconds b).

Definition timedelta_neg (a : timedelta) : timedelta :=
  timedelta_new (- days a) (- seconds a).

Definition total_seconds (a : timedelta) : Z := days a * 86400 + seconds a.

Definition datetime_new (y m d hh mm ss : Z) (tz : option tzobj)
  : result datetime :=
  if check_date_fields y m d then
    if check_time_fields hh mm ss then Ok (mkdatetime y m d hh mm ss tz)
    else Raise ValueError "time field out of range"
  else Raise ValueError "date field out of range".

Definition replace_tzinfo (dt : datetime) (tz : option tzobj) : datetime :=
  mkdatetime (year dt) (month dt) (day dt) (hour dt) (minute dt) (second dt) tz.

Definition toordinal (dt : datetime) : Z :=
  ymd2ord (year dt) (month dt) (day dt).

Definition utcoffset (dt : datetime) : option Z :=
  match tzinfo dt with
  | None => None
  | Some TZ_UTC => Some 0
  | Some (TZ_fixed off) => Some off
  end.

(** [tz1 is tz2]: [pytz.utc] is a singleton; two fixed-offset instances are
    compared through their offsets by the callers below. *)
Definition same_tz (a b : option tzobj) : bool :=
  match a, b with
  | None, None => true
  | Some TZ_UTC, Some TZ_UTC => true
  | _, _ => false
  end.

(** [dt + delta] *)
Definition datetime_add (dt : datetime) (delta : timedelta) : result datetime :=
  let d :=
    timedelta_add
      (timedelta_new (toordinal dt)
         (hour dt * 3600 + minute dt * 60 + second dt))
      delta in
  let hh := seconds d / 3600 in
  let rem := seconds d mod 3600 in
  let mm := rem / 60 in
  let ss := rem mod 60 in
  if (0 <? days d) && (days d <=? MAXORDINAL) then
    let '(y, m, dd) := ord2ymd (days d) in
    datetime_new y m dd hh mm ss (tzinfo dt)
  else Raise OverflowError "date value out of range".

(** [a - b] for two datetimes *)
Definition datetime_sub (a b : datetime) : result timedelta :=
  let secs1 := second a + minute a * 60 + hour a * 3600 in
  let secs2 := second b + minute b * 60 + hour b * 3600 in
  let base := timedelta_new (toordinal a - toordinal b) (secs1 - secs2) in
  if same_tz (tzinfo a) (tzinfo b) then Ok base
  else
    match utcoffset a, utcoffset b with
    | Some myoff, Some otoff =>
        if myoff =? otoff then Ok base
        else Ok (timedelta_add (timedelta_add base (timedelta_new 0 otoff))
                               (timedelta_neg (timedelta_new 0 myoff)))
    | _, _ => Raise TypeError "cannot mix naive and timezone-aware time"
    end.

Definition lex (c1 c2 : comparison) : comparison :=
  match c1 with Eq => c2 | _ => c1 end.

(** Comparison of the field tuples. *)
Definition cmp_fields (a b : datetime) : comparison :=
  lex (year a ?= year b) (lex (month a ?= month b) (lex (day a ?= day b)
  (lex (hour a ?= hour b) (lex (minute a ?= minute b) (second a ?= second b))))).

(** [datetime._cmp] *)
Definition datetime_cmp (a b : datetime) : result comparison :=
  if same_tz (tzinfo a) (tzinfo b) then Ok (cmp_fields a b)
  else
    match utcoffset a, utcoffset b with
    | Some myoff, Some otoff =>
        if myoff =? otoff then Ok (cmp_fields a b)
        else
          diff <- datetime_sub a b ;;
          Ok (if days diff <? 0 then Lt
              else if (days diff =? 0) && (seconds diff =? 0) then Eq else Gt)
    | _, _ => Raise TypeError "cannot compare naive and aware datetimes"
    end.

Definition datetime_gt (a b : datetime) : result bool :=
  c <- datetime_cmp a b ;; Ok (match c with Gt => true | _ => false end).
Definition datetime_lt (a b : datetime) : result bool :=
  c <- datetime_cmp a b ;; Ok (match c with Lt => true | _ => false end).
Definition datetime_ge (a b : datetime) : result bool :=
  c <- datetime_cmp a b ;; Ok (match c with Lt => false | _ => true end).

(** [max(a, b)] and [min(a, b)]: the first argument wins ties. *)
Definition py_max (a b : datetime) : result datetime :=
  g <- datetime_gt b a ;; Ok (if g then b else a).
Definition py_min (a b : datetime) : result datetime :=
  l <- datetime_lt b a ;; Ok (if l then b else a).

(** [dt.astimezone(TZ_UTC)] for an aware [dt] whose zone object is [mytz]:
    the same object when it is already [pytz.utc], else the offset is
    subtracted and the result tagged UTC. *)
Definition astimezone_UTC (dt : datetime) (mytz : tzobj) : result datetime :=
  match mytz with
  | TZ_UTC => Ok dt
  | TZ_fixed off =>
      utc <- datetime_add dt (timedelta_neg (timedelta_new 0 off)) ;;
      Ok (replace_tzinfo utc (Some TZ_UTC))
  end.

(** Seconds from the start of 0001-01-01 of the fields of [dt]. *)
Definition timestamp (dt : datetime) : Z :=
  (toordinal dt - 1) * 86400 + hour dt * 3600 + minute dt * 60 + second dt.

Definition valid_datetime (dt : datetime) : bool :=
  check_date_fields (year dt) (month dt) (day dt) &&
  check_time_fields (hour dt) (minute dt) (second dt).

(** The instant of [dt] in seconds: its timestamp brought to UTC when it is
    aware, its timestamp as it stands when it is naive. *)
Definition instant (dt : datetime) : Z :=
  timestamp dt - match utcoffset dt with Some off => off | None => 0 end.

Definition is_naive (dt : datetime) : bool :=
  match tzinfo dt with None => true | Some _ => false end.

(** Datetimes that Python can compare with each other: all naive or all
    aware. *)
Definition comparable (l : list datetime) : bool :=
  forallb is_naive l || forallb (fun dt => negb (is_naive dt)) l.

End PyDatetime.

(** ** [strptime] and [strftime] for the formats of the module *)

Module PyTimeFormat.

Import Calendar PyString PyDatetime.
Local Open Scope char_scope.

Definition orelse {A : Type} (x y : option A) : option A :=
  match x with Some _ => x | None => y end.

(** The regular expressions [_strptime] builds for the directives, as
    backtracking matchers: each passes the text it captured and the rest of
    the input to its continuation, and tries its next alternative when the
    continuation fails. *)
Section Regex.

Context {R : Type}.

Definition ch (p : ascii -> bool) (k : ascii -> list ascii -> option R)
    (s : list ascii) : option R :=
  match s with
  | c :: s' => if p c then k c s' else None
  | [] => None
  end.

Definition lit (c : ascii) (k : list ascii -> option R) (s : list ascii)
  : option R :=
  ch (is_char c) (fun _ => k) s.

(** [%Y]: [\d\d\d\d] *)
Definition re_Y (k : list ascii -> list ascii -> option R) : list ascii -> option R :=
  ch is_digit (fun a => ch is_digit (fun b => ch is_digit (fun c =>
  ch is_digit (fun d => k [a; b; c; d])))).

(** [%m]: [1[0-2]|0[1-9]|[1-9]] *)
Definition re_m (k : list ascii -> list ascii -> option R) (s : list ascii) : option R :=
  orelse (ch (is_char "1") (fun a => ch (in_range "0" "2") (fun b => k [a; b])) s)
 (orelse (ch (is_char "0") (fun a => ch (in_range "1" "9") (fun b => k [a; b])) s)
         (ch (in_range "1" "9") (fun a => k [a]) s)).

(** [%d]: [3[0-1]|[1-2]\d|0[1-9]|[1-9]| [1-9]] *)
Definition re_d (k : list ascii -> list ascii -> option R) (s : list ascii) : option R :=
  orelse (ch (is_char "3") (fun a => ch (in_range "0" "1") (fun b => k [a; b])) s)
 (orelse (ch (in_range "1" "2") (fun a => ch is_digit (fun b => k [a; b])) s)
 (orelse (ch (is_char "0") (fun a => ch (in_range "1" "9") (fun b => k [a; b])) s)
 (orelse (ch (in_range "1" "9") (fun a => k [a]) s)
         (ch (is_char " ") (fun a => ch (in_range "1" "9") (fun b => k [a; b])) s)))).

(** [%H]: [2[0-3]|[0-1]\d|\d] *)
Definition re_H (k : list ascii -> list ascii -> option R) (s : list ascii) : option R :=
  orelse (ch (is_char "2") (fun a => ch (in_range "0" "3") (fun b => k [a; b])) s)
 (orelse (ch (in_range "0" "1") (fun a => ch is_digit (fun b => k [a; b])) s)
         (ch is_digit (fun a => k [a]) s)).

(** [%M]: [[0-5]\d|\d] *)
Definition re_M (k : list ascii -> list ascii -> option R) (s : list ascii) : option R :=
  orelse (ch (in_range "0" "5") (fun a => ch is_digit (fun b => k [a; b])) s)
         (ch is_digit (fun a => k [a]) s).

(** [%S]: [6[0-1]|[0-5]\d|\d] *)
Definition re_S (k : list ascii -> list ascii -> option R) (s : list ascii) : option R :=
  orelse (ch (is_char "6") (fun a => ch (in_range "0" "1") (fun b => k [a; b])) s)
 (orelse (ch (in_range "0" "5") (fun a => ch is_digit (fun b => k [a; b])) s)
         (ch is_digit (fun a => k [a]) s)).

(** A blank of the format: [\s+], greedy. *)
Fixpoint re_spaces (k : list ascii -> option R) (s : list ascii) : option R :=
  match s with
  | c :: s' => if is_space c then orelse (re_spaces k s') (k s') else None
  | [] => None
  end.

End Regex.

(** The captured groups of a match and the input left after it. *)
Record found : Type := mkfound {
  g_Y : list ascii; g_m : list ascii; g_d : list ascii;
  g_H : list ascii; g_M : list ascii; g_S : list ascii;
  unconverted : list ascii
}.

(** The pattern of [DATETIME_FORMAT = '%Y-%m-%d %H:%M:%S']. *)
Definition match_DATETIME_FORMAT (s : list ascii) : option found :=
  re_Y (fun Y => lit "-" (re_m (fun m => lit "-" (re_d (fun d =>
  re_spaces (re_H (fun H => lit ":" (re_M (fun M => lit ":" (re_S (fun S rest =>
    Some (mkfound Y m d H M S rest)))))))))))) s.

(** [datetime.datetime.strptime(s, DATETIME_FORMAT)]: a naive datetime. *)
Definition strptime (s : string) : result datetime :=
  match match_DATETIME_FORMAT (list_ascii_of_string s) with
  | None => Raise ValueError "time data does not match format"
  | Some f =>
      match unconverted f with
      | _ :: _ => Raise ValueError "unconverted data remains"
      | [] =>
          datetime_new (int_of (g_Y f)) (int_of (g_m f)) (int_of (g_d f))
            (int_of (g_H f)) (int_of (g_M f)) (int_of (g_S f)) None
      end
  end.

(** [%Y] as [strftime] writes it.  Python hands the directive to the C
    library, and glibc writes the year in decimal without leading zeros
    (year 15 is written [15]); the years of a datetime are 1 to 9999. *)
Definition fmt_Y (v : Z) : list ascii :=
  (if v <? 10 then [digit_char v]
   else if v <? 100 then pad2 v
   else if v <? 1000 then digit_char (v / 100) :: pad2 v
   else pad4 v)%Z.

(** [dt.strftime(DATETIME_FORMAT)] *)
Definition strftime (dt : datetime) : string :=
  string_of_list_ascii
    (fmt_Y (year dt) ++ "-" :: pad2 (month dt) ++ "-" :: pad2 (day dt) ++
     " " :: pad2 (hour dt) ++ ":" :: pad2 (minute dt) ++ ":" :: pad2 (second dt)).

(** [d.strftime(DATE_FORMAT)] with [DATE_FORMAT = '%Y-%m-%d'] *)
Definition strftime_date (y m d : Z) : string :=
  string_of_list_ascii (fmt_Y y ++ "-" :: pad2 m ++ "-" :: pad2 d).

(** What a text in the exact layout [YYYY-MM-DD HH:MM:SS] denotes, read
    position by position: four digits, a dash, two digits, a dash, two
    digits, one space, then three pairs of digits separated by colons.  A
    text of any other shape denotes nothing. *)
Definition two_digits (a b : ascii) : Z := 10 * digit_val a + digit_val b.

Definition read_exact (s : string) : option datetime :=
  match list_ascii_of_string s with
  | [y1; y2; y3; y4; p1; m1; m2; p2; d1; d2; p3; H1; H2; p4; M1; M2; p5; S1; S2] =>
      if forallb is_digit [y1; y2; y3; y4; m1; m2; d1; d2; H1; H2; M1; M2; S1; S2]
         && is_char "-" p1 && is_char "-" p2 && is_char " " p3
         && is_char ":" p4 && is_char ":" p5
      then Some (mkdatetime
                   (two_digits y1 y2 * 100 + two_digits y3 y4)
                   (two_digits m1 m2) (two_digits d1 d2)
                   (two_digits H1 H2) (two_digits M1 M2) (two_digits S1 S2)
                   None)
      else None
  | _ => None
  end.

(** The other way round: the text in the exact layout of the fields of
    [dt], every field padded with zeros to its width, and the text
    [YYYY-MM-DD] of a date. *)
Definition write_exact (dt : datetime) : string :=
  string_of_list_ascii
    (pad4 (year dt) ++ "-" :: pad2 (month dt) ++ "-" :: pad2 (day dt) ++
     " " :: pad2 (hour dt) ++ ":" :: pad2 (minute dt) ++ ":" :: pad2 (second dt)).

Definition write_exact_date (y m d : Z) : string :=
  string_of_list_ascii (pad4 y ++ "-" :: pad2 m ++ "-" :: pad2 d).

End PyTimeFormat.

(** ** Python objects *)

Module PyObj.

Import PyDatetime.

(** A [DateTime] is a [datetime] whose zone is [TZ_UTC]. *)
Record DateTime : Type := mkDateTime {
  dt_year : Z; dt_month : Z; dt_day : Z;
  dt_hour : Z; dt_minute : Z; dt_second : Z
}.

Definition as_datetime (d : DateTime) : datetime :=
  mkdatetime (dt_year d) (dt_month d) (dt_day d)
             (dt_hour d) (dt_minute d) (dt_second d) (Some TZ_UTC).

#[local] Unset Elimination Schemes.
Inductive pyobj : Type :=
  | PyNone
  | PyBool (b : bool)
  | PyInt (z : Z)
  | PyStr (s : string)
  | PyList (items : list pyobj)
  | PyDict (items : list (pyobj * pyobj))
  | PyDate (y m d : Z)
  | PyDatetime (dt : datetime)
  | PyDateTime (dt : DateTime).
#[local] Set Elimination Schemes.

(** Truth value of an object in a condition. *)
Definition truthy (o : pyobj) : bool :=
  match o with
  | PyNone => false
  | PyBool b => b
  | PyInt z => negb (z =? 0)
  | PyStr s => negb (String.eqb s "")
  | PyList items => match items with [] => false | _ => true end
  | PyDict items => match items with [] => false | _ => true end
  | PyDate _ _ _ | PyDatetime _ | PyDateTime _ => true
  end.

(** [str(type(o))] *)
Definition type_str (o : pyobj) : string :=
  match o with
  | PyNone => "<class 'NoneType'>"
  | PyBool _ => "<class 'bool'>"
  | PyInt _ => "<class 'int'>"
  | PyStr _ => "<class 'str'>"
  | PyList _ => "<class 'list'>"
  | PyDict _ => "<class 'dict'>"
  | PyDate _ _ _ => "<class 'datetime.date'>"
  | PyDatetime _ => "<class 'datetime.datetime'>"
  | PyDateTime _ => "<class 'servicenow.DateTime'>"
  end.

(** The [DateTime] with the fields of a datetime. *)
Definition DateTime_of (dt : datetime) : DateTime :=
  mkDateTime (year dt) (month dt) (day dt) (hour dt) (minute dt) (second dt).

(** The field ranges that the [datetime] constructor enforces. *)
Definition valid_DateTime (d : DateTime) : bool :=
  valid_datetime (as_datetime d).

(** The argument types [DateTime] is written for: a string, a datetime or
    a date. *)
Definition str_datetime_or_date (o : pyobj) : bool :=
  match o with
  | PyStr _ | PyDatetime _ | PyDateTime _ | PyDate _ _ _ => true
  | _ => false
  end.

(** [isinstance(o, datetime.datetime)], with the value seen as a datetime. *)
Definition isinstance_datetime (o : pyobj) : option datetime :=
  match o with
  | PyDatetime dt => Some dt
  | PyDateTime d => Some (as_datetime d)
  | _ => None
  end.

(** [hash(o)] succeeds: lists and dicts are unhashable. *)
Definition hashable (o : pyobj) : bool :=
  match o with
  | PyList _ | PyDict _ => false
  | _ => true
  end.

(** Equality of dictionary keys; [True == 1] and [False == 0]. *)
Definition key_eqb (a b : pyobj) : bool :=
  match a, b with
  | PyNone, PyNone => true
  | PyBool x, PyBool y => Bool.eqb x y
  | PyBool x, PyInt y | PyInt y, PyBool x => (if x then 1 else 0) =? y
  | PyInt x, PyInt y => x =? y
  | PyStr x, PyStr y => String.eqb x y
  | PyDate y1 m1 d1, PyDate y2 m2 d2 => (y1 =? y2) && (m1 =? m2) && (d1 =? d2)
  | _, _ => false
  end.

(** A dict as the list of its items in insertion order. *)
Definition dict : Type := list (pyobj * pyobj).

Fixpoint dict_get (d : dict) (key : pyobj) : option pyobj :=
  match d with
  | [] => None
  | (k, v) :: d' => if key_eqb k key then Some v else dict_get d' key
  end.

(** [d[key] = value]: an existing key keeps its place. *)
Fixpoint dict_set (d : dict) (key value : pyobj) : dict :=
  match d with
  | [] => [(key, value)]
  | (k, v) :: d' =>
      if key_eqb k key then (k, value) :: d' else (k, v) :: dict_set d' key value
  end.

Definition setitem (d : dict) (key value : pyobj) : result dict :=
  if hashable key then Ok (dict_set d key value)
  else Raise TypeError "unhashable type".

(** [o[key]] for a string [key] *)
Definition getitem (o : pyobj) (key : string) : result pyobj :=
  match o with
  | PyDict d =>
      match dict_get d (PyStr key) with
      | Some v => Ok v
      | None => Raise KeyError key
      end
  | PyList _ => Raise TypeError "list indices must be integers or slices, not str"
  | PyStr _ => Raise TypeError "string indices must be integers"
  | _ => Raise TypeError "object is not subscriptable"
  end.

(** [a == b] where [b] is a string literal *)
Definition eq_str (a : pyobj) (b : string) : bool :=
  match a with
  | PyStr x => String.eqb x b
  | _ => false
  end.

(** The items a [for] loop over [o] visits. *)
Definition iterate (o : pyobj) : result (list pyobj) :=
  match o with
  | PyList items => Ok items
  | PyDict d => Ok (map fst d)
  | PyStr s => Ok (map (fun c => PyStr (String c EmptyString)) (list_ascii_of_string s))
  | _ => Raise TypeError "object is not iterable"
  end.

(** The strings of a sequence of strings, for [','.join(fields)]. *)
Fixpoint strings_of (items : list pyobj) : result (list string) :=
  match items with
  | [] => Ok []
  | PyStr x :: rest => tl <- strings_of rest ;; Ok (x :: tl)
  | _ :: _ => Raise TypeError "sequence item: expected str instance"
  end.

Definition join_comma (o : pyobj) : result string :=
  items <- iterate o ;;
  strs <- strings_of items ;;
  Ok (PyString.join "," strs).

End PyObj.

(** ** [class DateTime] and [class DateTimeRange] *)

Module ServiceNowTime.

Import Calendar PyString PyDatetime PyTimeFormat PyObj.

Section WithLocalZone.

(** [TZ_LOCAL]: the offset from UTC, in seconds, that the zone's [localize]
    gives to a naive wall-clock time.  The global can be replaced by
    [setLocalTimeZone], so nothing is assumed of it. *)
Variable TZ_LOCAL : datetime -> Z.

(** [TZ_LOCAL.localize(dt).astimezone(TZ_UTC)] for a naive [dt] *)
Definition local_to_UTC (dt : datetime) : result datetime :=
  let tz := TZ_fixed (TZ_LOCAL dt) in
  astimezone_UTC (replace_tzinfo dt (Some tz)) tz.

(** [DateTime.__new__(cls, arg, local=False)] *)
Definition DateTime_new (arg : pyobj) (local : bool) : result DateTime :=
  dt <- match arg with
        | PyStr s =>
            let arg :=
              if (String.length s =? 10)%nat then (s ++ " 00:00:00")%string else s in
            dt <- strptime arg ;;
            if local then local_to_UTC dt
            else Ok (replace_tzinfo dt (Some TZ_UTC))
        | PyDatetime a =>
            match tzinfo a with
            | None =>
                if local then local_to_UTC a
                else Ok (replace_tzinfo a (Some TZ_UTC))
            | Some mytz => astimezone_UTC a mytz
            end
        | PyDateTime a => astimezone_UTC (as_datetime a) TZ_UTC
        | PyDate y m d =>
            naive <- datetime_new y m d 0 0 0 None ;;
            if local then local_to_UTC naive
            else astimezone_UTC (replace_tzinfo naive (Some TZ_UTC)) TZ_UTC
        | _ => Raise ValueError ("Invalid argument type: " ++ type_str arg)
        end ;;
  checked <- datetime_new (year dt) (month dt) (day dt)
               (hour dt) (minute dt) (second dt) (Some TZ_UTC) ;;
  Ok (mkDateTime (year checked) (month checked) (day checked)
                 (hour checked) (minute checked) (second checked)).

(** [DateTime.asUTC] *)
Definition asUTC (self : DateTime) : result string :=
  u <- astimezone_UTC (as_datetime self) TZ_UTC ;;
  Ok (strftime u).

(** [class DateTimeRange(tuple)] *)
Definition DateTimeRange : Type := datetime * datetime.

Definition DateTimeRange_new (dt1 dt2 : pyobj) : result DateTimeRange :=
  match isinstance_datetime dt1 with
  | None => Raise ValueError "dt1 not datetime"
  | Some a =>
      match isinstance_datetime dt2 with
      | None => Raise ValueError "dt2 not datetime"
      | Some b => Ok (a, b)
      end
  end.

Definition start (self : DateTimeRange) : datetime := fst self.
Definition end_ (self : DateTimeRange) : datetime := snd self.

(** The call [DateTime(year, month, day, hour, minute, second,
    microsecond, tzinfo)].  From Python 3.8 on, the [datetime] base class
    builds the result of arithmetic on an instance of a subclass by calling
    the subclass with the fields of the result; [DateTime.__new__(cls, arg,
    local=False)] takes at most two arguments after the class and is given
    eight. *)
Definition DateTime_from_fields (fields : datetime) : result DateTime :=
  Raise TypeError
    "DateTime.__new__() takes from 2 to 3 positional arguments but 9 were given".

(** [self + delta] for a [DateTime]: the base class computes the fields of
    the sum (raising [OverflowError] when they leave the calendar) and then
    builds the result with the class of [self]. *)
Definition DateTime_add (self : DateTime) (delta : timedelta) : result DateTime :=
  sum <- datetime_add (as_datetime self) delta ;;
  DateTime_from_fields sum.

(** [DateTimeRange.fromDate(ymd, local=True)], for the date [y]-[m]-[d]. *)
Definition fromDate (y m d : Z) (local : bool) : result DateTimeRange :=
  t0 <- DateTime_new (PyStr (strftime_date y m d)) local ;;
  let almost24hours := timedelta_new 0 (24 * 60 * 60 - 1) in
  sum <- DateTime_add t0 almost24hours ;;
  t1 <- DateTime_new (PyDateTime sum) false ;;
  DateTimeRange_new (PyDateTime t0) (PyDateTime t1).

(** [DateTimeRange.overlapSeconds(self, other)] *)
Definition overlapSeconds (self other : DateTimeRange) : result Z :=
  latest_start <- py_max (fst self) (fst other) ;;
  earliest_end <- py_min (snd self) (snd other) ;;
  ge <- datetime_ge latest_start earliest_end ;;
  if ge then Ok 0
  else
    diff <- datetime_sub earliest_end latest_start ;;
    Ok (total_seconds diff).

(** [DateTimeRange.overlapsWith(self, other)] *)
Definition overlapsWith (self other : DateTimeRange) : result bool :=
  sec <- overlapSeconds self other ;; Ok (0 <? sec).

End WithLocalZone.

End ServiceNowTime.

(** ** [class ServiceNow], [class Table] and [class Query] *)

Module ServiceNowClient.

Import PyString PyObj.
Local Open Scope string_scope.
Local Open Scope Z_scope.

Definition newline : string := String (ascii_of_nat 10) EmptyString.

(** What [requests.request] is called with, and what it returns. *)
Record Request : Type := mkRequest {
  req_method : string;
  req_url : string;
  req_headers : list (string * string);
  req_params : option dict;
  req_data : option string;
  req_auth : string * string;
  req_cookies : option (list (string * string))
}.

Record Response : Type := mkResponse {
  status_code : Z;
  headers : pyobj;
  (** the decoded body, when the body is JSON *)
  body_json : option pyobj;
  (** [response.cookies.get('JSESSIONID')] *)
  cookie_JSESSIONID : option string
}.

(** [response.json()] *)
Definition json (r : Response) : result pyobj :=
  match body_json r with
  | Some j => Ok j
  | None => Raise ValueError "Expecting value"
  end.

Definition ACCEPT_JSON : list (string * string) := [("Accept", "application/json")].

Record LastRequest : Type := mkLastRequest {
  lr_method : string;
  lr_url : string;
  lr_params : option dict
}.

Record ServiceNow : Type := mkServiceNow {
  baseurl : string;
  username : string;
  auth : string * string;
  jsessionid : option string;
  cookies : option (list (string * string));
  lastRequest : option LastRequest;
  lastResponse : option Response
}.

(** [ServiceNow.__init__(self, instance, username, password)] *)
Definition ServiceNow_init (instance username password : string) : ServiceNow :=
  let base :=
    if startswith "https://" instance then instance
    else "https://" ++ instance in
  let base :=
    if find instance "." <? 0 then base ++ ".service-now.com" else base in
  let base := if endswith_char "/" base then slice_0_m1 base else base in
  mkServiceNow base username (username, password) None None None None.

(** [ServiceNow.url(self, stuff)] *)
Definition ServiceNow_url (self : ServiceNow) (stuff : string) : string :=
  let result := baseurl self in
  let result := if negb (startswith "/" stuff) then result ++ "/" else result in
  result ++ stuff.

(** The names an instance of [ServiceNow] answers to: the methods of the
    class and the attributes [__init__] sets. *)
Definition ServiceNow_members : list string :=
  ["__init__"; "table"; "url"; "link"; "connect"; "_request"; "_setSession";
   "baseurl"; "username"; "auth"; "jsessionid"; "cookies"; "lastRequest";
   "lastResponse"].

Definition ServiceNow_hasattr (name : string) : bool :=
  existsb (String.eqb name) ServiceNow_members.

Record Table : Type := mkTable {
  t_name : string;
  tableurl : string;
  t_response : option Response
}.

Record Query : Type := mkQuery {
  q_table : nat;
  q_query : pyobj;
  q_fields : pyobj;
  q_limit : pyobj;
  exclude_ref_links : pyobj;
  q_response : option Response
}.

(** The objects in memory: the connection, and the tables and queries
    created so far, each known by its position. *)
Record World : Type := mkWorld {
  session : ServiceNow;
  tables : list Table;
  queries : list Query
}.

(** Computations that read and change the objects and may raise. *)
Definition M (A : Type) : Type := World -> result A * World.

Definition ret {A : Type} (a : A) : M A := fun w => (Ok a, w).

Definition raise {A : Type} (c : exn_class) (msg : string) : M A :=
  fun w => (Raise c msg, w).

Definition lift {A : Type} (r : result A) : M A := fun w => (r, w).

Definition mbind {A B : Type} (m : M A) (k : A -> M B) : M B :=
  fun w =>
    match m w with
    | (Ok a, w') => k a w'
    | (Raise c msg, w') => (Raise c msg, w')
    end.

Notation "x <~ m ;; k" := (mbind m (fun x => k))
  (at level 61, m at next level, right associativity).

Fixpoint update_nth {A : Type} (i : nat) (x : A) (l : list A) : list A :=
  match l, i with
  | [], _ => []
  | _ :: l', O => x :: l'
  | y :: l', S i' => y :: update_nth i' x l'
  end.

Definition get_session : M ServiceNow := fun w => (Ok (session w), w).

Definition put_session (s : ServiceNow) : M unit :=
  fun w => (Ok tt, mkWorld s (tables w) (queries w)).

Definition get_table (t : nat) : M Table :=
  fun w =>
    match nth_error (tables w) t with
    | Some x => (Ok x, w)
    | None => (Raise ReferenceError "no such table object", w)
    end.

Definition put_table (t : nat) (x : Table) : M unit :=
  fun w => (Ok tt, mkWorld (session w) (update_nth t x (tables w)) (queries w)).

Definition new_table (x : Table) : M nat :=
  fun w => (Ok (List.length (tables w)),
            mkWorld (session w) (tables w ++ [x]) (queries w)).

Definition get_query (q : nat) : M Query :=
  fun w =>
    match nth_error (queries w) q with
    | Some x => (Ok x, w)
    | None => (Raise ReferenceError "no such query object", w)
    end.

Definition put_query (q : nat) (x : Query) : M unit :=
  fun w => (Ok tt, mkWorld (session w) (tables w) (update_nth q x (queries w))).

Definition new_query (x : Query) : M nat :=
  fun w => (Ok (List.length (queries w)),
            mkWorld (session w) (tables w) (queries w ++ [x])).

(** The [params] of the request the connection issued last. *)
Definition issued_params (w : World) : option dict :=
  match lastRequest (session w) with
  | Some r => lr_params r
  | None => None
  end.

Section WithRuntime.

(** The network: the response [requests.request] gets for a request.
    Failures below HTTP (DNS, TLS, time-outs) are left out. *)
Variable requests_request : Request -> Response.

(** [str(o)] and [json.dumps(o)] *)
Variable str_ : pyobj -> string.
Variable json_dumps : pyobj -> result string.

(** The URL a request for [sys_id] under [url] goes to, and the response
    the network gives to a request issued from the world [w]. *)
Definition request_url (url : string) (sys_id : option string) : string :=
  match sys_id with
  | Some id => if negb (String.eqb id "") then url ++ "/" ++ id else url
  | None => url
  end.

Definition response_to (w : World) (method url : string)
    (sys_id : option string) (params : option dict) (data : option string)
  : Response :=
  requests_request
    (mkRequest (upper method) (request_url url sys_id) ACCEPT_JSON params data
       (auth (session w)) (cookies (session w))).

(** [ServiceNow._setSession(self, response)] *)
Definition ServiceNow_setSession (response : Response) : M unit :=
  self <~ get_session ;;
  match cookie_JSESSIONID response with
  | Some jsessionid =>
      if negb (String.eqb jsessionid "") then
        put_session
          (mkServiceNow (baseurl self) (username self) (auth self)
             (Some jsessionid) (Some [("JSESSIONID", jsessionid)])
             (lastRequest self) (lastResponse self))
      else ret tt
  | None => ret tt
  end.

(** [ServiceNow._request(self, method, url, sys_id, params, data)]; the
    logging calls leave the objects as they are. *)
Definition ServiceNow_request (method url : string) (sys_id : option string)
    (params : option dict) (data : option string) : M Response :=
  let url :=
    match sys_id with
    | Some id => if negb (String.eqb id "") then url ++ "/" ++ id else url
    | None => url
    end in
  let method := upper method in
  self <~ get_session ;;
  let self :=
    mkServiceNow (baseurl self) (username self) (auth self) (jsessionid self)
      (cookies self) (Some (mkLastRequest method url params)) (lastResponse self) in
  _ <~ put_session self ;;
  let response :=
    requests_request
      (mkRequest method url ACCEPT_JSON params data (auth self) (cookies self)) in
  _ <~ put_session
         (mkServiceNow (baseurl self) (username self) (auth self)
            (jsessionid self) (cookies self) (lastRequest self) (Some response)) ;;
  _ <~ ServiceNow_setSession response ;;
  ret response.

(** [Table(sn, name)], which is also [ServiceNow.table(self, name)] *)
Definition ServiceNow_table (name : string) : M nat :=
  sn <~ get_session ;;
  new_table (mkTable name (ServiceNow_url sn ("/api/now/v1/table/" ++ name)) None).

(** [Table._request(self, method, sys_id, params, data)] *)
Definition Table_request (self : nat) (method : string) (sys_id : option string)
    (params : option dict) (data : option string) : M Response :=
  t <~ get_table self ;;
  ServiceNow_request method (tableurl t) sys_id params data.

Definition set_table_response (self : nat) (r : Response) : M unit :=
  t <~ get_table self ;;
  put_table self (mkTable (t_name t) (tableurl t) (Some r)).

(** [Table.get(self, sys_id, refLinks=False)] *)
Definition Table_get (self : nat) (sys_id : option string) (refLinks : bool)
  : M pyobj :=
  let parms : dict := [] in
  let parms :=
    if refLinks
    then dict_set parms (PyStr "sysparm_exclude_reference_link") (PyStr "false")
    else dict_set parms (PyStr "sysparm_exclude_reference_link") (PyStr "true") in
  response <~ Table_request self "GET" sys_id (Some parms) None ;;
  _ <~ set_table_response self response ;;
  if status_code response =? 401 then
    body <~ lift (json response) ;;
    raise ServiceNowError ("Unauthorized" ++ newline ++ str_ body)
  else if status_code response =? 404 then ret PyNone
  else
    body <~ lift (json response) ;;
    lift (getitem body "result").

(** The [sysparm_fields] of a truthy [fields] argument. *)
Definition fields_string (fields : pyobj) : result string :=
  match fields with
  | PyStr s => Ok s
  | _ => join_comma fields
  end.

(** The [sysparm_fields] that [insert] asks for. *)
Definition insert_fields (fields : pyobj) : result string :=
  if truthy fields then fields_string fields else Ok "sys_id".

(** [Table.insert(self, record, fields=None)] *)
Definition Table_insert (self : nat) (record fields : pyobj) : M pyobj :=
  data <~ lift (json_dumps record) ;;
  sysparm_fields <~ (if truthy fields then lift (fields_string fields)
                     else ret "sys_id") ;;
  let params := dict_set [] (PyStr "sysparm_fields") (PyStr sysparm_fields) in
  response <~ Table_request self "POST" None (Some params) (Some data) ;;
  _ <~ set_table_response self response ;;
  if negb ((200 <=? status_code response) && (status_code response <=? 299)) then
    body <~ lift (json response) ;;
    raise ServiceNowError
      ("Status: " ++ str_ (PyInt (status_code response)) ++ newline ++
       "Headers: " ++ str_ (headers response) ++ newline ++ str_ body)
  else
    body <~ lift (json response) ;;
    result <~ lift (getitem body "result") ;;
    if truthy fields then ret result
    else lift (getitem result "sys_id").

(** [Table.update(self, sys_id, fieldvalues)] *)
Definition Table_update (self : nat) (sys_id : option string) (fieldvalues : pyobj)
  : M pyobj :=
  data <~ lift (json_dumps fieldvalues) ;;
  _ <~ Table_request self "PUT" sys_id None (Some data) ;;
  ret PyNone.

(** [Table.delete(self, sys_id)] *)
Definition Table_delete (self : nat) (sys_id : option string) : M pyobj :=
  _ <~ Table_request self "DELETE" sys_id None None ;;
  ret PyNone.

(** [Query.setQuery(self, query)] *)
Definition Query_setQuery (self : nat) (query : pyobj) : M nat :=
  q <~ get_query self ;;
  _ <~ put_query self
         (mkQuery (q_table q) query (q_fields q) (q_limit q)
            (exclude_ref_links q) (q_response q)) ;;
  ret self.

(** [Query.setFields(self, fields=None)] *)
Definition Query_setFields (self : nat) (fields : pyobj) : M nat :=
  q <~ get_query self ;;
  value <~ (if truthy fields then
              s <~ lift (fields_string fields) ;; ret (PyStr s)
            else ret PyNone) ;;
  _ <~ put_query self
         (mkQuery (q_table q) (q_query q) value (q_limit q)
            (exclude_ref_links q) (q_response q)) ;;
  ret self.

(** [Query.setLimit(self, limit)] *)
Definition Query_setLimit (self : nat) (limit : pyobj) : M nat :=
  q <~ get_query self ;;
  let value := if truthy limit then PyStr (str_ limit) else PyNone in
  _ <~ put_query self
         (mkQuery (q_table q) (q_query q) (q_fields q) value
            (exclude_ref_links q) (q_response q)) ;;
  ret self.

(** [Query.setRefLinks(self, refLinks=False)] *)
Definition Query_setRefLinks (self : nat) (refLinks : pyobj) : M nat :=
  q <~ get_query self ;;
  let value := if truthy refLinks then PyStr "false" else PyStr "true" in
  _ <~ put_query self
         (mkQuery (q_table q) (q_query q) (q_fields q) (q_limit q)
            value (q_response q)) ;;
  ret self.

(** [Query(table, query, fields, limit, refLinks)] *)
Definition Query_init (table : nat) (query fields limit refLinks : pyobj) : M nat :=
  self <~ new_query (mkQuery table PyNone PyNone PyNone PyNone None) ;;
  _ <~ Query_setQuery self query ;;
  _ <~ Query_setFields self fields ;;
  _ <~ Query_setLimit self limit ;;
  _ <~ Query_setRefLinks self refLinks ;;
  ret self.

(** [Table.query(self, query=None, fields=None, limit=None)] *)
Definition Table_query (self : nat) (query fields limit : pyobj) : M nat :=
  Query_init self query fields limit (PyBool false).

(** The [params] that [Query.run] assembles. *)
Definition run_params (q : Query) : dict :=
  let params : dict := [] in
  let params :=
    if truthy (q_limit q)
    then dict_set params (PyStr "sysparm_limit") (q_limit q) else params in
  let params :=
    if truthy (q_fields q)
    then dict_set params (PyStr "sysparm_fields") (q_fields q) else params in
  let params :=
    if truthy (q_query q)
    then dict_set params (PyStr "sysparm_query") (q_query q) else params in
  let params :=
    if truthy (exclude_ref_links q)
    then dict_set params (PyStr "sysparm_exclude_reference_link")
           (exclude_ref_links q)
    else params in
  params.

(** [Query.run(self)] *)
Definition Query_run (self : nat) : M pyobj :=
  q <~ get_query self ;;
  let table := q_table q in
  let params := run_params q in
  response <~ Table_request table "GET" None (Some params) None ;;
  _ <~ put_query self
         (mkQuery (q_table q) (q_query q) (q_fields q) (q_limit q)
            (exclude_ref_links q) (Some response)) ;;
  if negb (status_code response =? 200) then ret (PyList [])
  else
    json <~ lift (json response) ;;
    lift (getitem json "result").

(** The loop of [getChoices] over the records. *)
Fixpoint getChoices_loop (inactive : bool) (recs : list pyobj) (choices : dict)
  : result dict :=
  match recs with
  | [] => Ok choices
  | rec :: recs' =>
      skip <- (if inactive then
                 v <- getitem rec "inactive" ;; Ok (eq_str v "true")
               else Ok false) ;;
      if skip then getChoices_loop inactive recs' choices
      else
        label <- getitem rec "label" ;;
        value <- getitem rec "value" ;;
        choices' <- setitem choices value label ;;
        getChoices_loop inactive recs' choices'
  end.

(** [self.session.logLastRequest()]: the attribute is looked up on the
    connection first. *)
Definition ServiceNow_logLastRequest : M unit :=
  if ServiceNow_hasattr "logLastRequest" then ret tt
  else raise AttributeError
         "'ServiceNow' object has no attribute 'logLastRequest'".

(** The end of [getChoices]: the request is logged when there are no
    choices, the assertion checks that there are some, and they are
    returned. *)
Definition getChoices_finish (choices : dict) : M pyobj :=
  _ <~ (match choices with
        | [] => ServiceNow_logLastRequest
        | _ :: _ => ret tt
        end) ;;
  match choices with
  | [] => raise AssertionError "getChoices returned no values"
  | _ :: _ => ret (PyDict choices)
  end.

(** [Table.getChoices(self, element, inactive=False)] *)
Definition Table_getChoices (self : nat) (element : string) (inactive : bool)
  : M pyobj :=
  t <~ get_table self ;;
  sys_choice <~ ServiceNow_table "sys_choice" ;;
  let query_str := "name=" ++ t_name t ++ "^element=" ++ element in
  q <~ Table_query sys_choice (PyStr query_str) PyNone PyNone ;;
  recs <~ Query_run q ;;
  items <~ lift (iterate recs) ;;
  choices <~ lift (getChoices_loop inactive items []) ;;
  getChoices_finish choices.

End WithRuntime.

End ServiceNowClient.

(** ** The normal form of the base URL, in the words of the specification *)

Module UrlSpec.

Local Open Scope string_scope.

Definition has_scheme (s : string) : Prop :=
  exists rest, s = "https://" ++ rest.

Definition contains_dot (s : string) : Prop :=
  exists before after, s = before ++ "." ++ after.

(** [r] is [s] without one trailing slash, or [s] when it has none. *)
Definition one_slash_stripped (s r : string) : Prop :=
  (exists body, s = body ++ "/" /\ r = body) \/
  ((forall body, s <> body ++ "/") /\ r = s).

(** The scheme is prepended when the instance lacks it; the default domain
    is appended exactly when the instance has no dot; then one trailing
    slash is stripped. *)
Definition normalized (instance base : string) : Prop :=
  exists with_scheme with_suffix,
    ((has_scheme instance /\ with_scheme = instance) \/
     (~ has_scheme instance /\ with_scheme = "https://" ++ instance)) /\
    ((contains_dot instance /\ with_suffix = with_scheme) \/
     (~ contains_dot instance /\
      with_suffix = with_scheme ++ ".service-now.com")) /\
    one_slash_stripped with_suffix base.

End UrlSpec.

(** ** Sample objects *)

Module Samples.

Import PyDatetime PyObj ServiceNowClient.
Local Open Scope string_scope.

Definition d_2015_01_01 : DateTime := mkDateTime 2015 1 1 0 0 0.
Definition d_2015_01_01_end : DateTime := mkDateTime 2015 1 1 23 59 59.
Definition d_2015_01_01_noon : DateTime := mkDateTime 2015 1 1 12 0 0.
Definition d_2015_01_02_noon : DateTime := mkDateTime 2015 1 2 12 0 0.

(** US/Eastern standard time, as a fixed offset. *)
Definition eastern : datetime -> Z := fun _ => (-18000)%Z.

Definition sample_session : ServiceNow :=
  ServiceNow_init "myinstance" "admin" "secret".

Definition incident : Table :=
  mkTable "incident" (ServiceNow_url sample_session "/api/now/v1/table/incident")
    None.

(** A connection with the table [incident] at position 0. *)
Definition sample_world : World := mkWorld sample_session [incident] [].

Definition sample_str (o : pyobj) : string :=
  match o with
  | PyStr s => s
  | _ => "<object>"
  end.

Definition sample_dumps (o : pyobj) : result string := Ok "{}".

Definition choice (value label inactive : string) : pyobj :=
  PyDict [(PyStr "value", PyStr value); (PyStr "label", PyStr label);
          (PyStr "inactive", PyStr inactive)].

(** A server that answers every request with status [code] and the given
    decoded body. *)
Definition server (code : Z) (body : pyobj) : Request -> Response :=
  fun _ => mkResponse code PyNone (Some body) None.

Definition choices_body : pyobj :=
  PyDict [(PyStr "result",
           PyList [choice "1" "New" "false"; choice "7" "Closed" "true"])].

Definition empty_body : pyobj := PyDict [(PyStr "result", PyList [])].

Definition error_body : pyobj :=
  PyDict [(PyStr "error", PyStr "failure")].

(** The world after [incident.query()], and the query made, at position 0. *)
Definition world_with_query : World :=
  snd (Table_query sample_str 0 PyNone PyNone PyNone sample_world).

End Samples.

(** ** The rest of [class DateTime]: local rendering, [now] and [today] *)

Module ServiceNowClock.

Import Calendar PyString PyDatetime PyTimeFormat PyObj ServiceNowTime.

(** What the global [TZ_LOCAL] holds: the object [TZ_UTC] itself
    ([timezone('UTC')] always returns the one object [pytz.utc], so this is
    the case after [setLocalTimeZone('UTC')]), or another zone of [pytz]
    (the default is [timezone('US/Eastern')]), given by the offset its
    [localize] gives to a naive wall-clock time and the offset its
    [fromutc] gives to a UTC time. *)
Inductive zone : Type :=
  | zone_TZ_UTC
  | zone_other (localize fromutc : datetime -> Z).

Definition localize_offset (tz : zone) : datetime -> Z :=
  match tz with
  | zone_TZ_UTC => fun _ => 0
  | zone_other localize _ => localize
  end.

(** [self.astimezone(tz)] for a [DateTime], whose own zone is the object
    [TZ_UTC]: conversion to that very object returns [self]; for any other
    zone object the base class first takes the own offset of [self] (zero)
    off, as an addition on [self], and then lets the zone add its offset. *)
Definition DateTime_astimezone (self : DateTime) (tz : zone) : result datetime :=
  match tz with
  | zone_TZ_UTC => Ok (as_datetime self)
  | zone_other _ fromutc =>
      utc <- DateTime_add self (timedelta_neg (timedelta_new 0 0)) ;;
      let off := fromutc (as_datetime utc) in
      loc <- DateTime_add utc (timedelta_new 0 off) ;;
      Ok (replace_tzinfo (as_datetime loc) (Some (TZ_fixed off)))
  end.

Section WithZoneAndClock.

Variable TZ_LOCAL : zone.

(** [datetime.datetime.now(TZ_UTC)]: the reading of the clock, an aware
    datetime in [TZ_UTC], to the second (its microsecond is what
    [DateTime.__new__] leaves out). *)
Variable utcnow : datetime.

(** [DateTime.asLocal] *)
Definition asLocal (self : DateTime) : result string :=
  loc <- DateTime_astimezone self TZ_LOCAL ;;
  Ok (strftime loc).

(** [DateTime.__str__] *)
Definition DateTime_str (self : DateTime) : result string := asUTC self.

(** [DateTime.now()] *)
Definition now : result DateTime :=
  DateTime_new (localize_offset TZ_LOCAL) (PyDatetime utcnow) false.

(** [DateTime.today(local=True)] *)
Definition today (local : bool) : result DateTime :=
  n <- now ;;
  s <- asLocal n ;;
  let t := substring 0 10 s in
  DateTime_new (localize_offset TZ_LOCAL) (PyStr t) local.

End WithZoneAndClock.

End ServiceNowClock.

(** ** The rest of the client: record links, [connect] and logging *)

Module ServiceNowClientMore.

Import PyString PyObj ServiceNowClient.
Local Open Scope string_scope.
Local Open Scope Z_scope.

(** The operand of a [+] whose other side is a string. *)
Definition as_str (o : pyobj) : result string :=
  match o with
  | PyStr s => Ok s
  | _ => Raise TypeError "can only concatenate str to str"
  end.

(** [ServiceNow.link(self, rec, menu=False)] *)
Definition ServiceNow_link (self : ServiceNow) (rec : pyobj) (menu : bool)
  : result string :=
  table <- getitem rec "sys_class_name" ;;
  sys_id <- getitem rec "sys_id" ;;
  if menu then
    t <- as_str table ;;
    i <- as_str sys_id ;;
    Ok (ServiceNow_url self ("nav_to.do?uri=" ++ t ++ ".do?sys_id=" ++ i))
  else
    t <- as_str table ;;
    i <- as_str sys_id ;;
    Ok (ServiceNow_url self (t ++ ".do?sys_id=" ++ i)).

(** [len(o)] *)
Definition py_len (o : pyobj) : result Z :=
  match o with
  | PyList items => Ok (Z.of_nat (List.length items))
  | PyDict items => Ok (Z.of_nat (List.length items))
  | PyStr s => Ok (Z.of_nat (String.length s))
  | _ => Raise TypeError "object has no len()"
  end.

(** [try: body except: handler]: whatever [body] raises is caught; what it
    did to the objects before stays done. *)
Definition try_except {A : Type} (body handler : M A) : M A :=
  fun w =>
    match body w with
    | (Ok a, w') => (Ok a, w')
    | (Raise _ _, w') => handler w'
    end.

Definition unable_to_connect (self : ServiceNow) : string :=
  "Unable to connect to " ++ baseurl self ++ " as " ++ username self.

Section WithRuntime.

Variable requests_request : Request -> Response.
Variable str_ : pyobj -> string.

(** [ServiceNow.connect(self)] *)
Definition ServiceNow_connect : M unit :=
  recs <~ try_except
            (sys_user <~ ServiceNow_table "sys_user" ;;
             self <~ get_session ;;
             q <~ Table_query str_ sys_user
                    (PyStr ("user_name=" ++ username self)) PyNone PyNone ;;
             Query_run requests_request q)
            (self <~ get_session ;;
             raise ServiceNowError (unable_to_connect self)) ;;
  n <~ lift (py_len recs) ;;
  if negb (n =? 1) then
    self <~ get_session ;;
    raise ServiceNowError (unable_to_connect self)
  else ret tt.

End WithRuntime.

Definition is_PyStr (o : pyobj) : bool :=
  match o with PyStr _ => true | _ => false end.

(** The session cookie the connection holds after a response: the
    [JSESSIONID] of the response when it has a non-empty one, else the one
    held before. *)
Definition cookies_after (self : ServiceNow) (response : Response)
  : option (list (string * string)) :=
  match cookie_JSESSIONID response with
  | Some c => if String.eqb c "" then cookies self else Some [("JSESSIONID", c)]
  | None => cookies self
  end.

(** A choice record without an ['inactive'] field, and the label that a
    list of (value, label) pairs gives last to a value. *)
Definition plain_choice (p : string * string) : pyobj :=
  PyDict [(PyStr "value", PyStr (fst p)); (PyStr "label", PyStr (snd p))].

Fixpoint last_label (value : string) (pairs : list (string * string))
  : option string :=
  match pairs with
  | [] => None
  | (v, l) :: rest =>
      match last_label value rest with
      | Some x => Some x
      | None => if String.eqb v value then Some l else None
      end
  end.

(** *** Logging *)

Inductive level : Type := DEBUG | INFO.

Definition DEBUG_LEN : nat := 256.

(** The body of a response as [logResponse] shows it. *)
Definition shown_text (text : string) : string :=
  if Nat.ltb DEBUG_LEN (String.length text)
  then substring 0 DEBUG_LEN text ++ "<<truncated>>"
  else text.

Section WithLogger.

(** [logger.isEnabledFor], and [str] for what the messages show. *)
Variable isEnabledFor : level -> bool.
Variable str_ : pyobj -> string.
Variable str_request : LastRequest -> string.

(** [logRequest(logger, request, level)]: the messages it logs. *)
Definition logRequest (request : LastRequest) (lvl : level)
  : list (level * string) :=
  if isEnabledFor lvl then [(lvl, "request=" ++ str_request request)] else [].

(** [logResponse(logger, response, level)], for a response with the given
    raw body [text]: the messages it logs. *)
Definition logResponse (response : Response) (text : string) (lvl : level)
  : list (level * string) :=
  if isEnabledFor lvl then
    [(lvl, "status_code=" ++ str_ (PyInt (status_code response)));
     (lvl, "headers=" ++ str_ (headers response));
     (lvl, "text=" ++ shown_text text)]
  else [].

(** What [ServiceNow._request] logs for a request and its response. *)
Definition request_log (request : LastRequest) (response : Response)
    (text : string) : list (level * string) :=
  (if isEnabledFor DEBUG then logRequest request DEBUG else []) ++
  (if isEnabledFor DEBUG then logResponse response text DEBUG else []) ++
  (if negb (status_code response =? 200)
   then logRequest request INFO ++ logResponse response text INFO
   else []).

End WithLogger.

End ServiceNowClientMore.

(** * Properties *)

(** ** The calendar *)

Module CalendarFacts.

Import Calendar.

Lemma is_leap_spec (y : Z) :
  is_leap y = true <-> (y mod 4 = 0 /\ (y mod 100 <> 0 \/ y mod 400 = 0)).
Proof.
  unfold is_leap.
  rewrite andb_true_iff, orb_true_iff, negb_true_iff, !Z.eqb_eq, Z.eqb_neq.
  tauto.
Qed.

Lemma days_before_year_succ (y : Z) :
  days_before_year (y + 1) = days_before_year y + 365 + b2z (is_leap y).
Proof.
  unfold days_before_year.
  replace (y + 1 - 1) with y by lia.
  destruct (is_leap y) eqn:E; unfold b2z.
  - apply is_leap_spec in E.
    Z.to_euclidean_division_equations; lia.
  - assert (N : ~ (y mod 4 = 0 /\ (y mod 100 <> 0 \/ y mod 400 = 0))).
    { rewrite <- is_leap_spec, E. discriminate. }
    Z.to_euclidean_division_equations; lia.
Qed.

Lemma month_day_check (leap : bool) :
  forallb (fun i =>
    let n := Z.of_nat i in
    let '(m, d) := month_day n leap in
    (1 <=? m) && (m <=? 12) && (1 <=? d) &&
    (d <=? DAYS_IN_MONTH m + b2z ((m =? 2) && leap)) &&
    (DAYS_BEFORE_MONTH m + b2z ((2 <? m) && leap) + d =? n + 1))
    (seq 0 (365 + (if leap then 1 else 0))) = true.
Proof. destruct leap; vm_compute; reflexivity. Qed.

Lemma month_day_spec (n : Z) (leap : bool) :
  0 <= n < 365 + b2z leap ->
  let '(m, d) := month_day n leap in
  1 <= m <= 12 /\ 1 <= d <= DAYS_IN_MONTH m + b2z ((m =? 2) && leap) /\
  DAYS_BEFORE_MONTH m + b2z ((2 <? m) && leap) + d = n + 1.
Proof.
  intros Hn.
  pose proof (month_day_check leap) as H.
  rewrite forallb_forall in H.
  specialize (H (Z.to_nat n)).
  rewrite Z2Nat.id in H by lia.
  cbv zeta in H.
  destruct (month_day n leap) as [m d].
  assert (I : In (Z.to_nat n) (seq 0 (365 + (if leap then 1 else 0)))).
  { apply in_seq. destruct leap; unfold b2z in Hn; lia. }
  specialize (H I).
  rewrite !andb_true_iff, !Z.leb_le, Z.eqb_eq in H. lia.
Qed.

Lemma ord2ymd_spec (n : Z) :
  1 <= n <= MAXORDINAL ->
  let '(y, m, d) := ord2ymd n in
  check_date_fields y m d = true /\ ymd2ord y m d = n.
Proof.
  intros Hn. unfold ord2ymd, MAXORDINAL, DI400Y, DI100Y, DI4Y in *.
  cbv zeta.
  set (n400 := (n - 1) / 146097).
  set (r1 := (n - 1) mod 146097).
  set (n100 := r1 / 36524).
  set (r2 := r1 mod 36524).
  set (n4 := r2 / 1461).
  set (r3 := r2 mod 1461).
  set (n1 := r3 / 365).
  set (r4 := r3 mod 365).
  assert (E1 : n - 1 = 146097 * n400 + r1 /\ 0 <= r1 < 146097).
  { subst n400 r1. split. apply Z.div_mod; lia. apply Z.mod_pos_bound; lia. }
  assert (E2 : r1 = 36524 * n100 + r2 /\ 0 <= r2 < 36524).
  { subst n100 r2. split. apply Z.div_mod; lia. apply Z.mod_pos_bound; lia. }
  assert (E3 : r2 = 1461 * n4 + r3 /\ 0 <= r3 < 1461).
  { subst n4 r3. split. apply Z.div_mod; lia. apply Z.mod_pos_bound; lia. }
  assert (E4 : r3 = 365 * n1 + r4 /\ 0 <= r4 < 365).
  { subst n1 r4. split. apply Z.div_mod; lia. apply Z.mod_pos_bound; lia. }
  clearbody n400 r1 n100 r2 n4 r3 n1 r4.
  assert (B : 0 <= n400 <= 24 /\ 0 <= n100 <= 4 /\ 0 <= n4 <= 24 /\ 0 <= n1 <= 4)
    by lia.
  destruct ((n1 =? 4) || (n100 =? 4)) eqn:Edge.
  - apply orb_true_iff in Edge. rewrite !Z.eqb_eq in Edge.
    set (y := n400 * 400 + 1 + (n100 * 100 + n4 * 4 + n1) - 1).
    assert (Y : (y = 400 * n400 + 100 * n100 + 4 * (n4 + 1) /\ n100 <= 3 /\
                 n4 <= 23 /\ n1 = 4 /\ r4 = 0) \/
                (y = 400 * (n400 + 1) /\ n100 = 4 /\ n4 = 0 /\ n1 = 0 /\ r4 = 0))
      by (subst y; lia).
    clearbody y.
    assert (L : is_leap y = true).
    { apply is_leap_spec. Z.to_euclidean_division_equations; lia. }
    unfold check_date_fields, ymd2ord, days_in_month, days_before_month,
      days_before_year, MINYEAR, MAXYEAR.
    rewrite L.
    change (DAYS_BEFORE_MONTH 12 + b2z ((2 <? 12) && true)) with 335.
    change (if (12 =? 2) && true then 29 else DAYS_IN_MONTH 12) with 31.
    split.
    + rewrite !andb_true_iff, !Z.leb_le. lia.
    + Z.to_euclidean_division_equations; lia.
  - apply orb_false_iff in Edge. rewrite !Z.eqb_neq in Edge.
    set (leap := (n1 =? 3) && (negb (n4 =? 24) || (n100 =? 3))).
    set (y := n400 * 400 + 1 + (n100 * 100 + n4 * 4 + n1)).
    assert (L : is_leap y = leap).
    { subst leap. destruct (is_leap y) eqn:E.
      - apply is_leap_spec in E. symmetry.
        rewrite andb_true_iff, orb_true_iff, negb_true_iff, !Z.eqb_eq, Z.eqb_neq.
        subst y. Z.to_euclidean_division_equations; lia.
      - symmetry. apply not_true_is_false. intros T.
        rewrite andb_true_iff, orb_true_iff, negb_true_iff, !Z.eqb_eq, Z.eqb_neq in T.
        assert (is_leap y = true); [|congruence].
        apply is_leap_spec. subst y. Z.to_euclidean_division_equations; lia. }
    assert (R : 0 <= r4 < 365 + b2z leap).
    { subst leap. unfold b2z.
      destruct ((n1 =? 3) && (negb (n4 =? 24) || (n100 =? 3))) eqn:E; lia. }
    assert (R' : r3 - 365 * n1 = r4) by lia.
    pose proof (month_day_spec (r3 - 365 * n1) leap) as MD.
    rewrite R' in MD. specialize (MD R).
    assert (Q : r3 mod 365 = r4 \/ n1 = 4) by (Z.to_euclidean_division_equations; lia).
    destruct Q as [Q|Q]; [|lia].
    clear Q.
    destruct (month_day r4 leap) as [m d].
    destruct MD as (Hm & Hd & Hs).
    unfold check_date_fields, ymd2ord, days_in_month, days_before_month,
      days_before_year, MINYEAR, MAXYEAR.
    rewrite L. fold y.
    split.
    + rewrite !andb_true_iff, !Z.leb_le.
      assert (Hd' : d <= (if (m =? 2) && leap then 29 else DAYS_IN_MONTH m)).
      { destruct ((m =? 2) && leap) eqn:E; unfold b2z in Hd.
        - apply andb_true_iff in E. destruct E as [E _]. apply Z.eqb_eq in E.
          subst m. simpl in Hd. lia.
        - lia. }
      subst y. lia.
    + subst y. Z.to_euclidean_division_equations; lia.
Qed.

Lemma check_date_fields_spec (y m d : Z) :
  check_date_fields y m d = true <->
  (1 <= y <= 9999 /\ 1 <= m <= 12 /\ 1 <= d <= days_in_month y m).
Proof.
  unfold check_date_fields, MINYEAR, MAXYEAR.
  rewrite !andb_true_iff, !Z.leb_le. tauto.
Qed.

Lemma check_time_fields_spec (hh mm ss : Z) :
  check_time_fields hh mm ss = true <->
  (0 <= hh <= 23 /\ 0 <= mm <= 59 /\ 0 <= ss <= 59).
Proof.
  unfold check_time_fields.
  rewrite !andb_true_iff, !Z.leb_le. tauto.
Qed.

Ltac month_cases m :=
  let H := fresh in
  assert (H : m = 1 \/ m = 2 \/ m = 3 \/ m = 4 \/ m = 5 \/ m = 6 \/
              m = 7 \/ m = 8 \/ m = 9 \/ m = 10 \/ m = 11 \/ m = 12) by lia;
  repeat (destruct H as [H|H]; [subst m|]); [..|subst m].

(** The day of the year of a valid date lies within the year. *)
Lemma day_of_year_bounds (y m d : Z) :
  1 <= m <= 12 -> 1 <= d <= days_in_month y m ->
  1 <= days_before_month y m + d <= 365 + b2z (is_leap y).
Proof.
  intros Hm Hd. unfold days_in_month, days_before_month in *.
  month_cases m; destruct (is_leap y); cbn -[Z.add Z.le Z.lt] in *; lia.
Qed.

(** Within a year, the day of the year grows with (month, day). *)
Lemma day_of_year_mono (y m1 d1 m2 d2 : Z) :
  1 <= m1 <= 12 -> 1 <= d1 <= days_in_month y m1 ->
  1 <= m2 <= 12 -> 1 <= d2 <= days_in_month y m2 ->
  m1 < m2 ->
  days_before_month y m1 + d1 < days_before_month y m2 + d2.
Proof.
  intros Hm1 Hd1 Hm2 Hd2 Hlt. unfold days_in_month, days_before_month in *.
  destruct (is_leap y); month_cases m1; cbn -[Z.add Z.le Z.lt] in Hd1 |- *;
    month_cases m2; cbn -[Z.add Z.le Z.lt] in Hd2 |- *; lia.
Qed.

Lemma days_before_year_mono (y1 y2 : Z) :
  y1 <= y2 -> days_before_year y1 <= days_before_year y2.
Proof.
  intros H. unfold days_before_year.
  Z.to_euclidean_division_equations; lia.
Qed.

Lemma ymd2ord_range (y m d : Z) :
  check_date_fields y m d = true -> 1 <= ymd2ord y m d <= MAXORDINAL.
Proof.
  rewrite check_date_fields_spec. intros (Hy & Hm & Hd).
  pose proof (day_of_year_bounds y m d Hm Hd) as B.
  pose proof (days_before_year_succ y) as S.
  pose proof (days_before_year_mono (y + 1) 10000 ltac:(lia)) as M1.
  pose proof (days_before_year_mono 1 y ltac:(lia)) as M2.
  change (days_before_year 10000) with 3652059 in M1.
  change (days_before_year 1) with 0 in M2.
  unfold ymd2ord, MAXORDINAL. lia.
Qed.

(** [ymd2ord] is strictly increasing along the calendar. *)
Lemma ymd2ord_lt_year (y1 m1 d1 y2 m2 d2 : Z) :
  1 <= m1 <= 12 -> 1 <= d1 <= days_in_month y1 m1 ->
  1 <= m2 <= 12 -> 1 <= d2 <= days_in_month y2 m2 ->
  y1 < y2 -> ymd2ord y1 m1 d1 < ymd2ord y2 m2 d2.
Proof.
  intros Hm1 Hd1 Hm2 Hd2 Hlt.
  pose proof (day_of_year_bounds y1 m1 d1 Hm1 Hd1).
  pose proof (day_of_year_bounds y2 m2 d2 Hm2 Hd2).
  pose proof (days_before_year_succ y1).
  pose proof (days_before_year_mono (y1 + 1) y2 ltac:(lia)).
  unfold ymd2ord. lia.
Qed.

End CalendarFacts.

(** ** Arithmetic of [datetime] and [timedelta] *)

Module DatetimeFacts.

Import Calendar CalendarFacts PyDatetime.

Lemma valid_datetime_spec (dt : datetime) :
  valid_datetime dt = true <->
  (check_date_fields (year dt) (month dt) (day dt) = true /\
   0 <= hour dt <= 23 /\ 0 <= minute dt <= 59 /\ 0 <= second dt <= 59).
Proof.
  unfold valid_datetime.
  rewrite andb_true_iff, check_time_fields_spec. tauto.
Qed.

Lemma datetime_new_valid (y m d hh mm ss : Z) (tz : option tzobj) :
  valid_datetime (mkdatetime y m d hh mm ss tz) = true ->
  datetime_new y m d hh mm ss tz = Ok (mkdatetime y m d hh mm ss tz).
Proof.
  unfold valid_datetime, datetime_new. cbn [year month day hour minute second].
  rewrite andb_true_iff. intros [-> ->]. reflexivity.
Qed.

Lemma timedelta_new_total (d s : Z) :
  total_seconds (timedelta_new d s) = d * 86400 + s.
Proof.
  unfold total_seconds, timedelta_new. cbn [days seconds].
  Z.to_euclidean_division_equations; lia.
Qed.

Lemma timedelta_new_seconds (d s : Z) :
  0 <= seconds (timedelta_new d s) < 86400.
Proof.
  unfold timedelta_new. cbn [seconds]. apply Z.mod_pos_bound. lia.
Qed.

Lemma timedelta_total_days (t : timedelta) :
  0 <= seconds t < 86400 ->
  days t = total_seconds t / 86400 /\ seconds t = total_seconds t mod 86400.
Proof.
  unfold total_seconds. intros H.
  Z.to_euclidean_division_equations; lia.
Qed.

Lemma timedelta_add_total (a b : timedelta) :
  total_seconds (timedelta_add a b) = total_seconds a + total_seconds b.
Proof.
  unfold timedelta_add. rewrite timedelta_new_total.
  unfold total_seconds. lia.
Qed.

Lemma timedelta_neg_total (a : timedelta) :
  total_seconds (timedelta_neg a) = - total_seconds a.
Proof.
  unfold timedelta_neg. rewrite timedelta_new_total.
  unfold total_seconds. lia.
Qed.

(** The field tuples of valid datetimes are ordered as their timestamps. *)
Lemma cmp_fields_timestamp (a b : datetime) :
  valid_datetime a = true -> valid_datetime b = true ->
  cmp_fields a b = (timestamp a ?= timestamp b).
Proof.
  rewrite !valid_datetime_spec, !check_date_fields_spec.
  unfold cmp_fields, timestamp, toordinal.
  destruct a as [y1 m1 d1 h1 i1 s1 z1], b as [y2 m2 d2 h2 i2 s2 z2].
  cbn [year month day hour minute second].
  intros ((Hy1 & Hm1 & Hd1) & Hh1 & Hi1 & Hs1) ((Hy2 & Hm2 & Hd2) & Hh2 & Hi2 & Hs2).
  assert (Y : y1 < y2 -> ymd2ord y1 m1 d1 < ymd2ord y2 m2 d2)
    by (apply ymd2ord_lt_year; assumption).
  assert (Y' : y2 < y1 -> ymd2ord y2 m2 d2 < ymd2ord y1 m1 d1)
    by (apply ymd2ord_lt_year; assumption).
  assert (M : y1 = y2 -> m1 < m2 -> ymd2ord y1 m1 d1 < ymd2ord y2 m2 d2).
  { intros -> L. unfold ymd2ord.
    pose proof (day_of_year_mono y2 m1 d1 m2 d2 Hm1 Hd1 Hm2 Hd2 L). lia. }
  assert (M' : y1 = y2 -> m2 < m1 -> ymd2ord y2 m2 d2 < ymd2ord y1 m1 d1).
  { intros -> L. unfold ymd2ord.
    pose proof (day_of_year_mono y2 m2 d2 m1 d1 Hm2 Hd2 Hm1 Hd1 L). lia. }
  assert (D : y1 = y2 -> m1 = m2 ->
              ymd2ord y1 m1 d1 - ymd2ord y2 m2 d2 = d1 - d2).
  { intros -> ->. unfold ymd2ord. lia. }
  set (o1 := ymd2ord y1 m1 d1) in *. set (o2 := ymd2ord y2 m2 d2) in *.
  clearbody o1 o2. symmetry.
  destruct (Z.compare_spec y1 y2) as [Ey|Ly|Ly]; cbn [lex];
    [|apply Z.compare_lt_iff; lia|apply Z.compare_gt_iff; lia].
  destruct (Z.compare_spec m1 m2) as [Em|Lm|Lm]; cbn [lex];
    [|apply Z.compare_lt_iff; lia|apply Z.compare_gt_iff; lia].
  specialize (D Ey Em).
  destruct (Z.compare_spec d1 d2) as [Ed|Ld|Ld]; cbn [lex];
    [|apply Z.compare_lt_iff; lia|apply Z.compare_gt_iff; lia].
  destruct (Z.compare_spec h1 h2) as [Eh|Lh|Lh]; cbn [lex];
    [|apply Z.compare_lt_iff; lia|apply Z.compare_gt_iff; lia].
  destruct (Z.compare_spec i1 i2) as [Ei|Li|Li]; cbn [lex];
    [|apply Z.compare_lt_iff; lia|apply Z.compare_gt_iff; lia].
  destruct (Z.compare_spec s1 s2) as [Es|Ls|Ls];
    [apply Z.compare_eq_iff|apply Z.compare_lt_iff|apply Z.compare_gt_iff]; lia.
Qed.

(** [dt + delta] stays a valid datetime, the given number of seconds later,
    as long as the result is no earlier than year 1 and no later than year
    9999. *)
Lemma datetime_add_spec (dt : datetime) (delta : timedelta) :
  valid_datetime dt = true ->
  0 <= timestamp dt + total_seconds delta < MAXORDINAL * 86400 ->
  exists r, datetime_add dt delta = Ok r /\ valid_datetime r = true /\
            timestamp r = timestamp dt + total_seconds delta /\
            tzinfo r = tzinfo dt.
Proof.
  intros V R. apply valid_datetime_spec in V.
  destruct V as (Vd & Hh & Hm & Hs).
  unfold datetime_add.
  set (d := timedelta_add _ delta).
  assert (T : total_seconds d = timestamp dt + 86400 + total_seconds delta).
  { subst d. rewrite timedelta_add_total, timedelta_new_total.
    unfold timestamp. lia. }
  assert (S : 0 <= seconds d < 86400) by apply timedelta_new_seconds.
  destruct (timedelta_total_days d S) as [Ed Es].
  unfold MAXORDINAL in *.
  assert (B : 1 <= days d <= 3652059).
  { rewrite Ed. Z.to_euclidean_division_equations; lia. }
  replace ((0 <? days d) && (days d <=? 3652059)) with true
    by (symmetry; apply andb_true_iff; rewrite Z.ltb_lt, Z.leb_le; lia).
  pose proof (ord2ymd_spec (days d) B) as O.
  destruct (ord2ymd (days d)) as [[y m] dd]. destruct O as [Ov Oe].
  assert (V' : valid_datetime
                 (mkdatetime y m dd (seconds d / 3600)
                    (seconds d mod 3600 / 60) (seconds d mod 3600 mod 60)
                    (tzinfo dt)) = true).
  { apply valid_datetime_spec. cbn [year month day hour minute second].
    split; [exact Ov|]. Z.to_euclidean_division_equations; lia. }
  rewrite (datetime_new_valid _ _ _ _ _ _ _ V').
  eexists. split; [reflexivity|]. split; [exact V'|]. split; [|reflexivity].
  unfold timestamp at 1, toordinal. cbn [year month day hour minute second].
  rewrite Oe. clear Ed Es. unfold total_seconds in T at 1.
  Z.to_euclidean_division_equations; lia.
Qed.

(** Outside that window the addition overflows. *)
Lemma datetime_add_overflow (dt : datetime) (delta : timedelta) :
  ~ (0 <= timestamp dt + total_seconds delta < MAXORDINAL * 86400) ->
  0 <= hour dt * 3600 + minute dt * 60 + second dt < 86400 ->
  raised (datetime_add dt delta) = Some OverflowError.
Proof.
  intros R Hs. unfold datetime_add.
  set (d := timedelta_add _ delta).
  assert (T : total_seconds d = timestamp dt + 86400 + total_seconds delta).
  { subst d. rewrite timedelta_add_total, timedelta_new_total.
    unfold timestamp. lia. }
  assert (S : 0 <= seconds d < 86400) by apply timedelta_new_seconds.
  destruct (timedelta_total_days d S) as [Ed Es].
  unfold MAXORDINAL in *.
  replace ((0 <? days d) && (days d <=? 3652059)) with false; [reflexivity|].
  symmetry. apply andb_false_iff. rewrite Z.ltb_ge, Z.leb_gt.
  rewrite Ed. Z.to_euclidean_division_equations; lia.
Qed.

End DatetimeFacts.

(** ** Parsing and printing of dates *)

Module FormatFacts.

Import Calendar CalendarFacts PyString PyDatetime DatetimeFacts PyTimeFormat.
Local Open Scope char_scope.

Lemma Z_range_cases (P : Z -> Prop) (lo : Z) (n : nat) :
  (forall i : nat, (i < n)%nat -> P (lo + Z.of_nat i)) ->
  forall z, lo <= z < lo + Z.of_nat n -> P z.
Proof.
  intros H z Hz.
  replace z with (lo + Z.of_nat (Z.to_nat (z - lo))) by lia.
  apply H. lia.
Qed.

Lemma digit_char_props (z : Z) :
  0 <= z <= 9 ->
  is_digit (digit_char z) = true /\ digit_val (digit_char z) = z /\
  is_space (digit_char z) = false.
Proof.
  intros Hz. pattern z. apply (Z_range_cases _ 0 10); [|lia].
  intros i Hi.
  do 10 (destruct i as [|i]; [vm_compute; auto|]). lia.
Qed.

Lemma digit_val_props (c : ascii) :
  is_digit c = true -> 0 <= digit_val c <= 9 /\ digit_char (digit_val c) = c.
Proof.
  destruct c as [[] [] [] [] [] [] [] []]; vm_compute; intros H;
    first [discriminate H | split; [split; discriminate | reflexivity]].
Qed.

Lemma pad2_two_digits (a b : ascii) :
  is_digit a = true -> is_digit b = true ->
  pad2 (two_digits a b) = [a; b].
Proof.
  intros Ha Hb.
  destruct (digit_val_props a Ha) as [Ba Ea], (digit_val_props b Hb) as [Bb Eb].
  unfold pad2, two_digits.
  replace ((10 * digit_val a + digit_val b) / 10 mod 10) with (digit_val a)
    by (Z.to_euclidean_division_equations; lia).
  replace ((10 * digit_val a + digit_val b) mod 10) with (digit_val b)
    by (Z.to_euclidean_division_equations; lia).
  now rewrite Ea, Eb.
Qed.

Lemma pad4_two_digits (a b c d : ascii) :
  is_digit a = true -> is_digit b = true ->
  is_digit c = true -> is_digit d = true ->
  pad4 (two_digits a b * 100 + two_digits c d) = [a; b; c; d].
Proof.
  intros Ha Hb Hc Hd.
  destruct (digit_val_props a Ha) as [Ba Ea], (digit_val_props b Hb) as [Bb Eb],
    (digit_val_props c Hc) as [Bc Ec], (digit_val_props d Hd) as [Bd Ed].
  unfold pad4, two_digits.
  set (v := (10 * digit_val a + digit_val b) * 100 + (10 * digit_val c + digit_val d)).
  replace (v / 1000 mod 10) with (digit_val a)
    by (subst v; Z.to_euclidean_division_equations; lia).
  replace (v / 100 mod 10) with (digit_val b)
    by (subst v; Z.to_euclidean_division_equations; lia).
  replace (v / 10 mod 10) with (digit_val c)
    by (subst v; Z.to_euclidean_division_equations; lia).
  replace (v mod 10) with (digit_val d)
    by (subst v; Z.to_euclidean_division_equations; lia).
  now rewrite Ea, Eb, Ec, Ed.
Qed.

Lemma int_of_pad2 (v : Z) : 0 <= v <= 99 -> int_of (pad2 v) = v.
Proof.
  intros H. unfold int_of, pad2.
  destruct (digit_char_props (v / 10 mod 10)) as (_ & E1 & S1);
    [Z.to_euclidean_division_equations; lia|].
  destruct (digit_char_props (v mod 10)) as (_ & E2 & _);
    [Z.to_euclidean_division_equations; lia|].
  cbn [lstrip]. rewrite S1. cbn [digits_value]. rewrite E1, E2.
  Z.to_euclidean_division_equations; lia.
Qed.

Lemma int_of_pad4 (v : Z) : 0 <= v <= 9999 -> int_of (pad4 v) = v.
Proof.
  intros H. unfold int_of, pad4.
  destruct (digit_char_props (v / 1000 mod 10)) as (_ & E1 & S1);
    [Z.to_euclidean_division_equations; lia|].
  destruct (digit_char_props (v / 100 mod 10)) as (_ & E2 & _);
    [Z.to_euclidean_division_equations; lia|].
  destruct (digit_char_props (v / 10 mod 10)) as (_ & E3 & _);
    [Z.to_euclidean_division_equations; lia|].
  destruct (digit_char_props (v mod 10)) as (_ & E4 & _);
    [Z.to_euclidean_division_equations; lia|].
  cbn [lstrip]. rewrite S1. cbn [digits_value]. rewrite E1, E2, E3, E4.
  Z.to_euclidean_division_equations; lia.
Qed.

(** *** The matchers on printed fields *)

Section Matchers.

Context {R : Type}.
Variable k : list ascii -> list ascii -> option R.
Variable rest : list ascii.
Variable r : R.

Ltac by_cases lo n :=
  let i := fresh "i" in
  let Hi := fresh "Hi" in
  let H := fresh "H" in
  let v := fresh "v" in
  let Hv := fresh "Hv" in
  intros v Hv; pattern v; apply (Z_range_cases _ lo n); [|exact Hv];
  clear v Hv; intros i Hi;
  repeat (destruct i as [|i];
          [vm_compute; intros H; rewrite H; reflexivity|]);
  exfalso; lia.

Lemma re_Y_pad4 (v : Z) :
  re_Y k (pad4 v ++ rest) = k (pad4 v) rest.
Proof.
  unfold re_Y, pad4, ch. cbn [app].
  destruct (digit_char_props (v / 1000 mod 10)) as (-> & _);
    [pose proof (Z.mod_pos_bound (v / 1000) 10); lia|].
  destruct (digit_char_props (v / 100 mod 10)) as (-> & _);
    [pose proof (Z.mod_pos_bound (v / 100) 10); lia|].
  destruct (digit_char_props (v / 10 mod 10)) as (-> & _);
    [pose proof (Z.mod_pos_bound (v / 10) 10); lia|].
  destruct (digit_char_props (v mod 10)) as (-> & _);
    [pose proof (Z.mod_pos_bound v 10); lia|].
  reflexivity.
Qed.

Lemma re_m_pad2 (v : Z) :
  1 <= v < 1 + Z.of_nat 12 ->
  k (pad2 v) rest = Some r -> re_m k (pad2 v ++ rest) = Some r.
Proof. revert v. by_cases 1 12%nat. Qed.

Lemma re_d_pad2 (v : Z) :
  1 <= v < 1 + Z.of_nat 31 ->
  k (pad2 v) rest = Some r -> re_d k (pad2 v ++ rest) = Some r.
Proof. revert v. by_cases 1 31%nat. Qed.

Lemma re_H_pad2 (v : Z) :
  0 <= v < 0 + Z.of_nat 24 ->
  k (pad2 v) rest = Some r -> re_H k (pad2 v ++ rest) = Some r.
Proof. revert v. by_cases 0 24%nat. Qed.

Lemma re_M_pad2 (v : Z) :
  0 <= v < 0 + Z.of_nat 60 ->
  k (pad2 v) rest = Some r -> re_M k (pad2 v ++ rest) = Some r.
Proof. revert v. by_cases 0 60%nat. Qed.

Lemma re_S_pad2 (v : Z) :
  0 <= v < 0 + Z.of_nat 60 ->
  k (pad2 v) rest = Some r -> re_S k (pad2 v ++ rest) = Some r.
Proof. revert v. by_cases 0 60%nat. Qed.

End Matchers.

Lemma lit_cons {R : Type} (c : ascii) (k : list ascii -> option R) (s : list ascii) :
  lit c k (c :: s) = k s.
Proof. unfold lit, ch, is_char. now rewrite Ascii.eqb_refl. Qed.

Lemma re_spaces_pad2 {R : Type} (k : list ascii -> option R) (v : Z)
    (rest : list ascii) :
  re_spaces k (" " :: pad2 v ++ rest) = k (pad2 v ++ rest).
Proof.
  unfold pad2. cbn [app re_spaces].
  destruct (digit_char_props (v / 10 mod 10)) as (_ & _ & ->);
    [pose proof (Z.mod_pos_bound (v / 10) 10); lia|].
  change (is_space " ") with true. cbv iota. reflexivity.
Qed.

Lemma string_of_list_ascii_app (l1 l2 : list ascii) :
  string_of_list_ascii (l1 ++ l2) =
  (string_of_list_ascii l1 ++ string_of_list_ascii l2)%string.
Proof. induction l1 as [|c l1 IH]; cbn; [reflexivity|now rewrite IH]. Qed.

Lemma days_in_month_le_31 (y m : Z) : 1 <= m <= 12 -> days_in_month y m <= 31.
Proof.
  intros H. unfold days_in_month.
  month_cases m; destruct (is_leap y); cbn; lia.
Qed.

(** Parsing what [write_exact] printed gives the fields back. *)
Lemma strptime_write_exact (dt : datetime) :
  valid_datetime dt = true ->
  strptime (write_exact dt) = Ok (replace_tzinfo dt None).
Proof.
  intros V. pose proof V as V0.
  apply valid_datetime_spec in V. destruct V as (Vd & Hh & Hm & Hs).
  apply check_date_fields_spec in Vd. destruct Vd as (Hy & Hmo & Hd).
  pose proof (days_in_month_le_31 (year dt) (month dt) Hmo) as D31.
  unfold strptime, write_exact.
  rewrite list_ascii_of_string_of_list_ascii.
  assert (M : match_DATETIME_FORMAT
                (pad4 (year dt) ++ "-" :: pad2 (month dt) ++ "-" ::
                 pad2 (day dt) ++ " " :: pad2 (hour dt) ++ ":" ::
                 pad2 (minute dt) ++ ":" :: pad2 (second dt))
              = Some (mkfound (pad4 (year dt)) (pad2 (month dt)) (pad2 (day dt))
                        (pad2 (hour dt)) (pad2 (minute dt)) (pad2 (second dt)) [])).
  { unfold match_DATETIME_FORMAT.
    rewrite re_Y_pad4, lit_cons.
    apply re_m_pad2; [cbn; lia|]. rewrite lit_cons.
    apply re_d_pad2; [cbn; lia|]. rewrite re_spaces_pad2.
    apply re_H_pad2; [cbn; lia|]. rewrite lit_cons.
    apply re_M_pad2; [cbn; lia|]. rewrite lit_cons.
    rewrite <- (app_nil_r (pad2 (second dt))) at 1.
    apply re_S_pad2; [cbn; lia|]. reflexivity. }
  rewrite M. cbn [unconverted g_Y g_m g_d g_H g_M g_S].
  rewrite int_of_pad4 by lia. rewrite !int_of_pad2 by lia.
  apply datetime_new_valid. exact V0.
Qed.

(** A text in the exact layout is the printed form of what it denotes. *)
Lemma read_exact_write_exact (s : string) (dt : datetime) :
  read_exact s = Some dt -> write_exact dt = s /\ tzinfo dt = None.
Proof.
  unfold read_exact. intros H.
  rewrite <- (string_of_list_ascii_of_string s).
  destruct (list_ascii_of_string s) as
    [|y1 [|y2 [|y3 [|y4 [|p1 [|m1 [|m2 [|p2 [|d1 [|d2 [|p3 [|H1 [|H2 [|p4
     [|M1 [|M2 [|p5 [|S1 [|S2 [|x l]]]]]]]]]]]]]]]]]]]]; try discriminate H.
  destruct (forallb is_digit _ && _ && _ && _ && _ && _) eqn:E;
    [|discriminate H].
  injection H as <-.
  rewrite !andb_true_iff in E.
  destruct E as (((((E & P1) & P2) & P3) & P4) & P5).
  cbn [forallb] in E. rewrite !andb_true_iff in E.
  destruct E as (? & ? & ? & ? & ? & ? & ? & ? & ? & ? & ? & ? & ? & ? & _).
  unfold is_char in *.
  apply Ascii.eqb_eq in P1, P2, P3, P4, P5. subst p1 p2 p3 p4 p5.
  split; [|reflexivity].
  unfold write_exact. cbn [year month day hour minute second].
  rewrite pad4_two_digits by assumption.
  rewrite !pad2_two_digits by assumption.
  reflexivity.
Qed.

(** *** The year as [strftime] writes it *)

Lemma fmt_Y_pad4 (v : Z) : 1000 <= v -> fmt_Y v = pad4 v.
Proof.
  intros H. unfold fmt_Y.
  destruct (Z.ltb_spec v 10%Z); [lia|].
  destruct (Z.ltb_spec v 100%Z); [lia|].
  destruct (Z.ltb_spec v 1000%Z); [lia|reflexivity].
Qed.

(** From the year 1000 on, [strftime] writes the exact layout. *)
Lemma strftime_write_exact (dt : datetime) :
  1000 <= year dt -> strftime dt = write_exact dt.
Proof. intros H. unfold strftime, write_exact. now rewrite fmt_Y_pad4. Qed.

Lemma strftime_date_write_exact (y m d : Z) :
  1000 <= y -> strftime_date y m d = write_exact_date y m d.
Proof. intros H. unfold strftime_date, write_exact_date. now rewrite fmt_Y_pad4. Qed.

(** Below it the year has fewer than four digits, and the pattern of [%Y]
    meets the dash where it wants a digit. *)
Lemma re_Y_short_year {R : Type} (k : list ascii -> list ascii -> option R)
    (v : Z) (rest : list ascii) :
  v < 1000 -> re_Y k (fmt_Y v ++ "-" :: rest) = None.
Proof.
  intros H. unfold fmt_Y.
  destruct (v <? 10)%Z; [|destruct (v <? 100)%Z;
    [|destruct (Z.ltb_spec v 1000%Z); [|lia]]];
    unfold re_Y, pad2, ch; cbn [app];
    repeat match goal with
           | |- context [is_digit (digit_char ?z)] =>
               destruct (is_digit (digit_char z))
           end; reflexivity.
Qed.

Lemma strptime_short_year (v : Z) (rest : list ascii) :
  v < 1000 ->
  exists msg,
    strptime (string_of_list_ascii (fmt_Y v ++ "-" :: rest)) = Raise ValueError msg.
Proof.
  intros H. unfold strptime, match_DATETIME_FORMAT.
  rewrite list_ascii_of_string_of_list_ascii, re_Y_short_year by exact H.
  eexists. reflexivity.
Qed.

Lemma strftime_short_length (dt : datetime) :
  year dt < 1000 -> (16 <= String.length (strftime dt) < 19)%nat.
Proof.
  intros H. unfold strftime, fmt_Y.
  destruct (year dt <? 10)%Z; [|destruct (year dt <? 100)%Z;
    [|destruct (Z.ltb_spec (year dt) 1000%Z); [|lia]]]; cbn; lia.
Qed.

Lemma strftime_date_short_length (y m d : Z) :
  y < 1000 -> (String.length (strftime_date y m d) < 10)%nat.
Proof.
  intros H. unfold strftime_date, fmt_Y.
  destruct (y <? 10)%Z; [|destruct (y <? 100)%Z;
    [|destruct (Z.ltb_spec y 1000%Z); [|lia]]]; cbn; lia.
Qed.

End FormatFacts.

(** ** [DateTimeRange.overlapSeconds] *)

Module OverlapFacts.

Import Calendar CalendarFacts PyDatetime DatetimeFacts PyObj ServiceNowTime.

Lemma compare_shift (x y o : Z) : (x - o ?= y - o) = (x ?= y).
Proof.
  destruct (Z.compare_spec x y);
    [apply Z.compare_eq_iff|apply Z.compare_lt_iff|apply Z.compare_gt_iff]; lia.
Qed.

Section Pair.

Variables a b : datetime.
Hypothesis Va : valid_datetime a = true.
Hypothesis Vb : valid_datetime b = true.
Hypothesis K : is_naive a = is_naive b.

Lemma datetime_sub_instant :
  exists d, datetime_sub a b = Ok d /\
            total_seconds d = instant a - instant b /\
            0 <= seconds d < 86400.
Proof.
  unfold datetime_sub, instant, utcoffset, is_naive in *.
  set (base := timedelta_new _ _).
  assert (B : total_seconds base = timestamp a - timestamp b).
  { subst base. rewrite timedelta_new_total. unfold timestamp. lia. }
  assert (S : 0 <= seconds base < 86400) by apply timedelta_new_seconds.
  destruct (tzinfo a) as [[|o1]|], (tzinfo b) as [[|o2]|];
    try discriminate K; cbn [same_tz].
  - exists base. repeat split; try lia; reflexivity.
  - destruct (Z.eqb_spec 0 o2) as [<-|N].
    + exists base. repeat split; try lia; reflexivity.
    + eexists. split; [reflexivity|].
      split; [|apply timedelta_new_seconds].
      rewrite !timedelta_add_total, timedelta_neg_total, !timedelta_new_total.
      lia.
  - destruct (Z.eqb_spec o1 0) as [->|N].
    + exists base. repeat split; try lia; reflexivity.
    + eexists. split; [reflexivity|].
      split; [|apply timedelta_new_seconds].
      rewrite !timedelta_add_total, timedelta_neg_total, !timedelta_new_total.
      lia.
  - destruct (Z.eqb_spec o1 o2) as [->|N].
    + exists base. repeat split; try lia; reflexivity.
    + eexists. split; [reflexivity|].
      split; [|apply timedelta_new_seconds].
      rewrite !timedelta_add_total, timedelta_neg_total, !timedelta_new_total.
      lia.
  - exists base. repeat split; try lia; reflexivity.
Qed.

Lemma datetime_cmp_instant :
  datetime_cmp a b = Ok (instant a ?= instant b).
Proof.
  destruct datetime_sub_instant as (d & Ed & Td & Sd).
  unfold datetime_cmp. rewrite Ed. clear Ed.
  pose proof (cmp_fields_timestamp a b Va Vb) as C.
  unfold instant, utcoffset, is_naive, total_seconds in *.
  assert (D : forall o1 o2,
             timestamp a - o1 - (timestamp b - o2) = days d * 86400 + seconds d ->
             (if days d <? 0 then Lt
              else if (days d =? 0) && (seconds d =? 0) then Eq else Gt)
             = (timestamp a - o1 ?= timestamp b - o2)).
  { intros o1 o2 E. symmetry.
    destruct (Z.ltb_spec (days d) 0); [apply Z.compare_lt_iff; lia|].
    destruct (Z.eqb_spec (days d) 0) as [Z0|]; cbn [andb].
    - destruct (Z.eqb_spec (seconds d) 0);
        [apply Z.compare_eq_iff|apply Z.compare_gt_iff]; lia.
    - apply Z.compare_gt_iff. lia. }
  destruct (tzinfo a) as [[|o1]|], (tzinfo b) as [[|o2]|];
    try discriminate K; cbn [same_tz bind].
  - now rewrite C, compare_shift.
  - destruct (Z.eqb_spec 0 o2) as [<-|N].
    + now rewrite C, compare_shift.
    + f_equal. apply D. lia.
  - destruct (Z.eqb_spec o1 0) as [->|N].
    + now rewrite C, compare_shift.
    + f_equal. apply D. lia.
  - destruct (Z.eqb_spec o1 o2) as [->|N].
    + now rewrite C, compare_shift.
    + f_equal. apply D. lia.
  - now rewrite C, compare_shift.
Qed.

End Pair.

Lemma py_max_instant (a b : datetime) :
  valid_datetime a = true -> valid_datetime b = true ->
  is_naive a = is_naive b ->
  exists m, py_max a b = Ok m /\ (m = a \/ m = b) /\
            instant m = Z.max (instant a) (instant b).
Proof.
  intros Va Vb K. unfold py_max, datetime_gt.
  rewrite (datetime_cmp_instant b a Vb Va (eq_sym K)). cbn [bind].
  destruct (Z.compare_spec (instant b) (instant a));
    eexists; (split; [reflexivity|]); split; auto; lia.
Qed.

Lemma py_min_instant (a b : datetime) :
  valid_datetime a = true -> valid_datetime b = true ->
  is_naive a = is_naive b ->
  exists m, py_min a b = Ok m /\ (m = a \/ m = b) /\
            instant m = Z.min (instant a) (instant b).
Proof.
  intros Va Vb K. unfold py_min, datetime_lt.
  rewrite (datetime_cmp_instant b a Vb Va (eq_sym K)). cbn [bind].
  destruct (Z.compare_spec (instant b) (instant a));
    eexists; (split; [reflexivity|]); split; auto; lia.
Qed.

Lemma comparable_four (s1 e1 s2 e2 : datetime) :
  comparable [s1; e1; s2; e2] = true ->
  is_naive s1 = is_naive s2 /\ is_naive e1 = is_naive e2 /\
  is_naive s1 = is_naive e1.
Proof.
  unfold comparable. cbn [forallb].
  destruct (is_naive s1), (is_naive e1), (is_naive s2), (is_naive e2);
    cbn; intros H; try discriminate H; auto.
Qed.

Lemma overlapSeconds_instant (s1 e1 s2 e2 : datetime) :
  valid_datetime s1 = true -> valid_datetime e1 = true ->
  valid_datetime s2 = true -> valid_datetime e2 = true ->
  comparable [s1; e1; s2; e2] = true ->
  overlapSeconds (s1, e1) (s2, e2) =
  Ok (Z.max 0 (Z.min (instant e1) (instant e2)
               - Z.max (instant s1) (instant s2))).
Proof.
  intros Vs1 Ve1 Vs2 Ve2 C.
  destruct (comparable_four _ _ _ _ C) as (Ks & Ke & Kse).
  unfold overlapSeconds. cbn [fst snd].
  destruct (py_max_instant s1 s2 Vs1 Vs2 Ks) as (ls & -> & Cls & Els).
  destruct (py_min_instant e1 e2 Ve1 Ve2 Ke) as (ee & -> & Cee & Eee).
  cbn [bind].
  assert (Vls : valid_datetime ls = true) by (destruct Cls; subst; assumption).
  assert (Vee : valid_datetime ee = true) by (destruct Cee; subst; assumption).
  assert (Kle : is_naive ls = is_naive ee)
    by (destruct Cls, Cee; subst; congruence).
  unfold datetime_ge. rewrite (datetime_cmp_instant ls ee Vls Vee Kle).
  cbn [bind]. rewrite <- Els, <- Eee.
  destruct (datetime_sub_instant ee ls (eq_sym Kle)) as (d & Ed & Td & _).
  destruct (Z.compare_spec (instant ls) (instant ee)).
  - f_equal. lia.
  - rewrite Ed. cbn [bind]. f_equal. lia.
  - f_equal. lia.
Qed.

End OverlapFacts.

(** ** [class DateTime] *)

Module DateTimeFacts.

Import Calendar CalendarFacts PyString PyDatetime DatetimeFacts PyTimeFormat
  FormatFacts PyObj ServiceNowTime.

Lemma write_exact_length (dt : datetime) : String.length (write_exact dt) = 19%nat.
Proof. reflexivity. Qed.

Lemma write_exact_date_length (y m d : Z) :
  String.length (write_exact_date y m d) = 10%nat.
Proof. reflexivity. Qed.

Lemma write_exact_midnight (y m d : Z) (tz : option tzobj) :
  write_exact (mkdatetime y m d 0 0 0 tz) =
  (write_exact_date y m d ++ " 00:00:00")%string.
Proof.
  reflexivity.
Qed.

(** The last step of [DateTime.__new__] on a valid datetime. *)
Lemma DateTime_fields_ok (dt : datetime) :
  valid_datetime dt = true ->
  datetime_new (year dt) (month dt) (day dt) (hour dt) (minute dt) (second dt)
    (Some TZ_UTC) = Ok (replace_tzinfo dt (Some TZ_UTC)).
Proof.
  intros V. apply datetime_new_valid. exact V.
Qed.

Lemma valid_replace_tzinfo (dt : datetime) (tz : option tzobj) :
  valid_datetime (replace_tzinfo dt tz) = valid_datetime dt.
Proof. reflexivity. Qed.

Lemma timestamp_replace_tzinfo (dt : datetime) (tz : option tzobj) :
  timestamp (replace_tzinfo dt tz) = timestamp dt.
Proof. reflexivity. Qed.

Lemma as_datetime_of (dt : datetime) :
  as_datetime (DateTime_of dt) = replace_tzinfo dt (Some TZ_UTC).
Proof. reflexivity. Qed.

(** Wrapping a valid UTC datetime keeps its fields. *)
Lemma DateTime_new_UTC (TZ_LOCAL : datetime -> Z) (dt : datetime) (local : bool) :
  valid_datetime dt = true -> tzinfo dt = Some TZ_UTC ->
  DateTime_new TZ_LOCAL (PyDatetime dt) local = Ok (DateTime_of dt).
Proof.
  intros V T. unfold DateTime_new. rewrite T.
  cbn [astimezone_UTC bind]. rewrite (DateTime_fields_ok dt V).
  reflexivity.
Qed.

(** Whatever [DateTime] is built from, its fields are those of a valid
    datetime. *)
Lemma DateTime_new_valid (TZ_LOCAL : datetime -> Z) (arg : pyobj) (local : bool)
    (d : DateTime) :
  DateTime_new TZ_LOCAL arg local = Ok d -> valid_DateTime d = true.
Proof.
  unfold DateTime_new.
  match goal with
  | |- bind ?inner _ = _ -> _ => destruct inner as [dt|c msg]
  end; cbn [bind]; [|discriminate].
  unfold datetime_new.
  destruct (check_date_fields _ _ _) eqn:Ed; [|discriminate].
  destruct (check_time_fields _ _ _) eqn:Et; [|discriminate].
  cbn [bind year month day hour minute second]. intros H. injection H as <-.
  unfold valid_DateTime, valid_datetime, as_datetime.
  cbn [year month day hour minute second dt_year dt_month dt_day dt_hour
       dt_minute dt_second].
  now rewrite Ed, Et.
Qed.

(** A date written as [YYYY-MM-DD] is read as its midnight; with [local]
    the zone's offset is taken off, provided the result is a representable
    datetime. *)
Lemma DateTime_new_date_text (TZ_LOCAL : datetime -> Z) (y m d : Z) (local : bool) :
  check_date_fields y m d = true ->
  let midnight := mkdatetime y m d 0 0 0 None in
  let off := if local then TZ_LOCAL midnight else 0 in
  0 <= timestamp midnight - off < MAXORDINAL * 86400 ->
  exists u, DateTime_new TZ_LOCAL (PyStr (write_exact_date y m d)) local
            = Ok (DateTime_of u) /\
            valid_datetime u = true /\
            timestamp u = timestamp midnight - off.
Proof.
  intros Vd midnight off R.
  assert (V : valid_datetime midnight = true).
  { unfold valid_datetime, midnight. cbn [year month day hour minute second].
    rewrite Vd. reflexivity. }
  unfold DateTime_new.
  rewrite write_exact_date_length. cbn [Nat.eqb].
  rewrite <- (write_exact_midnight y m d None).
  fold midnight. rewrite (strptime_write_exact midnight V).
  cbn [bind]. change (replace_tzinfo midnight None) with midnight.
  destruct local.
  - unfold local_to_UTC, astimezone_UTC. fold off.
    destruct (datetime_add_spec
                (replace_tzinfo midnight (Some (TZ_fixed off)))
                (timedelta_neg (timedelta_new 0 off))) as (u & Eu & Vu & Tu & _).
    + exact V.
    + rewrite timedelta_neg_total, timedelta_new_total.
      rewrite timestamp_replace_tzinfo. lia.
    + rewrite Eu. cbn [bind].
      exists u. split; [|split].
      * rewrite (DateTime_fields_ok (replace_tzinfo u (Some TZ_UTC)) Vu).
        reflexivity.
      * exact Vu.
      * rewrite Tu, timedelta_neg_total, timedelta_new_total.
        rewrite timestamp_replace_tzinfo. lia.
  - cbn [bind].
    exists midnight. split; [|split].
    + rewrite (DateTime_fields_ok (replace_tzinfo midnight (Some TZ_UTC)) V).
      reflexivity.
    + exact V.
    + subst off. lia.
Qed.

(** Arithmetic on a [DateTime] never gives a value: it overflows, or the
    result cannot be built. *)
Lemma DateTime_add_raises (self : DateTime) (delta : timedelta) :
  forall r, DateTime_add self delta <> Ok r.
Proof.
  intros r. unfold DateTime_add, DateTime_from_fields.
  destruct (datetime_add _ _); discriminate.
Qed.

(** Within the calendar it is the result that cannot be built. *)
Lemma DateTime_add_TypeError (self : DateTime) (delta : timedelta) :
  valid_DateTime self = true ->
  0 <= timestamp (as_datetime self) + total_seconds delta < MAXORDINAL * 86400 ->
  raised (DateTime_add self delta) = Some TypeError.
Proof.
  intros V W. unfold DateTime_add, DateTime_from_fields.
  destruct (datetime_add_spec (as_datetime self) delta V W) as (r & E & _).
  rewrite E. reflexivity.
Qed.

(** [fromDate] never returns a range. *)
Lemma fromDate_no_range (TZ_LOCAL : datetime -> Z) (y m d : Z) (local : bool)
    (r : DateTimeRange) :
  fromDate TZ_LOCAL y m d local <> Ok r.
Proof.
  unfold fromDate.
  destruct (DateTime_new _ _ _) as [t0|]; cbn [bind]; [|discriminate].
  pose proof (DateTime_add_raises t0 (timedelta_new 0 (24 * 60 * 60 - 1))) as N.
  destruct (DateTime_add _ _) as [sum|]; cbn [bind]; [|discriminate].
  exfalso. exact (N sum eq_refl).
Qed.

(** With [local=False] and a year that [strftime] writes with four
    digits, the sum [t0 + almost24hours] is where it stops. *)
Lemma fromDate_UTC_TypeError (TZ_LOCAL : datetime -> Z) (y m d : Z) :
  check_date_fields y m d = true -> 1000 <= y ->
  raised (fromDate TZ_LOCAL y m d false) = Some TypeError.
Proof.
  intros Vd Hy.
  destruct (DateTime_new_date_text TZ_LOCAL y m d false Vd) as (u & Eu & Vu & Tu).
  { pose proof (ymd2ord_range y m d Vd) as O.
    unfold timestamp, toordinal. cbn [year month day hour minute second]. lia. }
  unfold fromDate. rewrite strftime_date_write_exact by exact Hy.
  rewrite Eu. cbn [bind].
  assert (T : raised (DateTime_add (DateTime_of u)
                        (timedelta_new 0 (24 * 60 * 60 - 1))) = Some TypeError).
  { apply DateTime_add_TypeError; [exact Vu|].
    rewrite as_datetime_of, timestamp_replace_tzinfo, timedelta_new_total.
    pose proof (ymd2ord_range y m d Vd) as O.
    rewrite Tu. unfold timestamp, toordinal.
    cbn [year month day hour minute second]. lia. }
  destruct (DateTime_add _ _) as [sum|c msg]; [discriminate T|exact T].
Qed.

(** Below the year 1000 the text of the date is not one the constructor
    reads. *)
Lemma fromDate_short_year (TZ_LOCAL : datetime -> Z) (y m d : Z) (local : bool) :
  y < 1000 -> raised (fromDate TZ_LOCAL y m d local) = Some ValueError.
Proof.
  intros Hy. unfold fromDate, DateTime_new.
  pose proof (strftime_date_short_length y m d Hy) as L.
  assert (N : (String.length (strftime_date y m d) =? 10)%nat = false)
    by (apply Nat.eqb_neq; lia).
  rewrite N. unfold strftime_date.
  destruct (strptime_short_year y (pad2 m ++ "-"%char :: pad2 d) Hy) as (msg & E).
  rewrite E. reflexivity.
Qed.

End DateTimeFacts.

(** ** Strings *)

Module StringFacts.

Import PyString.
Local Open Scope string_scope.

Lemma append_assoc (a b c : string) : (a ++ b) ++ c = a ++ b ++ c.
Proof. induction a as [|x a IH]; cbn; [reflexivity|now rewrite IH]. Qed.

Lemma append_nil_r (a : string) : a ++ "" = a.
Proof. induction a as [|x a IH]; cbn; [reflexivity|now rewrite IH]. Qed.

Lemma startswith_spec (p s : string) :
  startswith p s = true <-> exists rest, s = p ++ rest.
Proof.
  revert s. induction p as [|a p IH]; intros s; cbn.
  - split; [intros _; now exists s|reflexivity].
  - destruct s as [|b s].
    + split; [discriminate|intros [rest H]; discriminate].
    + rewrite andb_true_iff, Ascii.eqb_eq, IH. split.
      * intros [-> [rest ->]]. now exists rest.
      * intros [rest H]. injection H as -> ->. split; [reflexivity|now exists rest].
Qed.

Lemma find_from_spec (sub s : string) (i : Z) :
  (0 <= i)%Z ->
  ((find_from i sub s < 0)%Z <-> ~ exists before after, s = before ++ sub ++ after).
Proof.
  revert i. induction s as [|c s IH]; intros i Hi; cbn [find_from].
  - destruct (startswith sub "") eqn:E.
    + apply startswith_spec in E. destruct E as [rest E].
      split; [lia|]. intros N. exfalso. apply N. exists "", rest. exact E.
    + split; [|lia]. intros _ (before & after & H).
      destruct before; [|discriminate].
      cbn in H. assert (T : startswith sub "" = true)
        by (apply startswith_spec; now exists after).
      congruence.
  - destruct (startswith sub (String c s)) eqn:E.
    + apply startswith_spec in E. destruct E as [rest E].
      split; [lia|]. intros N. exfalso. apply N. exists "", rest. exact E.
    + rewrite (IH (i + 1)%Z) by lia. split.
      * intros N (before & after & H). destruct before as [|b before].
        -- cbn in H. assert (T : startswith sub (String c s) = true)
             by (apply startswith_spec; now exists after).
           congruence.
        -- cbn in H. injection H as _ H. apply N. now exists before, after.
      * intros N (before & after & H). apply N.
        exists (String c before), after. cbn. now rewrite H.
Qed.

Lemma find_from_occurs (sub s : string) (i : Z) :
  (0 <= i)%Z -> (0 <= find_from i sub s)%Z ->
  exists before after, s = before ++ sub ++ after.
Proof.
  revert i. induction s as [|c s IH]; intros i Hi; cbn [find_from].
  - destruct (startswith sub "") eqn:E; [|lia].
    apply startswith_spec in E. destruct E as [rest E].
    intros _. now exists "", rest.
  - destruct (startswith sub (String c s)) eqn:E.
    + apply startswith_spec in E. destruct E as [rest E].
      intros _. now exists "", rest.
    + intros H. destruct (IH (i + 1)%Z ltac:(lia) H) as (before & after & ->).
      now exists (String c before), after.
Qed.

Lemma find_occurs (s sub : string) :
  (0 <= find s sub)%Z -> exists before after, s = before ++ sub ++ after.
Proof. apply find_from_occurs. lia. Qed.

Lemma find_spec (s sub : string) :
  (find s sub < 0)%Z <-> ~ exists before after, s = before ++ sub ++ after.
Proof. apply find_from_spec. lia. Qed.

Lemma endswith_char_spec (c : ascii) (s : string) :
  endswith_char c s = true <-> exists body, s = body ++ String c "".
Proof.
  induction s as [|a s IH].
  - cbn. split; [discriminate|]. intros [[|x body] H]; discriminate.
  - cbn [endswith_char]. destruct s as [|b s].
    + rewrite Ascii.eqb_eq. split.
      * intros ->. now exists "".
      * intros [[|x body] H]; cbn in H.
        -- now injection H.
        -- injection H as _ H. destruct body; discriminate.
    + rewrite IH. split.
      * intros [body H]. exists (String a body). cbn. now rewrite H.
      * intros [[|x body] H]; cbn in H; [discriminate|].
        injection H as _ H. now exists body.
Qed.

Lemma slice_0_m1_app (body : string) (c : ascii) :
  slice_0_m1 (body ++ String c "") = body.
Proof.
  induction body as [|a body IH]; [reflexivity|].
  cbn [append slice_0_m1]. rewrite IH.
  destruct body; reflexivity.
Qed.

End StringFacts.

(** ** The client: requests and responses *)

Module ClientFacts.

Import PyString PyObj ServiceNowClient.
Local Open Scope string_scope.
Local Open Scope Z_scope.

Section WithRuntime.

Variable requests_request : Request -> Response.
Variable str_ : pyobj -> string.
Variable json_dumps : pyobj -> result string.

(** A request always returns the response of the network, records the
    request and the response on the connection, and leaves the tables and
    queries alone. *)
Lemma ServiceNow_request_spec (method url : string) (sys_id : option string)
    (params : option dict) (data : option string) (w : World) :
  exists s',
    ServiceNow_request requests_request method url sys_id params data w =
      (Ok (response_to requests_request w method url sys_id params data),
       mkWorld s' (tables w) (queries w)) /\
    lastResponse s' = Some (response_to requests_request w method url sys_id params data) /\
    lastRequest s' =
      Some (mkLastRequest (upper method) (request_url url sys_id) params).
Proof.
  unfold ServiceNow_request, response_to, request_url, ServiceNow_setSession,
    mbind, get_session, put_session, ret.
  cbn [session tables queries auth cookies baseurl username jsessionid
       lastRequest lastResponse].
  set (resp := requests_request _).
  destruct (cookie_JSESSIONID resp) as [c|].
  - destruct (negb (String.eqb c "")); cbn; eexists; repeat split.
  - cbn. eexists. repeat split.
Qed.

Lemma Table_request_spec (self : nat) (t : Table) (method : string)
    (sys_id : option string) (params : option dict) (data : option string)
    (w : World) :
  nth_error (tables w) self = Some t ->
  exists s',
    Table_request requests_request self method sys_id params data w =
      (Ok (response_to requests_request w method (tableurl t) sys_id params data),
       mkWorld s' (tables w) (queries w)) /\
    lastResponse s' = Some (response_to requests_request w method (tableurl t) sys_id params data) /\
    lastRequest s' =
      Some (mkLastRequest (upper method) (request_url (tableurl t) sys_id) params).
Proof.
  intros Ht. unfold Table_request, mbind, get_table. rewrite Ht.
  apply ServiceNow_request_spec.
Qed.

Lemma set_table_response_spec (self : nat) (t : Table) (r : Response)
    (s : ServiceNow) (ts : list Table) (qs : list Query) :
  nth_error ts self = Some t ->
  set_table_response self r (mkWorld s ts qs) =
    (Ok tt, mkWorld s (update_nth self (mkTable (t_name t) (tableurl t) (Some r)) ts) qs).
Proof.
  intros Ht. unfold set_table_response, mbind, get_table, put_table.
  cbn [tables session queries]. rewrite Ht. reflexivity.
Qed.

(** What [Table.get] returns, by the status of the response. *)
Lemma Table_get_outcome (self : nat) (t : Table) (sys_id : option string)
    (refLinks : bool) (w : World) :
  nth_error (tables w) self = Some t ->
  let parms : dict :=
    [(PyStr "sysparm_exclude_reference_link",
      PyStr (if refLinks then "false" else "true"))] in
  let response :=
    response_to requests_request w "GET" (tableurl t) sys_id (Some parms) None in
  fst (Table_get requests_request str_ self sys_id refLinks w) =
    if status_code response =? 401 then
      body <- json response ;;
      Raise ServiceNowError ("Unauthorized" ++ newline ++ str_ body)
    else if status_code response =? 404 then Ok PyNone
    else body <- json response ;; getitem body "result".
Proof.
  intros Ht parms response.
  unfold Table_get.
  replace (if refLinks
           then dict_set [] (PyStr "sysparm_exclude_reference_link") (PyStr "false")
           else dict_set [] (PyStr "sysparm_exclude_reference_link") (PyStr "true"))
    with parms by (destruct refLinks; reflexivity).
  destruct (Table_request_spec self t "GET" sys_id (Some parms) None w Ht)
    as (s' & E & _).
  fold response in E.
  unfold mbind at 1. cbv beta. rewrite E.
  unfold mbind at 1. cbv beta.
  rewrite (set_table_response_spec self t response _ _ _ Ht).
  destruct (status_code response =? 401).
  - unfold mbind, lift, raise. destruct (json response); reflexivity.
  - destruct (status_code response =? 404); [reflexivity|].
    unfold mbind, lift. destruct (json response); reflexivity.
Qed.

Lemma nth_error_update_nth {A : Type} (l : list A) (i : nat) (x y : A) :
  nth_error l i = Some y -> nth_error (update_nth i x l) i = Some x.
Proof.
  revert i. induction l as [|a l IH]; intros [|i] H; cbn in *;
    try discriminate; auto.
Qed.

(** What [Query.run] returns and which request it issues. *)
Lemma Query_run_spec (self : nat) (q : Query) (t : Table) (w : World) :
  nth_error (queries w) self = Some q ->
  nth_error (tables w) (q_table q) = Some t ->
  let response :=
    response_to requests_request w "GET" (tableurl t) None
      (Some (run_params q)) None in
  exists w',
    Query_run requests_request self w =
      ((if negb (status_code response =? 200) then Ok (PyList [])
        else body <- json response ;; getitem body "result"), w') /\
    issued_params w' = Some (run_params q).
Proof.
  intros Hq Ht response.
  destruct (Table_request_spec (q_table q) t "GET" None (Some (run_params q))
              None w Ht) as (s' & E & _ & LR).
  fold response in E.
  unfold Query_run, mbind, get_query, put_query. rewrite Hq, E.
  cbn [session tables queries].
  eexists. split.
  - destruct (negb (status_code response =? 200)); [reflexivity|].
    unfold lift. destruct (json response) as [body|c msg]; reflexivity.
  - unfold issued_params. cbn [session]. rewrite LR. reflexivity.
Qed.

Lemma Query_run_outcome (self : nat) (q : Query) (t : Table) (w : World) :
  nth_error (queries w) self = Some q ->
  nth_error (tables w) (q_table q) = Some t ->
  let response :=
    response_to requests_request w "GET" (tableurl t) None
      (Some (run_params q)) None in
  fst (Query_run requests_request self w) =
    (if negb (status_code response =? 200) then Ok (PyList [])
     else body <- json response ;; getitem body "result") /\
  issued_params (snd (Query_run requests_request self w)) = Some (run_params q).
Proof.
  intros Hq Ht response.
  destruct (Query_run_spec self q t w Hq Ht) as (w' & E & P).
  fold response in E. rewrite E. split; [reflexivity|exact P].
Qed.

Lemma Table_insert_outcome (self : nat) (t : Table) (record fields : pyobj)
    (data sysparm_fields : string) (w : World) :
  nth_error (tables w) self = Some t ->
  json_dumps record = Ok data ->
  insert_fields fields = Ok sysparm_fields ->
  let params : dict := [(PyStr "sysparm_fields", PyStr sysparm_fields)] in
  let response :=
    response_to requests_request w "POST" (tableurl t) None (Some params)
      (Some data) in
  fst (Table_insert requests_request str_ json_dumps self record fields w) =
    if negb ((200 <=? status_code response) && (status_code response <=? 299))
    then
      body <- json response ;;
      Raise ServiceNowError
        ("Status: " ++ str_ (PyInt (status_code response)) ++ newline ++
         "Headers: " ++ str_ (headers response) ++ newline ++ str_ body)
    else
      body <- json response ;;
      result <- getitem body "result" ;;
      if truthy fields then Ok result else getitem result "sys_id".
Proof.
  intros Ht Hd Hf params response.
  destruct (Table_request_spec self t "POST" None (Some params) (Some data) w Ht)
    as (s' & E & _).
  fold response in E.
  unfold insert_fields in Hf.
  unfold Table_insert, mbind, lift, ret, raise. rewrite Hd.
  destruct (truthy fields) eqn:Tf; [rewrite Hf|injection Hf as Hf; rewrite Hf];
    change (dict_set [] (PyStr "sysparm_fields") (PyStr sysparm_fields))
      with params;
    rewrite E, (set_table_response_spec self t response _ _ _ Ht);
    destruct (negb _);
    destruct (json response) as [body|]; try reflexivity;
    cbn [bind]; destruct (getitem body "result") as [result|]; try reflexivity;
    cbn [bind]; destruct (getitem result "sys_id"); reflexivity.
Qed.

(** The setters change one attribute of the query and hand back the
    query they were called on. *)
Lemma Query_setQuery_spec (self : nat) (q : Query) (query : pyobj) (w : World) :
  nth_error (queries w) self = Some q ->
  Query_setQuery self query w =
    (Ok self,
     mkWorld (session w) (tables w)
       (update_nth self
          (mkQuery (q_table q) query (q_fields q) (q_limit q)
             (exclude_ref_links q) (q_response q)) (queries w))).
Proof.
  intros Hq. unfold Query_setQuery, mbind, get_query, put_query, ret.
  rewrite Hq. reflexivity.
Qed.

Lemma Query_setFields_spec (self : nat) (q : Query) (fields value : pyobj)
    (w : World) :
  nth_error (queries w) self = Some q ->
  (if truthy fields then s <- fields_string fields ;; Ok (PyStr s)
   else Ok PyNone) = Ok value ->
  Query_setFields self fields w =
    (Ok self,
     mkWorld (session w) (tables w)
       (update_nth self
          (mkQuery (q_table q) (q_query q) value (q_limit q)
             (exclude_ref_links q) (q_response q)) (queries w))).
Proof.
  intros Hq Hv. unfold Query_setFields, mbind, get_query, put_query, ret, lift.
  rewrite Hq. destruct (truthy fields).
  - destruct (fields_string fields); [|discriminate Hv].
    injection Hv as <-. reflexivity.
  - injection Hv as <-. reflexivity.
Qed.

Lemma Query_setLimit_spec (self : nat) (q : Query) (limit : pyobj) (w : World) :
  nth_error (queries w) self = Some q ->
  Query_setLimit str_ self limit w =
    (Ok self,
     mkWorld (session w) (tables w)
       (update_nth self
          (mkQuery (q_table q) (q_query q) (q_fields q)
             (if truthy limit then PyStr (str_ limit) else PyNone)
             (exclude_ref_links q) (q_response q)) (queries w))).
Proof.
  intros Hq. unfold Query_setLimit, mbind, get_query, put_query, ret.
  rewrite Hq. reflexivity.
Qed.

Lemma Query_setRefLinks_spec (self : nat) (q : Query) (refLinks : pyobj)
    (w : World) :
  nth_error (queries w) self = Some q ->
  Query_setRefLinks self refLinks w =
    (Ok self,
     mkWorld (session w) (tables w)
       (update_nth self
          (mkQuery (q_table q) (q_query q) (q_fields q) (q_limit q)
             (if truthy refLinks then PyStr "false" else PyStr "true")
             (q_response q)) (queries w))).
Proof.
  intros Hq. unfold Query_setRefLinks, mbind, get_query, put_query, ret.
  rewrite Hq. reflexivity.
Qed.

(** Which parameters [run] sends. *)
Lemma run_params_limit (q : Query) :
  dict_get (run_params q) (PyStr "sysparm_limit") =
  if truthy (q_limit q) then Some (q_limit q) else None.
Proof.
  unfold run_params.
  destruct (truthy (q_limit q)), (truthy (q_fields q)), (truthy (q_query q)),
    (truthy (exclude_ref_links q)); reflexivity.
Qed.

Lemma run_params_fields (q : Query) :
  dict_get (run_params q) (PyStr "sysparm_fields") =
  if truthy (q_fields q) then Some (q_fields q) else None.
Proof.
  unfold run_params.
  destruct (truthy (q_limit q)), (truthy (q_fields q)), (truthy (q_query q)),
    (truthy (exclude_ref_links q)); reflexivity.
Qed.

Lemma run_params_query (q : Query) :
  dict_get (run_params q) (PyStr "sysparm_query") =
  if truthy (q_query q) then Some (q_query q) else None.
Proof.
  unfold run_params.
  destruct (truthy (q_limit q)), (truthy (q_fields q)), (truthy (q_query q)),
    (truthy (exclude_ref_links q)); reflexivity.
Qed.

Lemma run_params_exclude (q : Query) :
  dict_get (run_params q) (PyStr "sysparm_exclude_reference_link") =
  if truthy (exclude_ref_links q) then Some (exclude_ref_links q) else None.
Proof.
  unfold run_params.
  destruct (truthy (q_limit q)), (truthy (q_fields q)), (truthy (q_query q)),
    (truthy (exclude_ref_links q)); reflexivity.
Qed.

(** The parameters of the request that [run] issues for the query [q']
    that a setter left at [self]. *)
Lemma run_after_setter (self : nat) (q q' : Query) (t : Table) (w : World) :
  nth_error (queries w) self = Some q ->
  nth_error (tables w) (q_table q') = Some t ->
  issued_params
    (snd (Query_run requests_request self
            (mkWorld (session w) (tables w) (update_nth self q' (queries w)))))
  = Some (run_params q').
Proof.
  intros Hq Ht.
  apply (Query_run_outcome self q' t); cbn [queries tables].
  - exact (nth_error_update_nth _ _ _ _ Hq).
  - exact Ht.
Qed.

End WithRuntime.

End ClientFacts.

(** ** Claims *)

Module Claims.

Import Calendar CalendarFacts PyString PyDatetime DatetimeFacts PyTimeFormat
  FormatFacts PyObj ServiceNowTime OverlapFacts DateTimeFacts
  StringFacts ServiceNowClient ClientFacts UrlSpec Samples.
Local Open Scope string_scope.
Local Open Scope Z_scope.

(** C2. For two ranges A = (s1, e1) and B = (s2, e2), [overlapSeconds] is
    [max(0, min(e1, e2) - max(s1, s2))] in seconds; it is 0, never negative,
    when the ranges are disjoint or only touch at an endpoint; and it is
    symmetric in A and B.  The four datetimes are valid and can be compared
    with each other (all aware, as every [DateTime] is, or all naive). *)
Theorem overlapSeconds_formula (s1 e1 s2 e2 : datetime) :
  valid_datetime s1 = true -> valid_datetime e1 = true ->
  valid_datetime s2 = true -> valid_datetime e2 = true ->
  comparable [s1; e1; s2; e2] = true ->
  let A : DateTimeRange := (s1, e1) in
  let B : DateTimeRange := (s2, e2) in
  overlapSeconds A B =
    Ok (Z.max 0 (Z.min (instant e1) (instant e2)
                 - Z.max (instant s1) (instant s2))) /\
  (instant e1 <= instant s2 \/ instant e2 <= instant s1 ->
   overlapSeconds A B = Ok 0) /\
  (exists n, overlapSeconds A B = Ok n /\ 0 <= n) /\
  overlapSeconds A B = overlapSeconds B A.
Proof.
  intros V1 V2 V3 V4 C A B. subst A B.
  assert (C' : comparable [s2; e2; s1; e1] = true).
  { revert C. unfold comparable. cbn [forallb].
    destruct (is_naive s1), (is_naive e1), (is_naive s2), (is_naive e2);
      cbn; auto. }
  rewrite (overlapSeconds_instant s1 e1 s2 e2) by assumption.
  rewrite (overlapSeconds_instant s2 e2 s1 e1) by assumption.
  repeat split.
  - intros H. f_equal. lia.
  - eexists. split; [reflexivity|]. lia.
  - f_equal. lia.
Qed.

Lemma overlapSeconds_formula_witness :
  overlapSeconds (as_datetime d_2015_01_01, as_datetime d_2015_01_01_end)
                 (as_datetime d_2015_01_01_noon, as_datetime d_2015_01_02_noon)
  = Ok 43199.
Proof.
  destruct (overlapSeconds_formula
              (as_datetime d_2015_01_01) (as_datetime d_2015_01_01_end)
              (as_datetime d_2015_01_01_noon) (as_datetime d_2015_01_02_noon)
              eq_refl eq_refl eq_refl eq_refl eq_refl) as [H _].
  exact H.
Defined.

(** C3, on the code.  A text [s] in the exact layout [YYYY-MM-DD HH:MM:SS]
    that denotes a valid calendar date and time of day is accepted by
    [DateTime(s)] (with [local=False]), and [asUTC] of the result is [s]
    again when the year is 1000 or later.  For an earlier year it is not:
    [strftime] writes the year without its leading zeros, so [asUTC]
    returns a shorter text (['0015-01-01 00:00:00'] comes back as
    ['15-01-01 00:00:00']). *)
Theorem DateTime_asUTC_roundtrip_by_year (TZ_LOCAL : datetime -> Z) (s : string)
    (denoted : datetime) :
  read_exact s = Some denoted -> valid_datetime denoted = true ->
  exists d, DateTime_new TZ_LOCAL (PyStr s) false = Ok d /\
            (1000 <= year denoted -> asUTC d = Ok s) /\
            (year denoted < 1000 ->
             exists t, asUTC d = Ok t /\ t <> s /\
                       (String.length t < String.length s)%nat).
Proof.
  intros E V.
  destruct (read_exact_write_exact s denoted E) as [Es Tz].
  unfold DateTime_new.
  assert (L : (String.length s =? 10)%nat = false)
    by (rewrite <- Es, write_exact_length; reflexivity).
  rewrite L, <- Es, (strptime_write_exact denoted V).
  cbn [bind year month day hour minute second replace_tzinfo].
  rewrite datetime_new_valid by exact V.
  cbn [bind year month day hour minute second].
  eexists. split; [reflexivity|]. split.
  - intros Hy. unfold asUTC. cbn [astimezone_UTC bind]. f_equal.
    rewrite strftime_write_exact by exact Hy. reflexivity.
  - intros Hy. eexists. split; [reflexivity|].
    assert (Lt : (String.length
                    (strftime
                       (as_datetime
                          (mkDateTime (year denoted) (month denoted) (day denoted)
                             (hour denoted) (minute denoted) (second denoted))))
                  < String.length (write_exact denoted))%nat).
    { rewrite write_exact_length. apply strftime_short_length. exact Hy. }
    split; [|exact Lt].
    intros Q. rewrite Q in Lt. lia.
Qed.

Lemma DateTime_asUTC_roundtrip_by_year_witness :
  exists d, DateTime_new eastern (PyStr "0015-01-01 00:00:00") false = Ok d /\
            asUTC d = Ok "15-01-01 00:00:00" /\
            asUTC d <> Ok "0015-01-01 00:00:00".
Proof.
  destruct (DateTime_asUTC_roundtrip_by_year eastern "0015-01-01 00:00:00"
              (mkdatetime 15 1 1 0 0 0 None) eq_refl eq_refl)
    as (d & E & _ & S).
  exists d. split; [exact E|].
  destruct S as (t & U & N & _); [reflexivity|].
  split.
  - rewrite U. vm_compute in E. injection E as <-.
    vm_compute in U. injection U as <-. reflexivity.
  - rewrite U. intros Q. injection Q as Q. exact (N Q).
Defined.

(** C4, on the code.  [DateTimeRange.fromDate(D, local)] returns no range,
    for any date [D] and either value of [local]: the sum
    [t0 + almost24hours] is an addition on a [DateTime], whose result the
    [datetime] base class builds by calling [DateTime] with the eight fields
    of the sum, which [DateTime.__new__(cls, arg, local)] refuses with
    [TypeError].  That is the outcome for every date from the year 1000 on
    with [local=False]; for an earlier year the text [strftime] gives for
    the date is not one the constructor reads, and the call stops there
    with [ValueError]. *)
Theorem fromDate_raises (TZ_LOCAL : datetime -> Z) (y m d : Z) (local : bool) :
  check_date_fields y m d = true ->
  (forall r, fromDate TZ_LOCAL y m d local <> Ok r) /\
  (1000 <= y -> raised (fromDate TZ_LOCAL y m d false) = Some TypeError) /\
  (y < 1000 -> raised (fromDate TZ_LOCAL y m d local) = Some ValueError).
Proof.
  intros Vd. split; [|split].
  - intros r. apply fromDate_no_range.
  - intros Hy. apply fromDate_UTC_TypeError; assumption.
  - intros Hy. apply fromDate_short_year. exact Hy.
Qed.

Lemma fromDate_raises_witness :
  (forall r, fromDate eastern 2015 9 15 true <> Ok r) /\
  raised (fromDate eastern 2015 9 15 false) = Some TypeError.
Proof.
  destruct (fromDate_raises eastern 2015 9 15 true eq_refl) as (N & T & _).
  split; [exact N|]. apply T. lia.
Defined.

(** C6. [Table.get(sys_id)]: a 404 response gives [None] and no error; a
    401 response raises [ServiceNowError] with the decoded body of the
    response in its message; any other response gives the value under
    ['result'] of the decoded body. *)
Theorem Table_get_by_status (requests_request : Request -> Response)
    (str_ : pyobj -> string) (w : World) (self : nat) (t : Table)
    (sys_id : option string) (refLinks : bool) :
  nth_error (tables w) self = Some t ->
  let parms : dict :=
    [(PyStr "sysparm_exclude_reference_link",
      PyStr (if refLinks then "false" else "true"))] in
  let response :=
    response_to requests_request w "GET" (tableurl t) sys_id (Some parms) None in
  let outcome := fst (Table_get requests_request str_ self sys_id refLinks w) in
  (status_code response = 404 -> outcome = Ok PyNone) /\
  (status_code response = 401 -> forall body,
     body_json response = Some body ->
     outcome = Raise ServiceNowError
                 ("Unauthorized" ++ newline ++ str_ body)%string) /\
  (status_code response <> 404 -> status_code response <> 401 ->
   forall body record,
     body_json response = Some (PyDict body) ->
     dict_get body (PyStr "result") = Some record ->
     outcome = Ok record).
Proof.
  intros Ht parms response outcome.
  assert (O : outcome =
              if status_code response =? 401 then
                body <- json response ;;
                Raise ServiceNowError ("Unauthorized" ++ newline ++ str_ body)%string
              else if status_code response =? 404 then Ok PyNone
              else body <- json response ;; getitem body "result")
    by exact (Table_get_outcome requests_request str_ self t sys_id refLinks w Ht).
  clearbody outcome response.
  repeat split.
  - intros S. rewrite O, S. reflexivity.
  - intros S body B. rewrite O, S. cbn [Z.eqb Pos.eqb].
    unfold json. rewrite B. reflexivity.
  - intros N4 N1 body record B L. rewrite O.
    apply Z.eqb_neq in N4, N1. rewrite N4, N1.
    unfold json. rewrite B. cbn [bind getitem]. rewrite L. reflexivity.
Qed.

(** C7. [Query.run()] returns an empty list, without raising, on every
    status other than 200, and the decoded list of records on 200;
    [update] and [delete] issue their request (a PUT with the serialised
    values, a DELETE, to the URL of the record; the response of the network
    is recorded on the connection) and return [None] whatever the status of
    that response is; [insert] raises [ServiceNowError] on every status
    outside 200..299. *)
Theorem status_policy (requests_request : Request -> Response)
    (str_ : pyobj -> string) (json_dumps : pyobj -> result string)
    (w : World) (self : nat) (t : Table) :
  nth_error (tables w) self = Some t ->
  (forall qref q,
     nth_error (queries w) qref = Some q -> q_table q = self ->
     let response :=
       response_to requests_request w "GET" (tableurl t) None
         (Some (run_params q)) None in
     let outcome := fst (Query_run requests_request qref w) in
     (status_code response <> 200 -> outcome = Ok (PyList [])) /\
     (status_code response = 200 -> forall body records,
        body_json response = Some (PyDict body) ->
        dict_get body (PyStr "result") = Some records ->
        outcome = Ok records)) /\
  (forall sys_id fieldvalues data,
     json_dumps fieldvalues = Ok data ->
     let response :=
       requests_request
         (mkRequest "PUT" (request_url (tableurl t) sys_id) ACCEPT_JSON None
            (Some data) (auth (session w)) (cookies (session w))) in
     let after :=
       Table_update requests_request json_dumps self sys_id fieldvalues w in
     fst after = Ok PyNone /\
     lastRequest (session (snd after)) =
       Some (mkLastRequest "PUT" (request_url (tableurl t) sys_id) None) /\
     lastResponse (session (snd after)) = Some response) /\
  (forall sys_id,
     let response :=
       requests_request
         (mkRequest "DELETE" (request_url (tableurl t) sys_id) ACCEPT_JSON None
            None (auth (session w)) (cookies (session w))) in
     let after := Table_delete requests_request self sys_id w in
     fst after = Ok PyNone /\
     lastRequest (session (snd after)) =
       Some (mkLastRequest "DELETE" (request_url (tableurl t) sys_id) None) /\
     lastResponse (session (snd after)) = Some response) /\
  (forall record fields data sysparm_fields,
     json_dumps record = Ok data ->
     insert_fields fields = Ok sysparm_fields ->
     let response :=
       response_to requests_request w "POST" (tableurl t) None
         (Some [(PyStr "sysparm_fields", PyStr sysparm_fields)]) (Some data) in
     ~ (200 <= status_code response <= 299) ->
     forall body, body_json response = Some body ->
     raised (fst (Table_insert requests_request str_ json_dumps self record
                    fields w)) = Some ServiceNowError).
Proof.
  intros Ht. split; [|split; [|split]].
  - intros qref q Hq Hself response outcome.
    assert (O : outcome =
                if negb (status_code response =? 200) then Ok (PyList [])
                else body <- json response ;; getitem body "result").
    { refine (proj1 (Query_run_outcome requests_request qref q t w Hq _)).
      rewrite Hself. exact Ht. }
    clearbody outcome response. subst outcome. split.
    + intros S. apply Z.eqb_neq in S. rewrite S. reflexivity.
    + intros S body records B L. rewrite S. cbn [Z.eqb Pos.eqb negb].
      unfold json. rewrite B. cbn [bind getitem]. rewrite L. reflexivity.
  - intros sys_id fieldvalues data D response after. subst response after.
    destruct (Table_request_spec requests_request self t "PUT" sys_id None
                (Some data) w Ht) as (s' & E & LR & LQ).
    unfold Table_update, mbind, lift, ret. rewrite D, E.
    cbn [fst snd session]. rewrite LR, LQ.
    split; [reflexivity|]. split; reflexivity.
  - intros sys_id response after. subst response after.
    destruct (Table_request_spec requests_request self t "DELETE" sys_id None
                None w Ht) as (s' & E & LR & LQ).
    unfold Table_delete, mbind, ret. rewrite E.
    cbn [fst snd session]. rewrite LR, LQ.
    split; [reflexivity|]. split; reflexivity.
  - intros record fields data sysparm_fields D F response N body B.
    assert (O : fst (Table_insert requests_request str_ json_dumps self record
                       fields w) =
                if negb ((200 <=? status_code response)
                         && (status_code response <=? 299))
                then
                  body <- json response ;;
                  Raise ServiceNowError
                    ("Status: " ++ str_ (PyInt (status_code response)) ++ newline ++
                     "Headers: " ++ str_ (headers response) ++ newline ++
                     str_ body)%string
                else
                  body <- json response ;;
                  result <- getitem body "result" ;;
                  if truthy fields then Ok result else getitem result "sys_id")
      by exact (Table_insert_outcome requests_request str_ json_dumps self t
                  record fields data sysparm_fields w Ht D F).
    clearbody response. rewrite O.
    replace (negb ((200 <=? status_code response) && (status_code response <=? 299)))
      with true.
    + unfold json. rewrite B. reflexivity.
    + symmetry. apply negb_true_iff, andb_false_iff.
      rewrite Z.leb_gt, Z.leb_gt. lia.
Qed.

(** C8. The base URL of a connection: ["https://"] is prepended when the
    instance does not start with it, [".service-now.com"] is appended
    exactly when the instance contains no dot, and one trailing slash is
    stripped; ["myinstance"] gives ["https://myinstance.service-now.com"]
    and ["foo.example.com"] gives ["https://foo.example.com"]. *)
Theorem baseurl_normalized (instance username password : string) :
  normalized instance (baseurl (ServiceNow_init instance username password)) /\
  baseurl (ServiceNow_init "myinstance" username password)
    = "https://myinstance.service-now.com"%string /\
  baseurl (ServiceNow_init "foo.example.com" username password)
    = "https://foo.example.com"%string.
Proof.
  split; [|split; reflexivity].
  unfold ServiceNow_init, normalized. cbn [baseurl].
  set (with_scheme := if startswith "https://" instance then instance
                      else ("https://" ++ instance)%string).
  set (with_suffix := if (find instance "." <? 0)%Z
                      then (with_scheme ++ ".service-now.com")%string
                      else with_scheme).
  exists with_scheme, with_suffix. split; [|split].
  - subst with_scheme. unfold has_scheme.
    destruct (startswith "https://" instance) eqn:E.
    + left. split; [|reflexivity]. now apply startswith_spec.
    + right. split; [|reflexivity]. intros H.
      apply startswith_spec in H. congruence.
  - subst with_suffix. unfold contains_dot.
    destruct (find instance "." <? 0)%Z eqn:E.
    + right. split; [|reflexivity]. apply Z.ltb_lt in E.
      now apply find_spec in E.
    + left. split; [|reflexivity]. apply Z.ltb_ge in E.
      now apply find_occurs.
  - unfold one_slash_stripped.
    destruct (endswith_char "/" with_suffix) eqn:E.
    + left. apply endswith_char_spec in E. destruct E as [body E].
      exists body. split; [exact E|]. rewrite E. apply slice_0_m1_app.
    + right. split; [|reflexivity]. intros body H.
      assert (T : endswith_char "/" with_suffix = true)
        by (apply endswith_char_spec; now exists body).
      congruence.
Qed.

(** C5, as the code has it.  Each setter returns the query it was called on
    ([setFields] for [None], a string or a sequence of strings).  After
    [setQuery(None)], [setFields(None)] or [setLimit(None)] the request of
    [run()] carries no [sysparm_query], [sysparm_fields] or [sysparm_limit].
    After [setRefLinks(None)], or [setRefLinks(False)], the request does
    carry [sysparm_exclude_reference_link], with the value ['true']. *)
Theorem setters_return_self_and_omit (requests_request : Request -> Response)
    (str_ : pyobj -> string) (w : World) (self : nat) (q : Query) (t : Table) :
  nth_error (queries w) self = Some q ->
  nth_error (tables w) (q_table q) = Some t ->
  let sent := fun (r : result nat * World) (key : string) =>
    match issued_params (snd (Query_run requests_request self (snd r))) with
    | Some params => dict_get params (PyStr key)
    | None => None
    end in
  (forall v, fst (Query_setQuery self v w) = Ok self) /\
  (forall v value,
     (if truthy v then s <- fields_string v ;; Ok (PyStr s) else Ok PyNone)
       = Ok value ->
     fst (Query_setFields self v w) = Ok self) /\
  (forall v, fst (Query_setLimit str_ self v w) = Ok self) /\
  (forall v, fst (Query_setRefLinks self v w) = Ok self) /\
  sent (Query_setQuery self PyNone w) "sysparm_query" = None /\
  sent (Query_setFields self PyNone w) "sysparm_fields" = None /\
  sent (Query_setLimit str_ self PyNone w) "sysparm_limit" = None /\
  sent (Query_setRefLinks self PyNone w) "sysparm_exclude_reference_link"
    = Some (PyStr "true") /\
  sent (Query_setRefLinks self (PyBool false) w) "sysparm_exclude_reference_link"
    = Some (PyStr "true").
Proof.
  intros Hq Ht sent. subst sent. cbv beta.
  repeat apply conj.
  - intros v. now rewrite (Query_setQuery_spec self q v w Hq).
  - intros v value Hv. now rewrite (Query_setFields_spec self q v value w Hq Hv).
  - intros v. now rewrite (Query_setLimit_spec str_ self q v w Hq).
  - intros v. now rewrite (Query_setRefLinks_spec self q v w Hq).
  - rewrite (Query_setQuery_spec self q PyNone w Hq). cbn [snd].
    match goal with
    | |- context [update_nth self ?q' (queries w)] =>
        rewrite (run_after_setter requests_request self q q' t w Hq Ht)
    end.
    now rewrite run_params_query.
  - rewrite (Query_setFields_spec self q PyNone PyNone w Hq eq_refl). cbn [snd].
    match goal with
    | |- context [update_nth self ?q' (queries w)] =>
        rewrite (run_after_setter requests_request self q q' t w Hq Ht)
    end.
    now rewrite run_params_fields.
  - rewrite (Query_setLimit_spec str_ self q PyNone w Hq). cbn [snd].
    match goal with
    | |- context [update_nth self ?q' (queries w)] =>
        rewrite (run_after_setter requests_request self q q' t w Hq Ht)
    end.
    now rewrite run_params_limit.
  - rewrite (Query_setRefLinks_spec self q PyNone w Hq). cbn [snd].
    match goal with
    | |- context [update_nth self ?q' (queries w)] =>
        rewrite (run_after_setter requests_request self q q' t w Hq Ht)
    end.
    now rewrite run_params_exclude.
  - rewrite (Query_setRefLinks_spec self q (PyBool false) w Hq). cbn [snd].
    match goal with
    | |- context [update_nth self ?q' (queries w)] =>
        rewrite (run_after_setter requests_request self q q' t w Hq Ht)
    end.
    now rewrite run_params_exclude.
Qed.

Lemma setters_return_self_and_omit_witness :
  fst (Query_setLimit sample_str 0 PyNone world_with_query) = Ok 0%nat /\
  issued_params
    (snd (Query_run (server 200 empty_body) 0
            (snd (Query_setQuery 0 PyNone world_with_query))))
  = Some [(PyStr "sysparm_exclude_reference_link", PyStr "true")].
Proof.
  destruct (setters_return_self_and_omit (server 200 empty_body) sample_str
              world_with_query 0
              (mkQuery 0 PyNone PyNone PyNone (PyStr "true") None) incident
              eq_refl eq_refl) as (_ & _ & L & _).
  split; [exact (L PyNone)|reflexivity].
Defined.

(** C5 as stated fails for [setRefLinks]: after [setRefLinks(None)] the
    request of [run()] still carries [sysparm_exclude_reference_link]. *)
Lemma setRefLinks_None_not_omitted :
  ~ (forall params,
       issued_params
         (snd (Query_run (server 200 empty_body) 0
                 (snd (Query_setRefLinks 0 PyNone world_with_query))))
       = Some params ->
       dict_get params (PyStr "sysparm_exclude_reference_link") = None).
Proof.
  intros H. specialize (H _ eq_refl). discriminate H.
Qed.

Lemma Table_get_by_status_witness :
  fst (Table_get (server 404 error_body) sample_str 0 (Some "9d385017c611228701d22104cc95c371")
         false sample_world) = Ok PyNone.
Proof.
  destruct (Table_get_by_status (server 404 error_body) sample_str sample_world
              0 incident (Some "9d385017c611228701d22104cc95c371") false eq_refl)
    as (H & _).
  exact (H eq_refl).
Defined.

Lemma status_policy_witness :
  fst (Query_run (server 500 error_body) 0 world_with_query) = Ok (PyList []) /\
  (let after :=
     Table_delete (server 500 error_body) 0
       (Some "9d385017c611228701d22104cc95c371") world_with_query in
   fst after = Ok PyNone /\
   lastRequest (session (snd after)) =
     Some (mkLastRequest "DELETE"
             "https://myinstance.service-now.com/api/now/v1/table/incident/9d385017c611228701d22104cc95c371"
             None) /\
   option_map status_code (lastResponse (session (snd after))) = Some 500).
Proof.
  destruct (status_policy (server 500 error_body) sample_str sample_dumps
              world_with_query 0 incident eq_refl) as (R & _ & D & _).
  split.
  - destruct (R 0%nat (mkQuery 0 PyNone PyNone PyNone (PyStr "true") None)
                eq_refl eq_refl) as (N & _).
    apply N. discriminate.
  - destruct (D (Some "9d385017c611228701d22104cc95c371")) as (O & Q & P).
    split; [exact O|]. split; [exact Q|].
    rewrite P. reflexivity.
Defined.

(** C9, as the code has it.  An argument that is neither a string, a
    datetime nor a date makes [DateTime] raise [ValueError], and so does
    [DateTimeRange] when either element is not a datetime. *)
Theorem wrong_type_raises_ValueError (TZ_LOCAL : datetime -> Z)
    (arg dt1 dt2 : pyobj) (local : bool) :
  (str_datetime_or_date arg = false ->
   raised (DateTime_new TZ_LOCAL arg local) = Some ValueError) /\
  (isinstance_datetime dt1 = None \/ isinstance_datetime dt2 = None ->
   raised (DateTimeRange_new dt1 dt2) = Some ValueError).
Proof.
  split.
  - intros H. destruct arg; try discriminate H; reflexivity.
  - intros H. unfold DateTimeRange_new.
    destruct (isinstance_datetime dt1); [|reflexivity].
    destruct (isinstance_datetime dt2); [|reflexivity].
    destruct H; discriminate.
Qed.

Lemma wrong_type_raises_ValueError_witness :
  raised (DateTime_new eastern (PyInt 20150915) false) = Some ValueError /\
  raised (DateTimeRange_new (PyDateTime d_2015_01_01) (PyDate 2015 1 2))
  = Some ValueError.
Proof.
  destruct (wrong_type_raises_ValueError eastern (PyInt 20150915)
              (PyDateTime d_2015_01_01) (PyDate 2015 1 2) false) as [A B].
  split; [apply A; reflexivity|apply B; right; reflexivity].
Defined.

(** C9 as stated fails: the exception is not [TypeError]. *)
Lemma wrong_type_not_TypeError :
  ~ (raised (DateTime_new eastern (PyInt 20150915) false) = Some TypeError) /\
  ~ (raised (DateTimeRange_new (PyStr "2015-01-01") (PyDateTime d_2015_01_01))
     = Some TypeError).
Proof. split; discriminate. Qed.

(** C1, on the code.  A record whose ['inactive'] field is ['true'] is
    entered in the mapping when the flag [inactive] is false (the default)
    and skipped when the flag is true: the reverse of what the docstring
    says.  So for the two choices the sample server lists, the default call
    returns both and the call with [inactive=True] only the active one. *)
Theorem getChoices_inactive_flag :
  (forall value label recs choices,
     getChoices_loop false (choice value label "true" :: recs) choices =
     getChoices_loop false recs (dict_set choices (PyStr value) (PyStr label))) /\
  (forall value label recs choices,
     getChoices_loop true (choice value label "true" :: recs) choices =
     getChoices_loop true recs choices) /\
  fst (Table_getChoices (server 200 choices_body) sample_str 0 "state" false
         sample_world)
  = Ok (PyDict [(PyStr "1", PyStr "New"); (PyStr "7", PyStr "Closed")]) /\
  fst (Table_getChoices (server 200 choices_body) sample_str 0 "state" true
         sample_world)
  = Ok (PyDict [(PyStr "1", PyStr "New")]).
Proof.
  split; [|split; [|split]].
  - intros value label recs choices. reflexivity.
  - intros value label recs choices. cbn [getChoices_loop].
    unfold choice, getitem. cbn [dict_get key_eqb].
    cbn [String.eqb Ascii.eqb Bool.eqb bind eq_str].
    reflexivity.
  - reflexivity.
  - reflexivity.
Qed.

(** C10, on the code.  With no choices, the call on the connection of a
    method it does not have raises [AttributeError] before the assertion is
    reached. *)
Theorem getChoices_empty_AttributeError (w : World) :
  raised (fst (getChoices_finish [] w)) = Some AttributeError /\
  raised (fst (Table_getChoices (server 200 empty_body) sample_str 0 "state"
                 false sample_world)) = Some AttributeError /\
  raised (fst (Table_getChoices (server 404 error_body) sample_str 0 "state"
                 false sample_world)) = Some AttributeError.
Proof. repeat split; reflexivity. Qed.

End Claims.

(** ** More on datetimes *)

Module TimeMoreFacts.

Import Calendar CalendarFacts PyString PyDatetime DatetimeFacts PyTimeFormat
  FormatFacts PyObj ServiceNowTime OverlapFacts DateTimeFacts ServiceNowClock.
Local Open Scope string_scope.
Local Open Scope Z_scope.

Lemma lex_Eq (c1 c2 : comparison) : lex c1 c2 = Eq -> c1 = Eq /\ c2 = Eq.
Proof. destruct c1; cbn; intros H; try discriminate H; auto. Qed.

(** Valid datetimes with the same timestamp have the same fields. *)
Lemma timestamp_inj (a b : datetime) :
  valid_datetime a = true -> valid_datetime b = true ->
  timestamp a = timestamp b -> tzinfo a = tzinfo b -> a = b.
Proof.
  intros Va Vb T Z.
  pose proof (cmp_fields_timestamp a b Va Vb) as C.
  rewrite T, Z.compare_refl in C. unfold cmp_fields in C.
  apply lex_Eq in C. destruct C as [Cy C].
  apply lex_Eq in C. destruct C as [Cm C].
  apply lex_Eq in C. destruct C as [Cd C].
  apply lex_Eq in C. destruct C as [Ch C].
  apply lex_Eq in C. destruct C as [Ci Cs].
  apply Z.compare_eq in Cy, Cm, Cd, Ch, Ci, Cs.
  destruct a, b. cbn in *. congruence.
Qed.

Lemma valid_timestamp_range (dt : datetime) :
  valid_datetime dt = true -> 0 <= timestamp dt < MAXORDINAL * 86400.
Proof.
  intros V. apply valid_datetime_spec in V. destruct V as (Vd & ? & ? & ?).
  pose proof (ymd2ord_range _ _ _ Vd). unfold timestamp, toordinal. lia.
Qed.

(** When [dt + delta] is a datetime at all, it is the valid datetime that
    many seconds later. *)
Lemma datetime_add_ok (dt r : datetime) (delta : timedelta) :
  valid_datetime dt = true -> datetime_add dt delta = Ok r ->
  valid_datetime r = true /\
  timestamp r = timestamp dt + total_seconds delta /\
  tzinfo r = tzinfo dt.
Proof.
  intros V E.
  assert (W : 0 <= timestamp dt + total_seconds delta < MAXORDINAL * 86400 \/
              ~ (0 <= timestamp dt + total_seconds delta < MAXORDINAL * 86400))
    by lia.
  destruct W as [W|W].
  - destruct (datetime_add_spec dt delta V W) as (r' & E' & P).
    rewrite E in E'. injection E' as <-. exact P.
  - pose proof (datetime_add_overflow dt delta W) as O.
    apply valid_datetime_spec in V. destruct V as (_ & ? & ? & ?).
    rewrite E in O. specialize (O ltac:(lia)). discriminate O.
Qed.

(** Adding nothing changes nothing. *)
Lemma datetime_add_zero (dt : datetime) :
  valid_datetime dt = true ->
  datetime_add dt (timedelta_neg (timedelta_new 0 0)) = Ok dt.
Proof.
  intros V.
  pose proof (valid_timestamp_range dt V) as R.
  destruct (datetime_add_spec dt (timedelta_neg (timedelta_new 0 0)) V)
    as (r & E & Vr & Tr & Zr).
  { rewrite timedelta_neg_total, timedelta_new_total. lia. }
  rewrite E. f_equal.
  rewrite timedelta_neg_total, timedelta_new_total in Tr.
  apply timestamp_inj; auto. lia.
Qed.

Lemma valid_as_datetime_of (dt : datetime) :
  valid_DateTime (DateTime_of dt) = valid_datetime dt.
Proof. reflexivity. Qed.

Lemma DateTime_of_as_datetime (d : DateTime) : DateTime_of (as_datetime d) = d.
Proof. destruct d. reflexivity. Qed.

(** [DateTime.__new__] on a string, once the string is parsed. *)
Lemma DateTime_new_parsed (TZ_LOCAL : datetime -> Z) (s : string) (dt : datetime) :
  String.length s <> 10%nat ->
  strptime s = Ok dt -> valid_datetime dt = true ->
  DateTime_new TZ_LOCAL (PyStr s) false = Ok (DateTime_of dt).
Proof.
  intros L E V. unfold DateTime_new.
  apply Nat.eqb_neq in L. rewrite L, E. cbn [bind].
  rewrite (DateTime_fields_ok (replace_tzinfo dt (Some TZ_UTC)) V).
  reflexivity.
Qed.

(** A date-only text is read as midnight of that date. *)
Lemma DateTime_new_date_only (TZ_LOCAL : datetime -> Z) (y m d : Z) :
  check_date_fields y m d = true ->
  DateTime_new TZ_LOCAL (PyStr (write_exact_date y m d)) false =
  Ok (mkDateTime y m d 0 0 0).
Proof.
  intros Vd.
  assert (V : valid_datetime (mkdatetime y m d 0 0 0 None) = true).
  { unfold valid_datetime. cbn [year month day hour minute second].
    rewrite Vd. reflexivity. }
  unfold DateTime_new. rewrite write_exact_date_length. cbn [Nat.eqb].
  rewrite <- (write_exact_midnight y m d None), (strptime_write_exact _ V).
  cbn [bind replace_tzinfo year month day hour minute second].
  rewrite datetime_new_valid by exact V. reflexivity.
Qed.

(** What [asUTC] prints: the exact layout from the year 1000 on. *)
Lemma asUTC_write_exact (d : DateTime) :
  1000 <= dt_year d -> asUTC d = Ok (write_exact (as_datetime d)).
Proof.
  intros Hy. unfold asUTC. cbn [astimezone_UTC bind]. f_equal.
  apply strftime_write_exact. exact Hy.
Qed.

(** Before it, a text that [strptime] does not read. *)
Lemma strptime_strftime_short (dt : datetime) :
  year dt < 1000 -> exists msg, strptime (strftime dt) = Raise ValueError msg.
Proof.
  intros Hy. unfold strftime. apply strptime_short_year. exact Hy.
Qed.

(** A date object is handled as the text of that date is. *)
Lemma DateTime_new_date_object (TZ_LOCAL : datetime -> Z) (y m d : Z)
    (local : bool) :
  check_date_fields y m d = true ->
  DateTime_new TZ_LOCAL (PyDate y m d) local =
  DateTime_new TZ_LOCAL (PyStr (write_exact_date y m d)) local.
Proof.
  intros Vd.
  assert (V : valid_datetime (mkdatetime y m d 0 0 0 None) = true).
  { unfold valid_datetime. cbn [year month day hour minute second].
    rewrite Vd. reflexivity. }
  unfold DateTime_new. rewrite write_exact_date_length. cbn [Nat.eqb].
  rewrite <- (write_exact_midnight y m d None), (strptime_write_exact _ V).
  rewrite (datetime_new_valid _ _ _ _ _ _ _ V).
  cbn [bind]. destruct local; reflexivity.
Qed.


(** Conversion of a [DateTime] to a zone other than its own stops at the
    first addition. *)
Lemma DateTime_astimezone_other (localize fromutc : datetime -> Z) (d : DateTime) :
  valid_DateTime d = true ->
  raised (DateTime_astimezone d (zone_other localize fromutc)) = Some TypeError.
Proof.
  intros V. unfold DateTime_astimezone, DateTime_add.
  rewrite (datetime_add_zero (as_datetime d) V). reflexivity.
Qed.

(** With the zone object [TZ_UTC] as the local zone, [localize] changes
    nothing. *)
Lemma local_to_UTC_zero (dt : datetime) :
  valid_datetime dt = true ->
  local_to_UTC (localize_offset zone_TZ_UTC) dt =
  Ok (replace_tzinfo dt (Some TZ_UTC)).
Proof.
  intros V. unfold local_to_UTC, localize_offset, astimezone_UTC.
  rewrite (datetime_add_zero (replace_tzinfo dt (Some (TZ_fixed 0))) V).
  reflexivity.
Qed.

End TimeMoreFacts.

(** ** What the pattern of [strptime] accepts *)

Module FormatMoreFacts.

Import Calendar CalendarFacts PyString PyDatetime DatetimeFacts PyTimeFormat
  FormatFacts.
Local Open Scope char_scope.

Lemma digit_cases (c : ascii) :
  is_digit c = true ->
  In c ["0"; "1"; "2"; "3"; "4"; "5"; "6"; "7"; "8"; "9"].
Proof.
  destruct c as [[] [] [] [] [] [] [] []]; vm_compute; intros H;
    first [discriminate H | tauto].
Qed.

Ltac each_digit H :=
  cbn [In] in H;
  repeat (destruct H as [H|H]; [subst|]); [..|contradiction H].

Lemma digit_not_separator (c : ascii) :
  is_digit c = true ->
  is_space c = false /\ is_char "-" c = false /\ is_char ":" c = false.
Proof.
  intros H. apply digit_cases in H. each_digit H; repeat split.
Qed.

Lemma int_of_two (a b : ascii) :
  is_digit a = true -> int_of [a; b] = two_digits a b.
Proof.
  intros Ha. destruct (digit_not_separator a Ha) as (S & _).
  unfold int_of, two_digits. cbn [lstrip]. rewrite S. cbn [digits_value]. lia.
Qed.

Lemma int_of_four (a b c d : ascii) :
  is_digit a = true ->
  int_of [a; b; c; d] = two_digits a b * 100 + two_digits c d.
Proof.
  intros Ha. destruct (digit_not_separator a Ha) as (S & _).
  unfold int_of, two_digits. cbn [lstrip]. rewrite S. cbn [digits_value]. lia.
Qed.

(** Followed by something that does not start with a digit, a directive of
    one or two digits can only have taken both digits. *)
Section TwoDigits.

Context {R : Type}.
Variable k : list ascii -> list ascii -> option R.
Hypothesis Hk : forall g c rest, is_digit c = true -> k g (c :: rest) = None.

Ltac two_digits_only Ha Hb H :=
  apply digit_cases in Ha; apply digit_cases in Hb;
  each_digit Ha; each_digit Hb;
  vm_compute in H;
  repeat rewrite Hk in H by reflexivity;
  cbv beta iota in H;
  try discriminate H;
  match type of H with
  | context [k ?g ?s] =>
      let E := fresh "E" in
      destruct (k g s) eqn:E; [exact H|discriminate H]
  end.

Lemma re_m_two (a b : ascii) (rest : list ascii) (r : R) :
  is_digit a = true -> is_digit b = true ->
  re_m k (a :: b :: rest) = Some r -> k [a; b] rest = Some r.
Proof. intros Ha Hb H. two_digits_only Ha Hb H. Qed.

Lemma re_d_two (a b : ascii) (rest : list ascii) (r : R) :
  is_digit a = true -> is_digit b = true ->
  re_d k (a :: b :: rest) = Some r -> k [a; b] rest = Some r.
Proof. intros Ha Hb H. two_digits_only Ha Hb H. Qed.

Lemma re_H_two (a b : ascii) (rest : list ascii) (r : R) :
  is_digit a = true -> is_digit b = true ->
  re_H k (a :: b :: rest) = Some r -> k [a; b] rest = Some r.
Proof. intros Ha Hb H. two_digits_only Ha Hb H. Qed.

Lemma re_M_two (a b : ascii) (rest : list ascii) (r : R) :
  is_digit a = true -> is_digit b = true ->
  re_M k (a :: b :: rest) = Some r -> k [a; b] rest = Some r.
Proof. intros Ha Hb H. two_digits_only Ha Hb H. Qed.

End TwoDigits.

(** At the end of the text, [%S] takes both digits or leaves one over. *)
Lemma re_S_two {R : Type} (F : list ascii -> list ascii -> R) (a b : ascii)
    (r : R) :
  is_digit a = true -> is_digit b = true ->
  re_S (fun S rest => Some (F S rest)) [a; b] = Some r ->
  r = F [a; b] [] \/ r = F [a] [b].
Proof.
  intros Ha Hb H.
  apply digit_cases in Ha; apply digit_cases in Hb.
  each_digit Ha; each_digit Hb;
    vm_compute in H; injection H as <-; auto.
Qed.

Lemma lit_digit {R : Type} (sep : ascii) (k : list ascii -> option R)
    (c : ascii) (rest : list ascii) :
  is_char sep c = false -> lit sep k (c :: rest) = None.
Proof. intros H. unfold lit, ch. now rewrite H. Qed.

Lemma re_spaces_digit {R : Type} (k : list ascii -> option R) (c : ascii)
    (rest : list ascii) :
  is_digit c = true -> re_spaces k (c :: rest) = None.
Proof.
  intros H. destruct (digit_not_separator c H) as (S & _).
  cbn [re_spaces]. now rewrite S.
Qed.

Lemma re_spaces_one {R : Type} (k : list ascii -> option R) (c : ascii)
    (rest : list ascii) :
  is_digit c = true -> re_spaces k (" " :: c :: rest) = k (c :: rest).
Proof.
  intros H. destruct (digit_not_separator c H) as (S & _).
  cbn [re_spaces]. change (is_space " ") with true. cbv iota.
  rewrite S. reflexivity.
Qed.

(** [strptime] raises nothing but [ValueError]. *)
Lemma strptime_raises (s : string) (c : exn_class) :
  raised (strptime s) = Some c -> c = ValueError.
Proof.
  unfold strptime, datetime_new.
  destruct (match_DATETIME_FORMAT _) as [f|]; cbn; [|congruence].
  destruct (unconverted f); cbn; [|congruence].
  destruct (check_date_fields _ _ _); cbn; [|congruence].
  destruct (check_time_fields _ _ _); cbn; congruence.
Qed.

(** On a text in the exact layout, [strptime] can only return what the
    text denotes, and only when that is a valid date and time. *)
Lemma strptime_exact (s : string) (denoted dt : datetime) :
  read_exact s = Some denoted -> strptime s = Ok dt ->
  dt = denoted /\ valid_datetime denoted = true.
Proof.
  unfold read_exact, strptime. intros H.
  destruct (list_ascii_of_string s) as
    [|y1 [|y2 [|y3 [|y4 [|p1 [|m1 [|m2 [|p2 [|d1 [|d2 [|p3 [|H1 [|H2 [|p4
     [|M1 [|M2 [|p5 [|S1 [|S2 [|x l]]]]]]]]]]]]]]]]]]]]; try discriminate H.
  destruct (forallb is_digit _ && _ && _ && _ && _ && _) eqn:E;
    [|discriminate H].
  injection H as <-.
  rewrite !andb_true_iff in E.
  destruct E as (((((E & P1) & P2) & P3) & P4) & P5).
  cbn [forallb] in E. rewrite !andb_true_iff in E.
  destruct E as (Dy1 & Dy2 & Dy3 & Dy4 & Dm1 & Dm2 & Dd1 & Dd2 & DH1 & DH2
                 & DM1 & DM2 & DS1 & DS2 & _).
  unfold is_char in P1, P2, P3, P4, P5.
  apply Ascii.eqb_eq in P1, P2, P3, P4, P5. subst p1 p2 p3 p4 p5.
  destruct (match_DATETIME_FORMAT _) as [f|] eqn:M; [|discriminate].
  unfold match_DATETIME_FORMAT, re_Y, ch in M.
  rewrite Dy1, Dy2, Dy3, Dy4, lit_cons in M.
  apply re_m_two in M; try assumption;
    [|intros g c rest Hc; apply lit_digit; apply (digit_not_separator c Hc)].
  rewrite lit_cons in M.
  apply re_d_two in M; try assumption;
    [|intros g c rest Hc; now apply re_spaces_digit].
  rewrite re_spaces_one in M by assumption.
  apply re_H_two in M; try assumption;
    [|intros g c rest Hc; apply lit_digit; apply (digit_not_separator c Hc)].
  rewrite lit_cons in M.
  apply re_M_two in M; try assumption;
    [|intros g c rest Hc; apply lit_digit; apply (digit_not_separator c Hc)].
  rewrite lit_cons in M.
  apply (re_S_two (fun S rest =>
           mkfound [y1; y2; y3; y4] [m1; m2] [d1; d2] [H1; H2] [M1; M2] S rest))
    in M; try assumption.
  destruct M as [-> | ->]; cbn [unconverted g_Y g_m g_d g_H g_M g_S];
    [|discriminate].
  rewrite int_of_four, !int_of_two by assumption.
  unfold datetime_new.
  destruct (check_date_fields _ _ _) eqn:Cd; [|discriminate].
  destruct (check_time_fields _ _ _) eqn:Ct; [|discriminate].
  intros Q. injection Q as <-. split; [reflexivity|].
  unfold valid_datetime. cbn [year month day hour minute second].
  now rewrite Cd, Ct.
Qed.

End FormatMoreFacts.

(** ** More on the client *)

Module ClientMoreFacts.

Import PyString PyObj StringFacts ServiceNowClient ClientFacts
  ServiceNowClientMore.
Local Open Scope string_scope.
Local Open Scope Z_scope.

Lemma length_append (a b : string) :
  String.length (a ++ b) = (String.length a + String.length b)%nat.
Proof. induction a as [|c a IH]; cbn; [reflexivity|now rewrite IH]. Qed.

Lemma startswith_append (p s t : string) :
  startswith p s = true -> startswith p (s ++ t) = true.
Proof.
  rewrite !startswith_spec. intros [rest ->]. exists (rest ++ t).
  apply append_assoc.
Qed.

(** Dropping the last character of a longer string keeps a prefix. *)
Lemma startswith_slice (p s : string) :
  startswith p s = true -> (String.length p < String.length s)%nat ->
  startswith p (slice_0_m1 s) = true.
Proof.
  revert s. induction p as [|a p IH]; intros s H L; [reflexivity|].
  destruct s as [|b s]; [discriminate H|].
  cbn [startswith] in H. apply andb_true_iff in H. destruct H as [Hab Hp].
  cbn [String.length] in L.
  destruct s as [|c s]; [cbn in L; lia|].
  change (slice_0_m1 (String b (String c s)))
    with (String b (slice_0_m1 (String c s))).
  cbn [startswith]. rewrite Hab. cbn [andb].
  apply IH; [exact Hp|cbn [String.length] in *; lia].
Qed.

Lemma nth_error_last {A : Type} (l : list A) (x : A) :
  nth_error (l ++ [x])%list (List.length l) = Some x.
Proof. induction l; cbn; auto. Qed.

Lemma update_nth_last {A : Type} (l : list A) (x y : A) :
  update_nth (List.length l) y (l ++ [x])%list = (l ++ [y])%list.
Proof. induction l as [|a l IH]; cbn; [reflexivity|now rewrite IH]. Qed.


(** Lookup after an update of a dictionary, for string keys. *)
Lemma dict_get_set (d : dict) (k k' : string) (v : pyobj) :
  dict_get (dict_set d (PyStr k) v) (PyStr k') =
  if String.eqb k k' then Some v else dict_get d (PyStr k').
Proof.
  induction d as [|[k0 v0] d IH]; cbn [dict_set dict_get].
  - cbn [key_eqb]. destruct (String.eqb k k'); reflexivity.
  - destruct (key_eqb k0 (PyStr k)) eqn:E0.
    + destruct k0; try discriminate E0. cbn [key_eqb] in E0.
      apply String.eqb_eq in E0. subst s.
      cbn [dict_get key_eqb]. destruct (String.eqb k k'); reflexivity.
    + cbn [dict_get]. destruct (key_eqb k0 (PyStr k')) eqn:E1.
      * destruct k0; try discriminate E1. cbn [key_eqb] in E0, E1.
        apply String.eqb_eq in E1. subst s.
        rewrite String.eqb_sym, E0. reflexivity.
      * exact IH.
Qed.

Lemma substring_0_length (n : nat) (s : string) :
  String.length (substring 0 n s) = Nat.min n (String.length s).
Proof.
  revert s. induction n as [|n IH]; intros [|c s]; cbn; auto.
Qed.

Lemma not_leading_slash (t x : string) :
  startswith "/" t = false -> startswith "/" x = false ->
  startswith "/" (t ++ x) = false.
Proof. destruct t as [|c t]; cbn; auto. Qed.

(** The base URL of a connection starts with the scheme. *)
Lemma baseurl_scheme (instance username password : string) :
  startswith "https://" (baseurl (ServiceNow_init instance username password))
  = true.
Proof.
  unfold ServiceNow_init. cbn [baseurl].
  set (base1 := if startswith "https://" instance then instance
                else "https://" ++ instance).
  set (base2 := if find instance "." <? 0 then base1 ++ ".service-now.com"
                else base1).
  assert (P1 : startswith "https://" base1 = true).
  { subst base1. destruct (startswith "https://" instance) eqn:E; [exact E|].
    apply startswith_spec. now exists instance. }
  assert (P2 : startswith "https://" base2 = true).
  { subst base2. destruct (find instance "." <? 0); [|exact P1].
    now apply startswith_append. }
  assert (L : (String.length "https://" < String.length base2)%nat).
  { subst base2. destruct (find instance "." <? 0) eqn:F.
    - rewrite length_append. cbn [String.length]. lia.
    - subst base1. destruct (startswith "https://" instance) eqn:E.
      + apply startswith_spec in E. destruct E as [rest ->].
        destruct rest; [vm_compute in F; discriminate F|].
        rewrite length_append. cbn [String.length]. lia.
      + destruct instance; [vm_compute in F; discriminate F|].
        rewrite length_append. cbn [String.length]. lia. }
  destruct (endswith_char "/" base2); [|exact P2].
  now apply startswith_slice.
Qed.

Section WithRuntime.

Variable requests_request : Request -> Response.
Variable str_ : pyobj -> string.

(** [Table.get] with the objects it leaves behind. *)
Lemma Table_get_spec (self : nat) (t : Table) (sys_id : option string)
    (refLinks : bool) (w : World) :
  nth_error (tables w) self = Some t ->
  let parms : dict :=
    [(PyStr "sysparm_exclude_reference_link",
      PyStr (if refLinks then "false" else "true"))] in
  let response :=
    response_to requests_request w "GET" (tableurl t) sys_id (Some parms) None in
  exists s',
    snd (Table_get requests_request str_ self sys_id refLinks w) =
      mkWorld s'
        (update_nth self (mkTable (t_name t) (tableurl t) (Some response))
           (tables w))
        (queries w) /\
    lastResponse s' = Some response /\
    lastRequest s' =
      Some (mkLastRequest "GET" (request_url (tableurl t) sys_id) (Some parms)).
Proof.
  intros Ht parms response.
  destruct (Table_request_spec requests_request self t "GET" sys_id (Some parms)
              None w Ht) as (s' & E & LR & LQ).
  fold response in E, LR. exists s'.
  unfold Table_get.
  replace (if refLinks
           then dict_set [] (PyStr "sysparm_exclude_reference_link") (PyStr "false")
           else dict_set [] (PyStr "sysparm_exclude_reference_link") (PyStr "true"))
    with parms by (destruct refLinks; reflexivity).
  unfold mbind at 1. cbv beta. rewrite E.
  unfold mbind at 1. cbv beta.
  rewrite (set_table_response_spec self t response _ _ _ Ht).
  split; [|split; [exact LR|exact LQ]].
  destruct (status_code response =? 401).
  - unfold mbind, lift, raise. destruct (json response); reflexivity.
  - destruct (status_code response =? 404); [reflexivity|].
    unfold mbind, lift. destruct (json response); reflexivity.
Qed.

(** A request in full: what it returns and what it leaves on the
    connection. *)
Lemma ServiceNow_request_full (method url : string) (sys_id : option string)
    (params : option dict) (data : option string) (w : World) :
  let response := response_to requests_request w method url sys_id params data in
  exists s',
    ServiceNow_request requests_request method url sys_id params data w =
      (Ok response, mkWorld s' (tables w) (queries w)) /\
    baseurl s' = baseurl (session w) /\
    username s' = username (session w) /\
    auth s' = auth (session w) /\
    cookies s' = cookies_after (session w) response /\
    lastResponse s' = Some response /\
    lastRequest s' =
      Some (mkLastRequest (upper method) (request_url url sys_id) params).
Proof.
  intros response. subst response.
  unfold ServiceNow_request, response_to, request_url, ServiceNow_setSession,
    cookies_after, mbind, get_session, put_session, ret.
  cbn [session tables queries auth cookies baseurl username jsessionid
       lastRequest lastResponse].
  set (resp := requests_request _).
  destruct (cookie_JSESSIONID resp) as [c|].
  - destruct (String.eqb c ""); cbn; eexists; repeat split.
  - cbn. eexists. repeat split.
Qed.

(** [Query.run] in full. *)
Lemma Query_run_full (self : nat) (q : Query) (t : Table) (w : World) :
  nth_error (queries w) self = Some q ->
  nth_error (tables w) (q_table q) = Some t ->
  let response :=
    response_to requests_request w "GET" (tableurl t) None
      (Some (run_params q)) None in
  exists s',
    Query_run requests_request self w =
      ((if negb (status_code response =? 200) then Ok (PyList [])
        else body <- json response ;; getitem body "result"),
       mkWorld s' (tables w)
         (update_nth self
            (mkQuery (q_table q) (q_query q) (q_fields q) (q_limit q)
               (exclude_ref_links q) (Some response)) (queries w))) /\
    baseurl s' = baseurl (session w) /\
    username s' = username (session w) /\
    lastRequest s' =
      Some (mkLastRequest "GET" (tableurl t) (Some (run_params q))).
Proof.
  intros Hq Ht response.
  destruct (ServiceNow_request_full "GET" (tableurl t) None
              (Some (run_params q)) None w) as (s' & E & B & U & _ & _ & _ & LQ).
  fold response in E. exists s'.
  unfold Query_run, Table_request, mbind, get_query, get_table, put_query.
  rewrite Hq, Ht, E. cbn [session tables queries].
  split; [|split; [exact B|split; [exact U|exact LQ]]].
  destruct (negb (status_code response =? 200)); [reflexivity|].
  unfold lift. destruct (json response) as [body|c msg]; reflexivity.
Qed.

Lemma ServiceNow_table_spec (name : string) (w : World) :
  ServiceNow_table name w =
    (Ok (List.length (tables w)),
     mkWorld (session w)
       (tables w ++
        [mkTable name (ServiceNow_url (session w) ("/api/now/v1/table/" ++ name))
           None])%list
       (queries w)).
Proof. reflexivity. Qed.

(** A new query is put behind the ones there are, with its attributes set
    from the arguments. *)
Lemma Query_init_spec (table : nat) (query fields limit refLinks value : pyobj)
    (w : World) :
  (if truthy fields then s <- fields_string fields ;; Ok (PyStr s)
   else Ok PyNone) = Ok value ->
  Query_init str_ table query fields limit refLinks w =
    (Ok (List.length (queries w)),
     mkWorld (session w) (tables w)
       (queries w ++
        [mkQuery table query value
           (if truthy limit then PyStr (str_ limit) else PyNone)
           (if truthy refLinks then PyStr "false" else PyStr "true") None])%list).
Proof.
  intros Hv. unfold Query_init.
  unfold mbind at 1, new_query. cbv beta iota.
  set (n := List.length (queries w)).
  unfold mbind at 1.
  rewrite (Query_setQuery_spec n (mkQuery table PyNone PyNone PyNone PyNone None)
             query) by (cbn [queries]; apply nth_error_last).
  cbn [queries session tables q_table q_query q_fields q_limit
       exclude_ref_links q_response]. subst n. rewrite update_nth_last.
  set (n := List.length (queries w)).
  unfold mbind at 1.
  rewrite (Query_setFields_spec n (mkQuery table query PyNone PyNone PyNone None)
             fields value) by (cbn [queries]; apply nth_error_last || exact Hv).
  cbn [queries session tables q_table q_query q_fields q_limit
       exclude_ref_links q_response]. subst n. rewrite update_nth_last.
  set (n := List.length (queries w)).
  unfold mbind at 1.
  rewrite (Query_setLimit_spec str_ n (mkQuery table query value PyNone PyNone None)
             limit) by (cbn [queries]; apply nth_error_last).
  cbn [queries session tables q_table q_query q_fields q_limit
       exclude_ref_links q_response]. subst n. rewrite update_nth_last.
  set (n := List.length (queries w)).
  unfold mbind at 1.
  rewrite (Query_setRefLinks_spec n
             (mkQuery table query value
                (if truthy limit then PyStr (str_ limit) else PyNone) PyNone None)
             refLinks) by (cbn [queries]; apply nth_error_last).
  cbn [queries session tables q_table q_query q_fields q_limit
       exclude_ref_links q_response]. subst n. rewrite update_nth_last.
  reflexivity.
Qed.

Lemma strings_of_map (names : list string) :
  strings_of (map PyStr names) = Ok names.
Proof.
  induction names as [|x names IH]; cbn; [reflexivity|].
  rewrite IH. reflexivity.
Qed.

Lemma strings_of_not_all (items : list pyobj) :
  forallb is_PyStr items = false -> raised (strings_of items) = Some TypeError.
Proof.
  induction items as [|x items IH]; cbn; [discriminate|].
  destruct x; cbn; try reflexivity.
  intros H. specialize (IH H).
  destruct (strings_of items); [discriminate IH|exact IH].
Qed.

(** The choices gathered from records without an ['inactive'] field. *)
Lemma getChoices_loop_plain (pairs : list (string * string)) (choices : dict) :
  getChoices_loop false (map plain_choice pairs) choices =
  Ok (fold_left (fun d p => dict_set d (PyStr (fst p)) (PyStr (snd p)))
        pairs choices).
Proof.
  revert choices. induction pairs as [|[v l] pairs IH]; intros choices;
    [reflexivity|].
  cbn [map fold_left]. rewrite <- IH. reflexivity.
Qed.

Lemma dict_get_fold (pairs : list (string * string)) (choices : dict)
    (value : string) :
  dict_get
    (fold_left (fun d p => dict_set d (PyStr (fst p)) (PyStr (snd p)))
       pairs choices) (PyStr value) =
  match last_label value pairs with
  | Some l => Some (PyStr l)
  | None => dict_get choices (PyStr value)
  end.
Proof.
  revert choices. induction pairs as [|[v l] pairs IH]; intros choices;
    [reflexivity|].
  cbn [fold_left last_label fst snd]. rewrite IH.
  destruct (last_label value pairs); [reflexivity|].
  rewrite dict_get_set. destruct (String.eqb v value); reflexivity.
Qed.

Lemma fold_dict_set_nonempty (pairs : list (string * string)) (choices : dict) :
  (pairs <> [] \/ choices <> []) ->
  fold_left (fun d p => dict_set d (PyStr (fst p)) (PyStr (snd p)))
    pairs choices <> [].
Proof.
  revert choices. induction pairs as [|[v l] pairs IH]; intros choices H.
  - cbn. destruct H; congruence.
  - cbn [fold_left]. apply IH. right.
    destruct choices as [|[k x] choices]; cbn; [discriminate|].
    destruct (key_eqb k (PyStr v)); discriminate.
Qed.

(** [getChoices] in full: the request it issues and what it makes of the
    answer. *)
Lemma Table_getChoices_full (self : nat) (t : Table) (element : string)
    (inactive : bool) (w : World) :
  nth_error (tables w) self = Some t ->
  let params : dict :=
    [(PyStr "sysparm_query",
      PyStr ("name=" ++ t_name t ++ "^element=" ++ element));
     (PyStr "sysparm_exclude_reference_link", PyStr "true")] in
  let url := ServiceNow_url (session w) "/api/now/v1/table/sys_choice" in
  let response :=
    response_to requests_request w "GET" url None (Some params) None in
  exists w',
    Table_getChoices requests_request str_ self element inactive w =
      ((recs <- (if negb (status_code response =? 200) then Ok (PyList [])
                 else body <- json response ;; getitem body "result") ;;
        items <- iterate recs ;;
        choices <- getChoices_loop inactive items [] ;;
        match choices with
        | [] => Raise AttributeError
                  "'ServiceNow' object has no attribute 'logLastRequest'"
        | _ :: _ => Ok (PyDict choices)
        end), w') /\
    lastRequest (session w') = Some (mkLastRequest "GET" url (Some params)).
Proof.
  intros Ht params url response.
  unfold Table_getChoices.
  unfold mbind at 1, get_table. rewrite Ht.
  unfold mbind at 1. rewrite ServiceNow_table_spec.
  unfold mbind at 1. unfold Table_query.
  rewrite (Query_init_spec _ _ PyNone PyNone (PyBool false) PyNone)
    by reflexivity.
  cbn [truthy session tables queries].
  set (sys_choice := mkTable "sys_choice" _ None).
  set (q := mkQuery _ _ _ _ _ _).
  set (w2 := mkWorld _ _ _).
  destruct (Query_run_full (List.length (queries w)) q sys_choice w2)
    as (s' & E & _ & _ & LQ).
  { apply nth_error_last. }
  { apply nth_error_last. }
  change (run_params q) with params in E, LQ.
  change (tableurl sys_choice) with url in E, LQ.
  change (response_to requests_request w2 "GET" url None (Some params) None)
    with response in E.
  unfold mbind at 1. rewrite E. clear E.
  destruct (if negb (status_code response =? 200) then Ok (PyList [])
            else body <- json response;; getitem body "result") as [recs|c msg];
    [|eexists; split; [reflexivity|exact LQ]].
  cbn [bind]. unfold mbind at 1, lift.
  destruct (iterate recs) as [items|c msg];
    [|eexists; split; [reflexivity|exact LQ]].
  cbn [bind]. unfold mbind at 1.
  destruct (getChoices_loop inactive items []) as [choices|c msg];
    [|eexists; split; [reflexivity|exact LQ]].
  cbn [bind].
  destruct choices as [|c choices]; eexists; (split; [reflexivity|exact LQ]).
Qed.

(** [connect] by the outcome of its query. *)
Lemma ServiceNow_connect_outcome (w : World) :
  let sys_user :=
    mkTable "sys_user"
      (ServiceNow_url (session w) "/api/now/v1/table/sys_user") None in
  let params : dict :=
    [(PyStr "sysparm_query", PyStr ("user_name=" ++ username (session w)));
     (PyStr "sysparm_exclude_reference_link", PyStr "true")] in
  let response :=
    response_to requests_request w "GET" (tableurl sys_user) None
      (Some params) None in
  let failure : result unit :=
    Raise ServiceNowError (unable_to_connect (session w)) in
  fst (ServiceNow_connect requests_request str_ w) =
    match (if negb (status_code response =? 200) then Ok (PyList [])
           else body <- json response ;; getitem body "result") with
    | Raise _ _ => failure
    | Ok recs =>
        n <- py_len recs ;;
        if negb (n =? 1) then failure else Ok tt
    end.
Proof.
  intros sys_user params response failure.
  unfold ServiceNow_connect, try_except.
  unfold mbind at 1. unfold mbind at 1.
  rewrite ServiceNow_table_spec. fold sys_user.
  unfold mbind at 1, get_session. cbv beta iota. cbn [session].
  unfold mbind at 1. unfold Table_query.
  rewrite (Query_init_spec _ _ PyNone PyNone (PyBool false) PyNone)
    by reflexivity.
  cbn [truthy session tables queries].
  set (q := mkQuery _ _ _ _ _ _).
  set (w2 := mkWorld _ _ _).
  destruct (Query_run_full (List.length (queries w)) q sys_user w2)
    as (s' & E & B & U & _).
  { apply nth_error_last. }
  { apply nth_error_last. }
  change (run_params q) with params in E.
  change (response_to requests_request w2 "GET" (tableurl sys_user) None
            (Some params) None) with response in E.
  rewrite E. clear E.
  unfold unable_to_connect in *. subst failure.
  destruct (if negb (status_code response =? 200) then Ok (PyList [])
            else body <- json response;; getitem body "result") as [recs|c msg].
  - unfold mbind, lift, get_session, raise, ret.
    destruct (py_len recs) as [n|]; [|reflexivity].
    cbn [bind]. destruct (negb (n =? 1)); [|reflexivity].
    cbn [session fst]. rewrite B, U. reflexivity.
  - unfold mbind, get_session, raise. cbn [session fst]. rewrite B, U.
    reflexivity.
Qed.

End WithRuntime.

End ClientMoreFacts.

(** ** Further properties of the module *)

Module Extra.

Import Calendar CalendarFacts PyString PyDatetime DatetimeFacts PyTimeFormat
  FormatFacts PyObj ServiceNowTime OverlapFacts DateTimeFacts
  StringFacts ServiceNowClient ClientFacts UrlSpec Samples
  ServiceNowClock TimeMoreFacts FormatMoreFacts
  ServiceNowClientMore ClientMoreFacts.
Local Open Scope string_scope.
Local Open Scope Z_scope.

(** X1. [overlapsWith] holds exactly when the later start lies strictly
    before the earlier end, and it is symmetric. *)
Theorem overlapsWith_strict (s1 e1 s2 e2 : datetime) :
  valid_datetime s1 = true -> valid_datetime e1 = true ->
  valid_datetime s2 = true -> valid_datetime e2 = true ->
  comparable [s1; e1; s2; e2] = true ->
  overlapsWith (s1, e1) (s2, e2) =
    Ok (Z.max (instant s1) (instant s2) <? Z.min (instant e1) (instant e2)) /\
  overlapsWith (s1, e1) (s2, e2) = overlapsWith (s2, e2) (s1, e1).
Proof.
  intros V1 V2 V3 V4 C.
  assert (C' : comparable [s2; e2; s1; e1] = true).
  { revert C. unfold comparable. cbn [forallb].
    destruct (is_naive s1), (is_naive e1), (is_naive s2), (is_naive e2);
      cbn; auto. }
  unfold overlapsWith.
  rewrite (overlapSeconds_instant s1 e1 s2 e2) by assumption.
  rewrite (overlapSeconds_instant s2 e2 s1 e1) by assumption.
  cbn [bind]. split; f_equal.
  - destruct (Z.ltb_spec (Z.max (instant s1) (instant s2))
                (Z.min (instant e1) (instant e2)));
      [apply Z.ltb_lt|apply Z.ltb_ge]; lia.
  - f_equal. lia.
Qed.

Lemma overlapsWith_strict_witness :
  overlapsWith (as_datetime d_2015_01_01, as_datetime d_2015_01_01_end)
               (as_datetime d_2015_01_01_end, as_datetime d_2015_01_02_noon)
  = Ok false.
Proof.
  destruct (overlapsWith_strict
              (as_datetime d_2015_01_01) (as_datetime d_2015_01_01_end)
              (as_datetime d_2015_01_01_end) (as_datetime d_2015_01_02_noon)
              eq_refl eq_refl eq_refl eq_refl eq_refl) as [H _].
  exact H.
Defined.

(** X2. A range of naive datetimes cannot be measured against a range of
    aware ones: [overlapSeconds] and [overlapsWith] raise [TypeError] as
    soon as the two starts are of different kinds. *)
Theorem overlap_mixed_TypeError (s1 e1 s2 e2 : datetime) :
  is_naive s1 <> is_naive s2 ->
  raised (overlapSeconds (s1, e1) (s2, e2)) = Some TypeError /\
  raised (overlapsWith (s1, e1) (s2, e2)) = Some TypeError.
Proof.
  intros K.
  assert (E : raised (overlapSeconds (s1, e1) (s2, e2)) = Some TypeError).
  { unfold overlapSeconds, py_max, datetime_gt, datetime_cmp, is_naive,
      utcoffset in *. cbn [fst snd].
    destruct (tzinfo s1) as [[|o1]|], (tzinfo s2) as [[|o2]|];
      try (exfalso; apply K; reflexivity); reflexivity. }
  split; [exact E|].
  unfold overlapsWith. destruct (overlapSeconds _ _); [discriminate E|exact E].
Qed.

Lemma overlap_mixed_TypeError_witness :
  raised (overlapSeconds
            (mkdatetime 2015 1 1 0 0 0 None, mkdatetime 2015 1 2 0 0 0 None)
            (as_datetime d_2015_01_01, as_datetime d_2015_01_01_end))
  = Some TypeError.
Proof.
  destruct (overlap_mixed_TypeError
              (mkdatetime 2015 1 1 0 0 0 None) (mkdatetime 2015 1 2 0 0 0 None)
              (as_datetime d_2015_01_01) (as_datetime d_2015_01_01_end))
    as [H _]; [discriminate|exact H].
Defined.

(** X3. What [asUTC] prints of a [DateTime] of the year 1000 or later is
    read back as the same value, [DateTime(d.asUTC()) == d]; what it prints
    of an earlier year, without the leading zeros of the year, is refused
    by the constructor with [ValueError]. *)
Theorem DateTime_of_asUTC (TZ_LOCAL : datetime -> Z) (d : DateTime) :
  valid_DateTime d = true ->
  exists s, asUTC d = Ok s /\
            (1000 <= dt_year d -> DateTime_new TZ_LOCAL (PyStr s) false = Ok d) /\
            (dt_year d < 1000 ->
             forall local,
               raised (DateTime_new TZ_LOCAL (PyStr s) local) = Some ValueError).
Proof.
  intros V. exists (strftime (as_datetime d)). split; [reflexivity|]. split.
  - intros Hy. rewrite strftime_write_exact by exact Hy.
    rewrite (DateTime_new_parsed TZ_LOCAL _ (replace_tzinfo (as_datetime d) None)).
    + now rewrite <- (DateTime_of_as_datetime d) at 2.
    + rewrite write_exact_length. discriminate.
    + apply strptime_write_exact. exact V.
    + exact V.
  - intros Hy local. unfold DateTime_new.
    pose proof (strftime_short_length (as_datetime d) Hy) as L.
    assert (N : (String.length (strftime (as_datetime d)) =? 10)%nat = false)
      by (apply Nat.eqb_neq; lia).
    rewrite N.
    destruct (strptime_strftime_short (as_datetime d) Hy) as (msg & E).
    rewrite E. reflexivity.
Qed.

Lemma DateTime_of_asUTC_witness :
  exists s, asUTC d_2015_01_01_noon = Ok s /\
            DateTime_new eastern (PyStr s) false = Ok d_2015_01_01_noon.
Proof.
  destruct (DateTime_of_asUTC eastern d_2015_01_01_noon eq_refl)
    as (s & E & R & _).
  exists s. split; [exact E|]. apply R. cbn. lia.
Defined.

(** X4. A date-only string means midnight: [DateTime('YYYY-MM-DD')] has the
    fields of that date at 00:00:00, and from the year 1000 on it prints as
    ['YYYY-MM-DD 00:00:00']. *)
Theorem DateTime_date_only_midnight (TZ_LOCAL : datetime -> Z) (y m d : Z) :
  check_date_fields y m d = true ->
  exists dt, DateTime_new TZ_LOCAL (PyStr (write_exact_date y m d)) false = Ok dt /\
             dt = mkDateTime y m d 0 0 0 /\
             (1000 <= y ->
              asUTC dt = Ok (write_exact_date y m d ++ " 00:00:00")).
Proof.
  intros Vd. exists (mkDateTime y m d 0 0 0).
  split; [exact (DateTime_new_date_only TZ_LOCAL y m d Vd)|].
  split; [reflexivity|].
  intros Hy. rewrite asUTC_write_exact by exact Hy. reflexivity.
Qed.

Lemma DateTime_date_only_midnight_witness :
  exists dt, DateTime_new eastern (PyStr "2015-09-15") false = Ok dt /\
             asUTC dt = Ok "2015-09-15 00:00:00".
Proof.
  destruct (DateTime_date_only_midnight eastern 2015 9 15 eq_refl)
    as (dt & E & _ & U).
  exists dt. split; [exact E|]. apply U. lia.
Defined.

(** X5. A date object and the text of that date give the same [DateTime],
    with either value of [local] (and fail alike when the result is out of
    range). *)
Theorem DateTime_date_object_as_text (TZ_LOCAL : datetime -> Z) (y m d : Z)
    (local : bool) :
  check_date_fields y m d = true ->
  DateTime_new TZ_LOCAL (PyDate y m d) local =
  DateTime_new TZ_LOCAL (PyStr (write_exact_date y m d)) local.
Proof. exact (DateTime_new_date_object TZ_LOCAL y m d local). Qed.

Lemma DateTime_date_object_as_text_witness :
  DateTime_new eastern (PyDate 2015 9 15) true =
  DateTime_new eastern (PyStr "2015-09-15") true.
Proof. apply (DateTime_date_object_as_text eastern 2015 9 15 true). reflexivity. Defined.

(** X6. An aware datetime given to the second is converted to UTC and
    denotes the same instant (a microsecond part, which the constructor
    does not pass on, is not represented here), whatever [local] is, as
    long as the UTC time is representable; a [DateTime] is returned as it
    is. *)
Theorem DateTime_of_aware (TZ_LOCAL : datetime -> Z) (a : datetime)
    (tz : tzobj) (local : bool) :
  valid_datetime a = true -> tzinfo a = Some tz ->
  0 <= instant a < MAXORDINAL * 86400 ->
  (exists d, DateTime_new TZ_LOCAL (PyDatetime a) local = Ok d /\
             valid_DateTime d = true /\
             instant (as_datetime d) = instant a) /\
  (forall d, as_datetime d = a ->
             DateTime_new TZ_LOCAL (PyDateTime d) local = Ok d).
Proof.
  intros V T W. split.
  - unfold DateTime_new. rewrite T.
    unfold instant, utcoffset in W |- *. rewrite T in W |- *.
    destruct tz as [|off]; cbn [astimezone_UTC bind].
    + rewrite (DateTime_fields_ok a V). cbn [bind].
      eexists. split; [reflexivity|]. split; [exact V|reflexivity].
    + destruct (datetime_add_spec a (timedelta_neg (timedelta_new 0 off)) V)
        as (r & E & Vr & Tr & _).
      { rewrite timedelta_neg_total, timedelta_new_total. lia. }
      rewrite E. cbn [bind].
      rewrite (DateTime_fields_ok (replace_tzinfo r (Some TZ_UTC)) Vr).
      cbn [bind]. eexists. split; [reflexivity|]. split; [exact Vr|].
      rewrite timedelta_neg_total, timedelta_new_total in Tr.
      cbn [as_datetime tzinfo year month day hour minute second
           replace_tzinfo].
      change (timestamp _) with (timestamp r) at 1. lia.
  - intros d <-. unfold DateTime_new. cbn [astimezone_UTC bind].
    rewrite (DateTime_fields_ok (as_datetime d) V). cbn [bind].
    destruct d. reflexivity.
Qed.

Lemma DateTime_of_aware_witness :
  DateTime_new eastern
    (PyDatetime (mkdatetime 2015 9 15 20 30 0 (Some (TZ_fixed (-14400))))) true
  = Ok (mkDateTime 2015 9 16 0 30 0).
Proof.
  destruct (DateTime_of_aware eastern
              (mkdatetime 2015 9 15 20 30 0 (Some (TZ_fixed (-14400))))
              (TZ_fixed (-14400)) true eq_refl eq_refl) as [(d & E & _) _].
  - vm_compute. split; [discriminate|reflexivity].
  - rewrite E. vm_compute in E. injection E as <-. reflexivity.
Defined.

(** X9. [asLocal] returns only when the local zone is the object [TZ_UTC]
    itself, and then it prints what [asUTC] prints; with any other zone
    object, whatever its offsets, the conversion is an addition on a
    [DateTime] and [asLocal] raises [TypeError]. *)
Theorem asLocal_cases (d : DateTime) :
  valid_DateTime d = true ->
  asLocal zone_TZ_UTC d = asUTC d /\
  (forall localize fromutc,
     raised (asLocal (zone_other localize fromutc) d) = Some TypeError).
Proof.
  intros V. split; [reflexivity|].
  intros localize fromutc. unfold asLocal.
  pose proof (DateTime_astimezone_other localize fromutc d V) as T.
  destruct (DateTime_astimezone _ _); [discriminate T|exact T].
Qed.

Lemma asLocal_cases_witness :
  asLocal zone_TZ_UTC d_2015_01_01_noon = Ok "2015-01-01 12:00:00" /\
  raised (asLocal (zone_other eastern eastern) d_2015_01_01_noon)
  = Some TypeError.
Proof.
  destruct (asLocal_cases d_2015_01_01_noon eq_refl) as (U & T).
  split; [rewrite U; reflexivity|apply T].
Defined.

(** X11. [today(local)] goes through [asLocal]: with a local zone other
    than the object [TZ_UTC] it raises [TypeError]; with that object, and a
    clock in the year 1000 or later, it is midnight of the current UTC date,
    for either value of [local]. *)
Theorem today_cases (utcnow : datetime) (local : bool) :
  valid_datetime utcnow = true -> tzinfo utcnow = Some TZ_UTC ->
  (forall localize fromutc,
     raised (today (zone_other localize fromutc) utcnow local) = Some TypeError) /\
  (1000 <= year utcnow ->
   today zone_TZ_UTC utcnow local =
   Ok (mkDateTime (year utcnow) (month utcnow) (day utcnow) 0 0 0)).
Proof.
  intros V T. split.
  - intros localize fromutc. unfold today, now.
    rewrite (DateTime_new_UTC _ utcnow false V T). cbn [bind].
    pose proof (DateTime_astimezone_other localize fromutc (DateTime_of utcnow) V)
      as R.
    unfold asLocal.
    destruct (DateTime_astimezone _ _); [discriminate R|exact R].
  - intros Hy. unfold today, now.
    rewrite (DateTime_new_UTC _ utcnow false V T). cbn [bind].
    unfold asLocal. cbn [DateTime_astimezone bind].
    rewrite strftime_write_exact by exact Hy.
    change (substring 0 10 (write_exact (as_datetime (DateTime_of utcnow))))
      with (write_exact_date (year utcnow) (month utcnow) (day utcnow)).
    pose proof V as Vd. apply valid_datetime_spec in Vd. destruct Vd as (Vd & _).
    destruct local.
    + rewrite <- (DateTime_new_date_object _ _ _ _ true Vd).
      unfold DateTime_new.
      assert (Vm : valid_datetime
                     (mkdatetime (year utcnow) (month utcnow) (day utcnow) 0 0 0 None)
                   = true).
      { unfold valid_datetime. cbn [year month day hour minute second].
        rewrite Vd. reflexivity. }
      rewrite (datetime_new_valid _ _ _ _ _ _ _ Vm). cbn [bind].
      rewrite (local_to_UTC_zero _ Vm).
      cbn [bind replace_tzinfo year month day hour minute second].
      rewrite datetime_new_valid by exact Vm. reflexivity.
    + apply DateTime_new_date_only. exact Vd.
Qed.

Lemma today_cases_witness :
  today zone_TZ_UTC (mkdatetime 2015 9 16 3 0 0 (Some TZ_UTC)) true
  = Ok (mkDateTime 2015 9 16 0 0 0) /\
  raised (today (zone_other eastern eastern)
            (mkdatetime 2015 9 16 3 0 0 (Some TZ_UTC)) true) = Some TypeError.
Proof.
  destruct (today_cases (mkdatetime 2015 9 16 3 0 0 (Some TZ_UTC)) true
              eq_refl eq_refl) as (T & U).
  split; [apply U; cbn; lia|apply T].
Defined.

(** X12. A text in the exact layout [YYYY-MM-DD HH:MM:SS] that does not
    denote a valid date and time (a month 13, a 30th of February, a second
    60, the year 0000) is refused with [ValueError], with either value of
    [local]. *)
Theorem DateTime_invalid_text (TZ_LOCAL : datetime -> Z) (s : string)
    (denoted : datetime) (local : bool) :
  read_exact s = Some denoted -> valid_datetime denoted = false ->
  raised (DateTime_new TZ_LOCAL (PyStr s) local) = Some ValueError.
Proof.
  intros E V.
  destruct (read_exact_write_exact s denoted E) as [Es _].
  unfold DateTime_new.
  assert (L : (String.length s =? 10)%nat = false)
    by (rewrite <- Es, write_exact_length; reflexivity).
  rewrite L.
  destruct (strptime s) as [dt|c msg] eqn:P.
  - destruct (strptime_exact s denoted dt E P) as [_ V']. congruence.
  - cbn [bind raised]. f_equal. apply (strptime_raises s).
    rewrite P. reflexivity.
Qed.

Lemma DateTime_invalid_text_witness :
  raised (DateTime_new eastern (PyStr "2015-02-30 10:00:00") false)
  = Some ValueError.
Proof.
  apply (DateTime_invalid_text eastern "2015-02-30 10:00:00"
           (mkdatetime 2015 2 30 10 0 0 None) false); reflexivity.
Defined.

(** X13. Whatever the instance is, the base URL of a connection starts
    with ["https://"]. *)
Theorem baseurl_starts_with_https (instance username password : string) :
  exists rest,
    baseurl (ServiceNow_init instance username password) = "https://" ++ rest.
Proof.
  apply startswith_spec. apply baseurl_scheme.
Qed.

(** X14. [table(name).get(sys_id)] sends a GET to
    [<base>/api/now/v1/table/<name>/<sys_id>], or to the URL of the table
    itself when [sys_id] is [None] or empty, with the one parameter
    [sysparm_exclude_reference_link], which is ['false'] exactly when
    reference links are asked for; the response is kept on the connection
    and on the table. *)
Theorem Table_get_request (requests_request : Request -> Response)
    (str_ : pyobj -> string) (w : World) (name : string)
    (sys_id : option string) (refLinks : bool) :
  let after :=
    snd ((t <~ ServiceNow_table name ;;
          Table_get requests_request str_ t sys_id refLinks) w) in
  let path := baseurl (session w) ++ "/api/now/v1/table/" ++ name in
  let url :=
    match sys_id with
    | Some id => if String.eqb id "" then path else path ++ "/" ++ id
    | None => path
    end in
  let parms : dict :=
    [(PyStr "sysparm_exclude_reference_link",
      PyStr (if refLinks then "false" else "true"))] in
  lastRequest (session after) = Some (mkLastRequest "GET" url (Some parms)) /\
  exists response,
    lastResponse (session after) = Some response /\
    option_map t_response (nth_error (tables after) (List.length (tables w)))
    = Some (Some response).
Proof.
  intros after path url parms. subst after.
  unfold mbind. rewrite ServiceNow_table_spec.
  set (t := mkTable name _ None).
  set (w1 := mkWorld _ _ _).
  assert (Ht : nth_error (tables w1) (List.length (tables w)) = Some t)
    by apply nth_error_last.
  destruct (Table_get_spec requests_request str_ _ t sys_id refLinks w1 Ht)
    as (s' & E & LR & LQ).
  rewrite E. cbn [session tables]. split.
  - rewrite LQ. f_equal. f_equal.
    subst url path. unfold request_url. cbn [tableurl t].
    destruct sys_id as [id|]; [destruct (String.eqb id "")|]; reflexivity.
  - eexists. split; [exact LR|].
    subst w1. cbn [tables]. rewrite update_nth_last, nth_error_last.
    reflexivity.
Qed.

(** X15. [link(rec)]: a record without ['sys_class_name'] or without
    ['sys_id'] raises [KeyError], a value that is not a string raises
    [TypeError]; otherwise the menu link is
    [<base>/nav_to.do?uri=<table>.do?sys_id=<id>] and the direct link is
    [<base>/<table>.do?sys_id=<id>]. *)
Theorem ServiceNow_link_cases (self : ServiceNow) (fields : dict) (menu : bool) :
  (dict_get fields (PyStr "sys_class_name") = None \/
   dict_get fields (PyStr "sys_id") = None ->
   raised (ServiceNow_link self (PyDict fields) menu) = Some KeyError) /\
  (forall table sys_id,
     dict_get fields (PyStr "sys_class_name") = Some table ->
     dict_get fields (PyStr "sys_id") = Some sys_id ->
     as_str table = Raise TypeError "can only concatenate str to str" \/
     as_str sys_id = Raise TypeError "can only concatenate str to str" ->
     raised (ServiceNow_link self (PyDict fields) menu) = Some TypeError) /\
  (forall table sys_id,
     dict_get fields (PyStr "sys_class_name") = Some (PyStr table) ->
     dict_get fields (PyStr "sys_id") = Some (PyStr sys_id) ->
     ServiceNow_link self (PyDict fields) true =
       Ok (baseurl self ++ "/nav_to.do?uri=" ++ table ++ ".do?sys_id=" ++ sys_id) /\
     (startswith "/" table = false ->
      ServiceNow_link self (PyDict fields) false =
        Ok (baseurl self ++ "/" ++ table ++ ".do?sys_id=" ++ sys_id))).
Proof.
  unfold ServiceNow_link, getitem. split; [|split].
  - intros [H|H].
    + rewrite H. reflexivity.
    + destruct (dict_get fields (PyStr "sys_class_name")); [|reflexivity].
      cbn [bind]. rewrite H. reflexivity.
  - intros table sys_id Ht Hi H. rewrite Ht, Hi. cbn [bind].
    destruct H as [H|H].
    + rewrite H. destruct menu; reflexivity.
    + destruct table; cbn [as_str bind]; try (destruct menu; reflexivity).
      rewrite H. destruct menu; reflexivity.
  - intros table sys_id Ht Hi. rewrite Ht, Hi. cbn [bind as_str]. split.
    + unfold ServiceNow_url. cbn [startswith append Ascii.eqb Bool.eqb negb andb].
      rewrite append_assoc. reflexivity.
    + intros S. unfold ServiceNow_url.
      rewrite (not_leading_slash table (".do?sys_id=" ++ sys_id) S eq_refl).
      cbn [negb]. rewrite append_assoc. reflexivity.
Qed.

Lemma ServiceNow_link_cases_witness :
  ServiceNow_link sample_session
    (PyDict [(PyStr "sys_class_name", PyStr "incident");
             (PyStr "sys_id", PyStr "9d385017c611228701d22104cc95c371")]) false
  = Ok "https://myinstance.service-now.com/incident.do?sys_id=9d385017c611228701d22104cc95c371".
Proof.
  destruct (ServiceNow_link_cases sample_session
              [(PyStr "sys_class_name", PyStr "incident");
               (PyStr "sys_id", PyStr "9d385017c611228701d22104cc95c371")] false)
    as (_ & _ & H).
  destruct (H "incident" "9d385017c611228701d22104cc95c371" eq_refl eq_refl)
    as [_ D].
  exact (D eq_refl).
Defined.

(** X16. [connect] asks the table [sys_user] for the records with
    [user_name=<username>].  It returns when the answer is 200 with exactly
    one record, and raises [ServiceNowError] when the status is not 200,
    when the body is not JSON or has no ['result'], and when the number of
    records is not one.  A ['result'] that has no length, such as [null],
    escapes as [TypeError]. *)
Theorem connect_outcomes (requests_request : Request -> Response)
    (str_ : pyobj -> string) (w : World) :
  let params : dict :=
    [(PyStr "sysparm_query", PyStr ("user_name=" ++ username (session w)));
     (PyStr "sysparm_exclude_reference_link", PyStr "true")] in
  let response :=
    response_to requests_request w "GET"
      (baseurl (session w) ++ "/api/now/v1/table/sys_user") None
      (Some params) None in
  let outcome := fst (ServiceNow_connect requests_request str_ w) in
  let failure : result unit :=
    Raise ServiceNowError
      ("Unable to connect to " ++ baseurl (session w) ++ " as " ++
       username (session w)) in
  (status_code response <> 200 -> outcome = failure) /\
  (status_code response = 200 ->
   (body_json response = None -> outcome = failure) /\
   (forall body, body_json response = Some (PyDict body) ->
      dict_get body (PyStr "result") = None -> outcome = failure) /\
   (forall body recs, body_json response = Some (PyDict body) ->
      dict_get body (PyStr "result") = Some (PyList recs) ->
      outcome = if (List.length recs =? 1)%nat then Ok tt else failure) /\
   (forall body, body_json response = Some (PyDict body) ->
      dict_get body (PyStr "result") = Some PyNone ->
      raised outcome = Some TypeError)).
Proof.
  intros params response outcome failure.
  assert (O : outcome =
              match (if negb (status_code response =? 200) then Ok (PyList [])
                     else body <- json response ;; getitem body "result") with
              | Raise _ _ => failure
              | Ok recs =>
                  n <- py_len recs ;;
                  if negb (n =? 1) then failure else Ok tt
              end)
    by exact (ServiceNow_connect_outcome requests_request str_ w).
  clearbody outcome response. subst outcome. split.
  - intros S. apply Z.eqb_neq in S. rewrite S. reflexivity.
  - intros S. rewrite S. cbn [Z.eqb Pos.eqb negb]. unfold json.
    repeat split.
    + intros B. rewrite B. reflexivity.
    + intros body B L. rewrite B. cbn [bind getitem]. rewrite L. reflexivity.
    + intros body recs B L. rewrite B. cbn [bind getitem]. rewrite L.
      cbn [bind py_len].
      destruct (Nat.eqb_spec (List.length recs) 1) as [E|E].
      * rewrite E. reflexivity.
      * replace (Z.of_nat (List.length recs) =? 1) with false; [reflexivity|].
        symmetry. apply Z.eqb_neq. lia.
    + intros body B L. rewrite B. cbn [bind getitem]. rewrite L. reflexivity.
Qed.

Lemma connect_outcomes_witness :
  fst (ServiceNow_connect (server 401 error_body) sample_str sample_world)
  = Raise ServiceNowError
      "Unable to connect to https://myinstance.service-now.com as admin".
Proof.
  destruct (connect_outcomes (server 401 error_body) sample_str sample_world)
    as [H _].
  apply H. discriminate.
Defined.

(** X17. A request leaves the base URL, the user name and the credentials
    of the connection as they were, keeps the response as the last
    response, and takes the [JSESSIONID] cookie of the response when it has
    a non-empty one; the request after it is sent with that cookie. *)
Theorem request_keeps_session (requests_request : Request -> Response)
    (method url : string) (sys_id : option string) (params : option dict)
    (data : option string) (w : World) :
  let response := response_to requests_request w method url sys_id params data in
  let w' :=
    snd (ServiceNow_request requests_request method url sys_id params data w) in
  baseurl (session w') = baseurl (session w) /\
  username (session w') = username (session w) /\
  auth (session w') = auth (session w) /\
  lastResponse (session w') = Some response /\
  cookies (session w') = cookies_after (session w) response /\
  tables w' = tables w /\ queries w' = queries w /\
  forall method2 url2 sys_id2 params2 data2,
    fst (ServiceNow_request requests_request method2 url2 sys_id2 params2 data2 w')
    = Ok (requests_request
            (mkRequest (upper method2) (request_url url2 sys_id2) ACCEPT_JSON
               params2 data2 (auth (session w))
               (cookies_after (session w) response))).
Proof.
  intros response w'. subst w'.
  destruct (ServiceNow_request_full requests_request method url sys_id params
              data w) as (s' & E & B & U & A & C & LR & _).
  fold response in E, C, LR. rewrite E. cbn [snd session tables queries].
  repeat split; try assumption.
  intros method2 url2 sys_id2 params2 data2.
  destruct (ServiceNow_request_full requests_request method2 url2 sys_id2
              params2 data2 (mkWorld s' (tables w) (queries w)))
    as (s2 & E2 & _).
  rewrite E2. cbn [fst]. unfold response_to. cbn [session].
  rewrite A, C. reflexivity.
Qed.

(** X18. [getChoices(element)] sends one GET to the table [sys_choice] with
    [sysparm_query] set to [name=<table>^element=<element>] and
    [sysparm_exclude_reference_link] set to ['true']. *)
Theorem getChoices_request (requests_request : Request -> Response)
    (str_ : pyobj -> string) (w : World) (self : nat) (t : Table)
    (element : string) (inactive : bool) :
  nth_error (tables w) self = Some t ->
  lastRequest
    (session (snd (Table_getChoices requests_request str_ self element
                     inactive w))) =
  Some (mkLastRequest "GET"
          (baseurl (session w) ++ "/api/now/v1/table/sys_choice")
          (Some [(PyStr "sysparm_query",
                  PyStr ("name=" ++ t_name t ++ "^element=" ++ element));
                 (PyStr "sysparm_exclude_reference_link", PyStr "true")])).
Proof.
  intros Ht.
  destruct (Table_getChoices_full requests_request str_ self t element inactive
              w Ht) as (w' & E & LQ).
  rewrite E. exact LQ.
Qed.

Lemma getChoices_request_witness :
  lastRequest
    (session (snd (Table_getChoices (server 200 choices_body) sample_str 0
                     "state" false sample_world))) =
  Some (mkLastRequest "GET"
          "https://myinstance.service-now.com/api/now/v1/table/sys_choice"
          (Some [(PyStr "sysparm_query", PyStr "name=incident^element=state");
                 (PyStr "sysparm_exclude_reference_link", PyStr "true")])).
Proof.
  exact (getChoices_request (server 200 choices_body) sample_str sample_world
           0 incident "state" false eq_refl).
Defined.

(** X19. The ['inactive'] field of a record is read only when the flag is
    set.  For records that have a value and a label but no ['inactive']
    field, [getChoices] with the default flag returns the mapping, and with
    [inactive=True] it raises [KeyError]. *)
Theorem getChoices_without_inactive_field
    (requests_request : Request -> Response) (str_ : pyobj -> string)
    (w : World) (self : nat) (t : Table) (element : string)
    (body : dict) (pairs : list (string * string)) :
  nth_error (tables w) self = Some t ->
  let response :=
    response_to requests_request w "GET"
      (baseurl (session w) ++ "/api/now/v1/table/sys_choice") None
      (Some [(PyStr "sysparm_query",
              PyStr ("name=" ++ t_name t ++ "^element=" ++ element));
             (PyStr "sysparm_exclude_reference_link", PyStr "true")]) None in
  status_code response = 200 ->
  body_json response = Some (PyDict body) ->
  dict_get body (PyStr "result") = Some (PyList (map plain_choice pairs)) ->
  pairs <> [] ->
  fst (Table_getChoices requests_request str_ self element false w) =
    Ok (PyDict (fold_left (fun d p => dict_set d (PyStr (fst p)) (PyStr (snd p)))
                  pairs [])) /\
  raised (fst (Table_getChoices requests_request str_ self element true w))
    = Some KeyError.
Proof.
  intros Ht response S B L N.
  destruct (Table_getChoices_full requests_request str_ self t element false
              w Ht) as (w1 & E1 & _).
  destruct (Table_getChoices_full requests_request str_ self t element true
              w Ht) as (w2 & E2 & _).
  cbv zeta in E1, E2.
  change (response_to requests_request w "GET"
            (ServiceNow_url (session w) "/api/now/v1/table/sys_choice") None
            (Some [(PyStr "sysparm_query",
                    PyStr ("name=" ++ t_name t ++ "^element=" ++ element));
                   (PyStr "sysparm_exclude_reference_link", PyStr "true")])
            None) with response in E1, E2.
  rewrite E1, E2. clear E1 E2. cbn [fst].
  rewrite S. cbn [Z.eqb Pos.eqb negb]. unfold json. rewrite B.
  cbn [bind getitem]. rewrite L. cbn [bind iterate]. split.
  - rewrite getChoices_loop_plain. cbn [bind].
    pose proof (fold_dict_set_nonempty pairs [] (or_introl N)) as F.
    revert F.
    match goal with
    | |- context [fold_left ?f pairs []] => destruct (fold_left f pairs [])
    end; [congruence|reflexivity].
  - destruct pairs as [|[v l] pairs]; [congruence|]. reflexivity.
Qed.

Lemma getChoices_without_inactive_field_witness :
  fst (Table_getChoices
         (server 200 (PyDict [(PyStr "result",
                               PyList (map plain_choice [("1", "New")]))]))
         sample_str 0 "state" false sample_world)
  = Ok (PyDict [(PyStr "1", PyStr "New")]).
Proof.
  exact (proj1 (getChoices_without_inactive_field
                  (server 200 (PyDict [(PyStr "result",
                                        PyList (map plain_choice [("1", "New")]))]))
                  sample_str sample_world 0 incident "state"
                  [(PyStr "result", PyList (map plain_choice [("1", "New")]))]
                  [("1", "New")] eq_refl eq_refl eq_refl eq_refl
                  ltac:(discriminate))).
Defined.

(** X20. When several records carry the same value, the mapping that
    [getChoices] returns gives that value the label of the last of them,
    and a value that no record carries is not in the mapping. *)
Theorem getChoices_last_label_wins
    (requests_request : Request -> Response) (str_ : pyobj -> string)
    (w : World) (self : nat) (t : Table) (element : string)
    (body : dict) (pairs : list (string * string)) :
  nth_error (tables w) self = Some t ->
  let response :=
    response_to requests_request w "GET"
      (baseurl (session w) ++ "/api/now/v1/table/sys_choice") None
      (Some [(PyStr "sysparm_query",
              PyStr ("name=" ++ t_name t ++ "^element=" ++ element));
             (PyStr "sysparm_exclude_reference_link", PyStr "true")]) None in
  status_code response = 200 ->
  body_json response = Some (PyDict body) ->
  dict_get body (PyStr "result") = Some (PyList (map plain_choice pairs)) ->
  pairs <> [] ->
  exists choices,
    fst (Table_getChoices requests_request str_ self element false w)
    = Ok (PyDict choices) /\
    forall value,
      dict_get choices (PyStr value) =
      option_map PyStr (last_label value pairs).
Proof.
  intros Ht response S B L N.
  destruct (Table_getChoices_full requests_request str_ self t element false
              w Ht) as (w1 & E1 & _).
  cbv zeta in E1.
  change (response_to requests_request w "GET"
            (ServiceNow_url (session w) "/api/now/v1/table/sys_choice") None
            (Some [(PyStr "sysparm_query",
                    PyStr ("name=" ++ t_name t ++ "^element=" ++ element));
                   (PyStr "sysparm_exclude_reference_link", PyStr "true")])
            None) with response in E1.
  rewrite E1. clear E1. cbn [fst].
  rewrite S. cbn [Z.eqb Pos.eqb negb]. unfold json. rewrite B.
  cbn [bind getitem]. rewrite L. cbn [bind iterate].
  rewrite getChoices_loop_plain. cbn [bind].
  pose proof (fold_dict_set_nonempty pairs [] (or_introl N)) as F.
  pose proof (dict_get_fold pairs []) as G.
  revert F G.
  match goal with
  | |- context [fold_left ?f pairs []] =>
      destruct (fold_left f pairs []) as [|c choices]
  end; intros F G; [congruence|].
  eexists. split; [reflexivity|].
  intros value. rewrite G. cbn [dict_get].
  destruct (last_label value pairs); reflexivity.
Qed.

Lemma getChoices_last_label_wins_witness :
  exists choices,
    fst (Table_getChoices
           (server 200 (PyDict [(PyStr "result",
                                 PyList (map plain_choice
                                           [("1", "New"); ("1", "Open")]))]))
           sample_str 0 "state" false sample_world)
    = Ok (PyDict choices) /\
    dict_get choices (PyStr "1") = Some (PyStr "Open").
Proof.
  destruct (getChoices_last_label_wins
              (server 200 (PyDict [(PyStr "result",
                                    PyList (map plain_choice
                                              [("1", "New"); ("1", "Open")]))]))
              sample_str sample_world 0 incident "state"
              [(PyStr "result",
                PyList (map plain_choice [("1", "New"); ("1", "Open")]))]
              [("1", "New"); ("1", "Open")] eq_refl eq_refl eq_refl eq_refl
              ltac:(discriminate)) as (choices & E & G).
  exists choices. split; [exact E|]. exact (G "1").
Defined.

(** X21. [insert] on a 2xx answer whose body carries a ['result']: with
    [fields] it returns that record; without, it asks for [sys_id] only and
    returns the ['sys_id'] of the record ([KeyError] when there is none).
    A sequence of field names is sent joined with commas. *)
Theorem insert_success (requests_request : Request -> Response)
    (str_ : pyobj -> string) (json_dumps : pyobj -> result string)
    (w : World) (self : nat) (t : Table) (record fields : pyobj)
    (data sysparm_fields : string) (body : dict) (rec : pyobj) :
  nth_error (tables w) self = Some t ->
  json_dumps record = Ok data ->
  insert_fields fields = Ok sysparm_fields ->
  let response :=
    response_to requests_request w "POST" (tableurl t) None
      (Some [(PyStr "sysparm_fields", PyStr sysparm_fields)]) (Some data) in
  200 <= status_code response <= 299 ->
  body_json response = Some (PyDict body) ->
  dict_get body (PyStr "result") = Some rec ->
  let outcome :=
    fst (Table_insert requests_request str_ json_dumps self record fields w) in
  (truthy fields = true -> outcome = Ok rec) /\
  (truthy fields = false ->
   sysparm_fields = "sys_id" /\ outcome = getitem rec "sys_id") /\
  (forall names, names <> [] ->
   insert_fields (PyList (map PyStr names)) = Ok (join "," names)).
Proof.
  intros Ht D F response S B L outcome.
  assert (O : outcome =
              if negb ((200 <=? status_code response)
                       && (status_code response <=? 299))
              then
                body <- json response ;;
                Raise ServiceNowError
                  ("Status: " ++ str_ (PyInt (status_code response)) ++ newline ++
                   "Headers: " ++ str_ (headers response) ++ newline ++
                   str_ body)%string
              else
                body <- json response ;;
                result <- getitem body "result" ;;
                if truthy fields then Ok result else getitem result "sys_id")
    by exact (Table_insert_outcome requests_request str_ json_dumps self t
                record fields data sysparm_fields w Ht D F).
  clearbody outcome response. subst outcome.
  replace ((200 <=? status_code response) && (status_code response <=? 299))
    with true
    by (symmetry; apply andb_true_iff; rewrite !Z.leb_le; lia).
  cbn [negb]. unfold json. rewrite B. cbn [bind getitem]. rewrite L.
  cbn [bind]. repeat split.
  - intros T. now rewrite T.
  - unfold insert_fields in F. rewrite H in F. now injection F.
  - now rewrite H.
  - intros names N. unfold insert_fields, fields_string, join_comma.
    destruct names as [|x names]; [congruence|].
    cbn [truthy map iterate bind].
    change (PyStr x :: map PyStr names) with (map PyStr (x :: names)).
    rewrite strings_of_map. reflexivity.
Qed.

Lemma insert_success_witness :
  fst (Table_insert
         (server 201 (PyDict [(PyStr "result",
                               PyDict [(PyStr "sys_id", PyStr "46d44a23a9fe19810012d100cca80666")])]))
         sample_str sample_dumps 0 (PyDict []) PyNone sample_world)
  = Ok (PyStr "46d44a23a9fe19810012d100cca80666").
Proof.
  destruct (insert_success
              (server 201 (PyDict [(PyStr "result",
                                    PyDict [(PyStr "sys_id", PyStr "46d44a23a9fe19810012d100cca80666")])]))
              sample_str sample_dumps sample_world 0 incident (PyDict []) PyNone
              "{}" "sys_id"
              [(PyStr "result",
                PyDict [(PyStr "sys_id", PyStr "46d44a23a9fe19810012d100cca80666")])]
              (PyDict [(PyStr "sys_id", PyStr "46d44a23a9fe19810012d100cca80666")])
              eq_refl eq_refl eq_refl) as (_ & H & _).
  - cbn. lia.
  - reflexivity.
  - reflexivity.
  - exact (proj2 (H eq_refl)).
Defined.

(** X22. [setFields] stores a non-empty sequence of names joined with
    commas and a non-empty string as it is; [None], an empty string or an
    empty sequence clear the restriction; a sequence with an element that
    is not a string raises [TypeError] and leaves every object as it was. *)
Theorem setFields_cases (w : World) (self : nat) (q : Query) :
  nth_error (queries w) self = Some q ->
  let stored := fun v =>
    nth_error (queries (snd (Query_setFields self v w))) self in
  let with_fields := fun f =>
    Some (mkQuery (q_table q) (q_query q) f (q_limit q) (exclude_ref_links q)
            (q_response q)) in
  (forall names, names <> [] ->
     stored (PyList (map PyStr names)) = with_fields (PyStr (join "," names))) /\
  (forall s, s <> "" -> stored (PyStr s) = with_fields (PyStr s)) /\
  (forall v, truthy v = false -> stored v = with_fields PyNone) /\
  (forall items, forallb is_PyStr items = false ->
     raised (fst (Query_setFields self (PyList items) w)) = Some TypeError /\
     snd (Query_setFields self (PyList items) w) = w).
Proof.
  intros Hq stored with_fields. subst stored with_fields. cbv beta.
  repeat split.
  - intros names N.
    rewrite (Query_setFields_spec self q _ (PyStr (join "," names)) w Hq).
    + cbn [snd queries]. apply (nth_error_update_nth _ _ _ _ Hq).
    + destruct names as [|x names]; [congruence|].
      cbn [truthy map]. unfold fields_string, join_comma. cbn [iterate bind].
      change (PyStr x :: map PyStr names) with (map PyStr (x :: names)).
      rewrite strings_of_map. reflexivity.
  - intros s N.
    rewrite (Query_setFields_spec self q _ (PyStr s) w Hq).
    + cbn [snd queries]. apply (nth_error_update_nth _ _ _ _ Hq).
    + cbn [truthy]. apply String.eqb_neq in N. rewrite N. reflexivity.
  - intros v T.
    rewrite (Query_setFields_spec self q _ PyNone w Hq).
    + cbn [snd queries]. apply (nth_error_update_nth _ _ _ _ Hq).
    + now rewrite T.
  - pose proof (strings_of_not_all items H) as R.
    unfold Query_setFields, mbind, get_query, lift. rewrite Hq.
    destruct items as [|x items]; [discriminate H|].
    cbn [truthy]. unfold fields_string, join_comma. cbn [iterate bind].
    destruct (strings_of (x :: items)); [discriminate R|exact R].
  - unfold Query_setFields, mbind, get_query, lift. rewrite Hq.
    pose proof (strings_of_not_all items H) as R.
    destruct items as [|x items]; [discriminate H|].
    cbn [truthy]. unfold fields_string, join_comma. cbn [iterate bind].
    destruct (strings_of (x :: items)); [discriminate R|reflexivity].
Qed.

Lemma setFields_cases_witness :
  nth_error
    (queries (snd (Query_setFields 0 (PyList [PyStr "number"; PyStr "state"])
                     world_with_query))) 0
  = Some (mkQuery 0 PyNone (PyStr "number,state") PyNone (PyStr "true") None).
Proof.
  destruct (setFields_cases world_with_query 0
              (mkQuery 0 PyNone PyNone PyNone (PyStr "true") None) eq_refl)
    as (H & _).
  exact (H ["number"; "state"] ltac:(discriminate)).
Defined.

(** X23. [setLimit] with a limit that counts as false (0, as well as
    [None]) removes the limit: [run()] sends no [sysparm_limit]; with any
    other limit [run()] sends [str(limit)]. *)
Theorem setLimit_cases (requests_request : Request -> Response)
    (str_ : pyobj -> string) (w : World) (self : nat) (q : Query) (t : Table) :
  nth_error (queries w) self = Some q ->
  nth_error (tables w) (q_table q) = Some t ->
  let sent := fun limit =>
    match issued_params
            (snd (Query_run requests_request self
                    (snd (Query_setLimit str_ self limit w)))) with
    | Some params => dict_get params (PyStr "sysparm_limit")
    | None => None
    end in
  sent (PyInt 0) = None /\
  (forall limit, truthy limit = false -> sent limit = None) /\
  (forall limit, truthy limit = true -> str_ limit <> "" ->
     sent limit = Some (PyStr (str_ limit))).
Proof.
  intros Hq Ht sent.
  assert (E : forall limit,
             sent limit =
             if truthy limit
             then (if truthy (PyStr (str_ limit))
                   then Some (PyStr (str_ limit)) else None)
             else None).
  { intros limit. subst sent. cbv beta.
    rewrite (Query_setLimit_spec str_ self q limit w Hq). cbn [snd].
    match goal with
    | |- context [update_nth self ?q' (queries w)] =>
        rewrite (run_after_setter requests_request self q q' t w Hq Ht);
        rewrite (run_params_limit q')
    end.
    cbn [q_limit]. destruct (truthy limit); reflexivity. }
  clearbody sent. repeat split.
  - rewrite E. reflexivity.
  - intros limit T. rewrite E, T. reflexivity.
  - intros limit T N. rewrite E, T. cbn [truthy].
    apply String.eqb_neq in N. rewrite N. reflexivity.
Qed.

Lemma setLimit_cases_witness :
  match issued_params
          (snd (Query_run (server 200 empty_body) 0
                  (snd (Query_setLimit sample_str 0 (PyInt 0) world_with_query))))
  with
  | Some params => dict_get params (PyStr "sysparm_limit")
  | None => None
  end = None.
Proof.
  exact (proj1 (setLimit_cases (server 200 empty_body) sample_str
                  world_with_query 0
                  (mkQuery 0 PyNone PyNone PyNone (PyStr "true") None) incident
                  eq_refl eq_refl)).
Defined.



(** X25. [logResponse] logs nothing when the level is off, and otherwise
    three messages, the last showing the body: whole when it has at most
    256 characters, else its first 256 followed by ['<<truncated>>'], so
    never more than 269.  [_request] logs a 200 answer at DEBUG only, and
    any other answer at INFO as well. *)
Theorem logging_shape (isEnabledFor : level -> bool) (str_ : pyobj -> string)
    (str_request : LastRequest -> string) (request : LastRequest)
    (response : Response) (text : string) :
  (String.length (shown_text text) <= 269)%nat /\
  ((String.length text <= 256)%nat -> shown_text text = text) /\
  ((256 < String.length text)%nat ->
   shown_text text = substring 0 256 text ++ "<<truncated>>") /\
  (forall lvl, isEnabledFor lvl = false ->
     logResponse isEnabledFor str_ response text lvl = []) /\
  (forall lvl, isEnabledFor lvl = true ->
     exists m1 m2,
       logResponse isEnabledFor str_ response text lvl =
       [(lvl, m1); (lvl, m2); (lvl, "text=" ++ shown_text text)]) /\
  (status_code response = 200 ->
   Forall (fun m => fst m = DEBUG)
     (request_log isEnabledFor str_ str_request request response text)) /\
  (status_code response <> 200 -> isEnabledFor INFO = true ->
   In (INFO, "text=" ++ shown_text text)
     (request_log isEnabledFor str_ str_request request response text)).
Proof.
  split; [|split; [|split; [|split; [|split; [|split]]]]].
  - unfold shown_text, DEBUG_LEN.
    destruct (Nat.ltb_spec 256 (String.length text)).
    + rewrite length_append, substring_0_length. cbn [String.length]. lia.
    + lia.
  - intros H. unfold shown_text, DEBUG_LEN.
    destruct (Nat.ltb_spec 256 (String.length text)); [lia|reflexivity].
  - intros H. unfold shown_text, DEBUG_LEN.
    destruct (Nat.ltb_spec 256 (String.length text)); [reflexivity|lia].
  - intros lvl H. unfold logResponse. now rewrite H.
  - intros lvl H. unfold logResponse. rewrite H. eexists _, _. reflexivity.
  - intros S. unfold request_log, logRequest, logResponse. rewrite S.
    cbn [Z.eqb Pos.eqb negb]. rewrite app_nil_r.
    destruct (isEnabledFor DEBUG); cbn [app]; repeat constructor.
  - intros S E. unfold request_log. apply Z.eqb_neq in S. rewrite S.
    cbn [negb]. apply in_or_app. right. apply in_or_app. right.
    apply in_or_app. right. unfold logResponse. rewrite E.
    cbn [In]. auto.
Qed.

Lemma logging_shape_witness :
  logResponse (fun _ => true) sample_str (server 200 empty_body (mkRequest "GET" "" [] None None ("", "") None))
    "{}" INFO
  = [(INFO, "status_code=<object>"); (INFO, "headers=<object>");
     (INFO, "text={}")].
Proof.
  destruct (logging_shape (fun _ => true) sample_str (fun _ => "")
              (mkLastRequest "GET" "" None)
              (server 200 empty_body (mkRequest "GET" "" [] None None ("", "") None))
              "{}") as (_ & _ & _ & _ & H & _).
  destruct (H INFO eq_refl) as (m1 & m2 & E).
  rewrite E. vm_compute in E. injection E as <- <-. reflexivity.
Defined.

(** X26. [update] sends a PUT with the serialised values, and [delete] a
    DELETE, to [<table URL>/<sys_id>], without parameters; with a [sys_id]
    that is [None] or empty the request goes to the URL of the table
    itself.  When the values cannot be serialised, [update] raises before
    anything is sent and leaves every object as it was. *)
Theorem update_delete_requests (requests_request : Request -> Response)
    (json_dumps : pyobj -> result string) (w : World) (self : nat) (t : Table)
    (sys_id : option string) (fieldvalues : pyobj) :
  nth_error (tables w) self = Some t ->
  let url :=
    match sys_id with
    | Some id => if String.eqb id "" then tableurl t else tableurl t ++ "/" ++ id
    | None => tableurl t
    end in
  (forall data, json_dumps fieldvalues = Ok data ->
     let w' := snd (Table_update requests_request json_dumps self sys_id
                      fieldvalues w) in
     lastRequest (session w') = Some (mkLastRequest "PUT" url None) /\
     lastResponse (session w') =
       Some (requests_request
               (mkRequest "PUT" url ACCEPT_JSON None (Some data)
                  (auth (session w)) (cookies (session w)))) /\
     tables w' = tables w /\ queries w' = queries w) /\
  (forall c msg, json_dumps fieldvalues = Raise c msg ->
     Table_update requests_request json_dumps self sys_id fieldvalues w
     = (Raise c msg, w)) /\
  (let w' := snd (Table_delete requests_request self sys_id w) in
   lastRequest (session w') = Some (mkLastRequest "DELETE" url None) /\
   lastResponse (session w') =
     Some (requests_request
             (mkRequest "DELETE" url ACCEPT_JSON None None
                (auth (session w)) (cookies (session w)))) /\
   tables w' = tables w /\ queries w' = queries w).
Proof.
  intros Ht url.
  assert (U : forall m, request_url (tableurl t) sys_id = url /\ upper m = upper m).
  { intros m. split; [|reflexivity]. subst url. unfold request_url.
    destruct sys_id as [id|]; [destruct (String.eqb id "")|]; reflexivity. }
  destruct (U "") as [Eu _]. clear U.
  split; [|split].
  - intros data D w'. subst w'.
    unfold Table_update, mbind, lift, ret. rewrite D.
    destruct (Table_request_spec requests_request self t "PUT" sys_id None
                (Some data) w Ht) as (s' & E & LR & LQ).
    rewrite E. cbn [snd session tables queries].
    rewrite LR, LQ, Eu. unfold response_to. rewrite Eu.
    repeat split.
  - intros c msg D. unfold Table_update, mbind, lift. rewrite D. reflexivity.
  - intros w'. subst w'. unfold Table_delete, mbind, ret.
    destruct (Table_request_spec requests_request self t "DELETE" sys_id None
                None w Ht) as (s' & E & LR & LQ).
    rewrite E. cbn [snd session tables queries].
    rewrite LR, LQ, Eu. unfold response_to. rewrite Eu.
    repeat split.
Qed.

Lemma update_delete_requests_witness :
  lastRequest
    (session (snd (Table_delete (server 204 empty_body) 0
                     (Some "9d385017c611228701d22104cc95c371") sample_world)))
  = Some (mkLastRequest "DELETE"
            "https://myinstance.service-now.com/api/now/v1/table/incident/9d385017c611228701d22104cc95c371"
            None).
Proof.
  destruct (update_delete_requests (server 204 empty_body) sample_dumps
              sample_world 0 incident
              (Some "9d385017c611228701d22104cc95c371") PyNone eq_refl)
    as (_ & _ & H & _).
  exact H.
Defined.

End Extra.
